(** * airtravel.py: seat allocation for passenger flights

    A shallow embedding of [src/airtravel.py] and the properties of its
    [Flight] class.

    Conventions of the embedding.
    - A Python [str] is a [str]: the sequence of its code points, each an
      [N].  The character classes used by [str.isalpha], [str.isupper],
      [str.isdigit] and [int] are tables of ranges of code points, those of
      the Unicode database (14.0) of CPython 3.11.  A string literal stands
      for the code points its UTF-8 text encodes.
    - A Python [int] is a [Z]; [int(text)] is modelled without CPython's
      configurable limit on the number of digits.
    - A one-character [str] used as a dict key (a seat letter) is a [char],
      its code point.
    - The list [self._seating] is a [list]; each row dict is a [gmap] from
      seat letter to occupant ([None] or the passenger's name).
    - Methods that mutate [self] are computations in a state-and-exception
      monad over [Flight]; the state at the point where an exception is
      raised is part of the result. *)

From Stdlib Require Import ZArith NArith Ascii String DecimalString DecimalZ.
From Stdlib Require Import Sorted Permutation.
From stdpp Require Import base numbers option list gmap fin_maps sorting.

(** ** Strings of code points *)

(** A character: its code point. *)
Abbreviation char := N.

Inductive str : Type :=
| EmptyStr
| StrCons (c : char) (s : str).

#[export] Instance str_eq_dec : EqDecision str.
Proof. solve_decision. Defined.

(** The code points that a list of UTF-8 bytes encodes. *)
Definition continuation (b : Byte.byte) : N := Byte.to_N b - 128.

Fixpoint of_utf8 (bytes : list Byte.byte) : option str :=
  match bytes with
  | [] => Some EmptyStr
  | b0 :: rest =>
      let n0 := Byte.to_N b0 in
      if (n0 <? 128)%N then StrCons n0 <$> of_utf8 rest
      else if (n0 <? 192)%N then None
      else if (n0 <? 224)%N then
        match rest with
        | b1 :: rest =>
            StrCons ((n0 - 192) * 64 + continuation b1)%N <$> of_utf8 rest
        | _ => None
        end
      else if (n0 <? 240)%N then
        match rest with
        | b1 :: b2 :: rest =>
            StrCons ((n0 - 224) * 4096 + continuation b1 * 64
                     + continuation b2)%N <$> of_utf8 rest
        | _ => None
        end
      else
        match rest with
        | b1 :: b2 :: b3 :: rest =>
            StrCons ((n0 - 240) * 262144 + continuation b1 * 4096
                     + continuation b2 * 64 + continuation b3)%N
            <$> of_utf8 rest
        | _ => None
        end
  end.

Definition byte_of (n : N) : Byte.byte := default Byte.x00 (Byte.of_N n).

Fixpoint to_utf8 (s : str) : list Byte.byte :=
  match s with
  | EmptyStr => []
  | StrCons c s' =>
      (if (c <? 128)%N then [byte_of c]
       else if (c <? 2048)%N then
         [byte_of (192 + c / 64); byte_of (128 + c mod 64)]
       else if (c <? 65536)%N then
         [byte_of (224 + c / 4096); byte_of (128 + (c / 64) mod 64);
          byte_of (128 + c mod 64)]
       else
         [byte_of (240 + c / 262144); byte_of (128 + (c / 4096) mod 64);
          byte_of (128 + (c / 64) mod 64); byte_of (128 + c mod 64)])%N
      ++ to_utf8 s'
  end.

Declare Scope str_scope.
Delimit Scope str_scope with str.
Bind Scope str_scope with str.
String Notation str of_utf8 to_utf8 : str_scope.

Local Open Scope str_scope.
Local Open Scope Z_scope.
Local Open Scope list_scope.

(** [ord(c)] for a one-character string. *)
Definition ord (c : str) : char :=
  match c with
  | StrCons n _ => n
  | EmptyStr => 0%N
  end.

(** ** Characters and the [str] methods the program calls *)

Module Char.

Local Open Scope N_scope.

Definition code (c : char) : N := c.

Definition in_range (r : N * N) (c : char) : bool :=
  (r.1 <=? c) && (c <=? r.2).

Definition in_table (table : list (N * N)) (c : char) : bool :=
  existsb (λ r, in_range r c) table.

(** [str.isalpha]: general categories Lu, Ll, Lt, Lm and Lo. *)
Definition alpha_table : list (N * N) :=
  [(65, 90); (97, 122); (170, 170); (181, 181); (186, 186); (192, 214);
   (216, 246); (248, 705); (710, 721); (736, 740); (748, 748); (750, 750);
   (880, 884); (886, 887); (890, 893); (895, 895); (902, 902); (904, 906);
   (908, 908); (910, 929); (931, 1013); (1015, 1153); (1162, 1327);
   (1329, 1366); (1369, 1369); (1376, 1416); (1488, 1514); (1519, 1522);
   (1568, 1610); (1646, 1647); (1649, 1747); (1749, 1749); (1765, 1766);
   (1774, 1775); (1786, 1788); (1791, 1791); (1808, 1808); (1810, 1839);
   (1869, 1957); (1969, 1969); (1994, 2026); (2036, 2037); (2042, 2042);
   (2048, 2069); (2074, 2074); (2084, 2084); (2088, 2088); (2112, 2136);
   (2144, 2154); (2160, 2183); (2185, 2190); (2208, 2249); (2308, 2361);
   (2365, 2365); (2384, 2384); (2392, 2401); (2417, 2432); (2437, 2444);
   (2447, 2448); (2451, 2472); (2474, 2480); (2482, 2482); (2486, 2489);
   (2493, 2493); (2510, 2510); (2524, 2525); (2527, 2529); (2544, 2545);
   (2556, 2556); (2565, 2570); (2575, 2576); (2579, 2600); (2602, 2608);
   (2610, 2611); (2613, 2614); (2616, 2617); (2649, 2652); (2654, 2654);
   (2674, 2676); (2693, 2701); (2703, 2705); (2707, 2728); (2730, 2736);
   (2738, 2739); (2741, 2745); (2749, 2749); (2768, 2768); (2784, 2785);
   (2809, 2809); (2821, 2828); (2831, 2832); (2835, 2856); (2858, 2864);
   (2866, 2867); (2869, 2873); (2877, 2877); (2908, 2909); (2911, 2913);
   (2929, 2929); (2947, 2947); (2949, 2954); (2958, 2960); (2962, 2965);
   (2969, 2970); (2972, 2972); (2974, 2975); (2979, 2980); (2984, 2986);
   (2990, 3001); (3024, 3024); (3077, 3084); (3086, 3088); (3090, 3112);
   (3114, 3129); (3133, 3133); (3160, 3162); (3165, 3165); (3168, 3169);
   (3200, 3200); (3205, 3212); (3214, 3216); (3218, 3240); (3242, 3251);
   (3253, 3257); (3261, 3261); (3293, 3294); (3296, 3297); (3313, 3314);
   (3332, 3340); (3342, 3344); (3346, 3386); (3389, 3389); (3406, 3406);
   (3412, 3414); (3423, 3425); (3450, 3455); (3461, 3478); (3482, 3505);
   (3507, 3515); (3517, 3517); (3520, 3526); (3585, 3632); (3634, 3635);
   (3648, 3654); (3713, 3714); (3716, 3716); (3718, 3722); (3724, 3747);
   (3749, 3749); (3751, 3760); (3762, 3763); (3773, 3773); (3776, 3780);
   (3782, 3782); (3804, 3807); (3840, 3840); (3904, 3911); (3913, 3948);
   (3976, 3980); (4096, 4138); (4159, 4159); (4176, 4181); (4186, 4189);
   (4193, 4193); (4197, 4198); (4206, 4208); (4213, 4225); (4238, 4238);
   (4256, 4293); (4295, 4295); (4301, 4301); (4304, 4346); (4348, 4680);
   (4682, 4685); (4688, 4694); (4696, 4696); (4698, 4701); (4704, 4744);
   (4746, 4749); (4752, 4784); (4786, 4789); (4792, 4798); (4800, 4800);
   (4802, 4805); (4808, 4822); (4824, 4880); (4882, 4885); (4888, 4954);
   (4992, 5007); (5024, 5109); (5112, 5117); (5121, 5740); (5743, 5759);
   (5761, 5786); (5792, 5866); (5873, 5880); (5888, 5905); (5919, 5937);
   (5952, 5969); (5984, 5996); (5998, 6000); (6016, 6067); (6103, 6103);
   (6108, 6108); (6176, 6264); (6272, 6276); (6279, 6312); (6314, 6314);
   (6320, 6389); (6400, 6430); (6480, 6509); (6512, 6516); (6528, 6571);
   (6576, 6601); (6656, 6678); (6688, 6740); (6823, 6823); (6917, 6963);
   (6981, 6988); (7043, 7072); (7086, 7087); (7098, 7141); (7168, 7203);
   (7245, 7247); (7258, 7293); (7296, 7304); (7312, 7354); (7357, 7359);
   (7401, 7404); (7406, 7411); (7413, 7414); (7418, 7418); (7424, 7615);
   (7680, 7957); (7960, 7965); (7968, 8005); (8008, 8013); (8016, 8023);
   (8025, 8025); (8027, 8027); (8029, 8029); (8031, 8061); (8064, 8116);
   (8118, 8124); (8126, 8126); (8130, 8132); (8134, 8140); (8144, 8147);
   (8150, 8155); (8160, 8172); (8178, 8180); (8182, 8188); (8305, 8305);
   (8319, 8319); (8336, 8348); (8450, 8450); (8455, 8455); (8458, 8467);
   (8469, 8469); (8473, 8477); (8484, 8484); (8486, 8486); (8488, 8488);
   (8490, 8493); (8495, 8505); (8508, 8511); (8517, 8521); (8526, 8526);
   (8579, 8580); (11264, 11492); (11499, 11502); (11506, 11507);
   (11520, 11557); (11559, 11559); (11565, 11565); (11568, 11623);
   (11631, 11631); (11648, 11670); (11680, 11686); (11688, 11694);
   (11696, 11702); (11704, 11710); (11712, 11718); (11720, 11726);
   (11728, 11734); (11736, 11742); (11823, 11823); (12293, 12294);
   (12337, 12341); (12347, 12348); (12353, 12438); (12445, 12447);
   (12449, 12538); (12540, 12543); (12549, 12591); (12593, 12686);
   (12704, 12735); (12784, 12799); (13312, 19903); (19968, 42124);
   (42192, 42237); (42240, 42508); (42512, 42527); (42538, 42539);
   (42560, 42606); (42623, 42653); (42656, 42725); (42775, 42783);
   (42786, 42888); (42891, 42954); (42960, 42961); (42963, 42963);
   (42965, 42969); (42994, 43009); (43011, 43013); (43015, 43018);
   (43020, 43042); (43072, 43123); (43138, 43187); (43250, 43255);
   (43259, 43259); (43261, 43262); (43274, 43301); (43312, 43334);
   (43360, 43388); (43396, 43442); (43471, 43471); (43488, 43492);
   (43494, 43503); (43514, 43518); (43520, 43560); (43584, 43586);
   (43588, 43595); (43616, 43638); (43642, 43642); (43646, 43695);
   (43697, 43697); (43701, 43702); (43705, 43709); (43712, 43712);
   (43714, 43714); (43739, 43741); (43744, 43754); (43762, 43764);
   (43777, 43782); (43785, 43790); (43793, 43798); (43808, 43814);
   (43816, 43822); (43824, 43866); (43868, 43881); (43888, 44002);
   (44032, 55203); (55216, 55238); (55243, 55291); (63744, 64109);
   (64112, 64217); (64256, 64262); (64275, 64279); (64285, 64285);
   (64287, 64296); (64298, 64310); (64312, 64316); (64318, 64318);
   (64320, 64321); (64323, 64324); (64326, 64433); (64467, 64829);
   (64848, 64911); (64914, 64967); (65008, 65019); (65136, 65140);
   (65142, 65276); (65313, 65338); (65345, 65370); (65382, 65470);
   (65474, 65479); (65482, 65487); (65490, 65495); (65498, 65500);
   (65536, 65547); (65549, 65574); (65576, 65594); (65596, 65597);
   (65599, 65613); (65616, 65629); (65664, 65786); (66176, 66204);
   (66208, 66256); (66304, 66335); (66349, 66368); (66370, 66377);
   (66384, 66421); (66432, 66461); (66464, 66499); (66504, 66511);
   (66560, 66717); (66736, 66771); (66776, 66811); (66816, 66855);
   (66864, 66915); (66928, 66938); (66940, 66954); (66956, 66962);
   (66964, 66965); (66967, 66977); (66979, 66993); (66995, 67001);
   (67003, 67004); (67072, 67382); (67392, 67413); (67424, 67431);
   (67456, 67461); (67463, 67504); (67506, 67514); (67584, 67589);
   (67592, 67592); (67594, 67637); (67639, 67640); (67644, 67644);
   (67647, 67669); (67680, 67702); (67712, 67742); (67808, 67826);
   (67828, 67829); (67840, 67861); (67872, 67897); (67968, 68023);
   (68030, 68031); (68096, 68096); (68112, 68115); (68117, 68119);
   (68121, 68149); (68192, 68220); (68224, 68252); (68288, 68295);
   (68297, 68324); (68352, 68405); (68416, 68437); (68448, 68466);
   (68480, 68497); (68608, 68680); (68736, 68786); (68800, 68850);
   (68864, 68899); (69248, 69289); (69296, 69297); (69376, 69404);
   (69415, 69415); (69424, 69445); (69488, 69505); (69552, 69572);
   (69600, 69622); (69635, 69687); (69745, 69746); (69749, 69749);
   (69763, 69807); (69840, 69864); (69891, 69926); (69956, 69956);
   (69959, 69959); (69968, 70002); (70006, 70006); (70019, 70066);
   (70081, 70084); (70106, 70106); (70108, 70108); (70144, 70161);
   (70163, 70187); (70272, 70278); (70280, 70280); (70282, 70285);
   (70287, 70301); (70303, 70312); (70320, 70366); (70405, 70412);
   (70415, 70416); (70419, 70440); (70442, 70448); (70450, 70451);
   (70453, 70457); (70461, 70461); (70480, 70480); (70493, 70497);
   (70656, 70708); (70727, 70730); (70751, 70753); (70784, 70831);
   (70852, 70853); (70855, 70855); (71040, 71086); (71128, 71131);
   (71168, 71215); (71236, 71236); (71296, 71338); (71352, 71352);
   (71424, 71450); (71488, 71494); (71680, 71723); (71840, 71903);
   (71935, 71942); (71945, 71945); (71948, 71955); (71957, 71958);
   (71960, 71983); (71999, 71999); (72001, 72001); (72096, 72103);
   (72106, 72144); (72161, 72161); (72163, 72163); (72192, 72192);
   (72203, 72242); (72250, 72250); (72272, 72272); (72284, 72329);
   (72349, 72349); (72368, 72440); (72704, 72712); (72714, 72750);
   (72768, 72768); (72818, 72847); (72960, 72966); (72968, 72969);
   (72971, 73008); (73030, 73030); (73056, 73061); (73063, 73064);
   (73066, 73097); (73112, 73112); (73440, 73458); (73648, 73648);
   (73728, 74649); (74880, 75075); (77712, 77808); (77824, 78894);
   (82944, 83526); (92160, 92728); (92736, 92766); (92784, 92862);
   (92880, 92909); (92928, 92975); (92992, 92995); (93027, 93047);
   (93053, 93071); (93760, 93823); (93952, 94026); (94032, 94032);
   (94099, 94111); (94176, 94177); (94179, 94179); (94208, 100343);
   (100352, 101589); (101632, 101640); (110576, 110579); (110581, 110587);
   (110589, 110590); (110592, 110882); (110928, 110930); (110948, 110951);
   (110960, 111355); (113664, 113770); (113776, 113788); (113792, 113800);
   (113808, 113817); (119808, 119892); (119894, 119964); (119966, 119967);
   (119970, 119970); (119973, 119974); (119977, 119980); (119982, 119993);
   (119995, 119995); (119997, 120003); (120005, 120069); (120071, 120074);
   (120077, 120084); (120086, 120092); (120094, 120121); (120123, 120126);
   (120128, 120132); (120134, 120134); (120138, 120144); (120146, 120485);
   (120488, 120512); (120514, 120538); (120540, 120570); (120572, 120596);
   (120598, 120628); (120630, 120654); (120656, 120686); (120688, 120712);
   (120714, 120744); (120746, 120770); (120772, 120779); (122624, 122654);
   (123136, 123180); (123191, 123197); (123214, 123214); (123536, 123565);
   (123584, 123627); (124896, 124902); (124904, 124907); (124909, 124910);
   (124912, 124926); (124928, 125124); (125184, 125251); (125259, 125259);
   (126464, 126467); (126469, 126495); (126497, 126498); (126500, 126500);
   (126503, 126503); (126505, 126514); (126516, 126519); (126521, 126521);
   (126523, 126523); (126530, 126530); (126535, 126535); (126537, 126537);
   (126539, 126539); (126541, 126543); (126545, 126546); (126548, 126548);
   (126551, 126551); (126553, 126553); (126555, 126555); (126557, 126557);
   (126559, 126559); (126561, 126562); (126564, 126564); (126567, 126570);
   (126572, 126578); (126580, 126583); (126585, 126588); (126590, 126590);
   (126592, 126601); (126603, 126619); (126625, 126627); (126629, 126633);
   (126635, 126651); (131072, 173791); (173824, 177976); (177984, 178205);
   (178208, 183969); (183984, 191456); (194560, 195101); (196608, 201546)].

(** [str.isupper] of one character: the property Uppercase. *)
Definition upper_table : list (N * N) :=
  [(65, 90); (192, 214); (216, 222); (256, 256); (258, 258); (260, 260);
   (262, 262); (264, 264); (266, 266); (268, 268); (270, 270); (272, 272);
   (274, 274); (276, 276); (278, 278); (280, 280); (282, 282); (284, 284);
   (286, 286); (288, 288); (290, 290); (292, 292); (294, 294); (296, 296);
   (298, 298); (300, 300); (302, 302); (304, 304); (306, 306); (308, 308);
   (310, 310); (313, 313); (315, 315); (317, 317); (319, 319); (321, 321);
   (323, 323); (325, 325); (327, 327); (330, 330); (332, 332); (334, 334);
   (336, 336); (338, 338); (340, 340); (342, 342); (344, 344); (346, 346);
   (348, 348); (350, 350); (352, 352); (354, 354); (356, 356); (358, 358);
   (360, 360); (362, 362); (364, 364); (366, 366); (368, 368); (370, 370);
   (372, 372); (374, 374); (376, 377); (379, 379); (381, 381); (385, 386);
   (388, 388); (390, 391); (393, 395); (398, 401); (403, 404); (406, 408);
   (412, 413); (415, 416); (418, 418); (420, 420); (422, 423); (425, 425);
   (428, 428); (430, 431); (433, 435); (437, 437); (439, 440); (444, 444);
   (452, 452); (455, 455); (458, 458); (461, 461); (463, 463); (465, 465);
   (467, 467); (469, 469); (471, 471); (473, 473); (475, 475); (478, 478);
   (480, 480); (482, 482); (484, 484); (486, 486); (488, 488); (490, 490);
   (492, 492); (494, 494); (497, 497); (500, 500); (502, 504); (506, 506);
   (508, 508); (510, 510); (512, 512); (514, 514); (516, 516); (518, 518);
   (520, 520); (522, 522); (524, 524); (526, 526); (528, 528); (530, 530);
   (532, 532); (534, 534); (536, 536); (538, 538); (540, 540); (542, 542);
   (544, 544); (546, 546); (548, 548); (550, 550); (552, 552); (554, 554);
   (556, 556); (558, 558); (560, 560); (562, 562); (570, 571); (573, 574);
   (577, 577); (579, 582); (584, 584); (586, 586); (588, 588); (590, 590);
   (880, 880); (882, 882); (886, 886); (895, 895); (902, 902); (904, 906);
   (908, 908); (910, 911); (913, 929); (931, 939); (975, 975); (978, 980);
   (984, 984); (986, 986); (988, 988); (990, 990); (992, 992); (994, 994);
   (996, 996); (998, 998); (1000, 1000); (1002, 1002); (1004, 1004);
   (1006, 1006); (1012, 1012); (1015, 1015); (1017, 1018); (1021, 1071);
   (1120, 1120); (1122, 1122); (1124, 1124); (1126, 1126); (1128, 1128);
   (1130, 1130); (1132, 1132); (1134, 1134); (1136, 1136); (1138, 1138);
   (1140, 1140); (1142, 1142); (1144, 1144); (1146, 1146); (1148, 1148);
   (1150, 1150); (1152, 1152); (1162, 1162); (1164, 1164); (1166, 1166);
   (1168, 1168); (1170, 1170); (1172, 1172); (1174, 1174); (1176, 1176);
   (1178, 1178); (1180, 1180); (1182, 1182); (1184, 1184); (1186, 1186);
   (1188, 1188); (1190, 1190); (1192, 1192); (1194, 1194); (1196, 1196);
   (1198, 1198); (1200, 1200); (1202, 1202); (1204, 1204); (1206, 1206);
   (1208, 1208); (1210, 1210); (1212, 1212); (1214, 1214); (1216, 1217);
   (1219, 1219); (1221, 1221); (1223, 1223); (1225, 1225); (1227, 1227);
   (1229, 1229); (1232, 1232); (1234, 1234); (1236, 1236); (1238, 1238);
   (1240, 1240); (1242, 1242); (1244, 1244); (1246, 1246); (1248, 1248);
   (1250, 1250); (1252, 1252); (1254, 1254); (1256, 1256); (1258, 1258);
   (1260, 1260); (1262, 1262); (1264, 1264); (1266, 1266); (1268, 1268);
   (1270, 1270); (1272, 1272); (1274, 1274); (1276, 1276); (1278, 1278);
   (1280, 1280); (1282, 1282); (1284, 1284); (1286, 1286); (1288, 1288);
   (1290, 1290); (1292, 1292); (1294, 1294); (1296, 1296); (1298, 1298);
   (1300, 1300); (1302, 1302); (1304, 1304); (1306, 1306); (1308, 1308);
   (1310, 1310); (1312, 1312); (1314, 1314); (1316, 1316); (1318, 1318);
   (1320, 1320); (1322, 1322); (1324, 1324); (1326, 1326); (1329, 1366);
   (4256, 4293); (4295, 4295); (4301, 4301); (5024, 5109); (7312, 7354);
   (7357, 7359); (7680, 7680); (7682, 7682); (7684, 7684); (7686, 7686);
   (7688, 7688); (7690, 7690); (7692, 7692); (7694, 7694); (7696, 7696);
   (7698, 7698); (7700, 7700); (7702, 7702); (7704, 7704); (7706, 7706);
   (7708, 7708); (7710, 7710); (7712, 7712); (7714, 7714); (7716, 7716);
   (7718, 7718); (7720, 7720); (7722, 7722); (7724, 7724); (7726, 7726);
   (7728, 7728); (7730, 7730); (7732, 7732); (7734, 7734); (7736, 7736);
   (7738, 7738); (7740, 7740); (7742, 7742); (7744, 7744); (7746, 7746);
   (7748, 7748); (7750, 7750); (7752, 7752); (7754, 7754); (7756, 7756);
   (7758, 7758); (7760, 7760); (7762, 7762); (7764, 7764); (7766, 7766);
   (7768, 7768); (7770, 7770); (7772, 7772); (7774, 7774); (7776, 7776);
   (7778, 7778); (7780, 7780); (7782, 7782); (7784, 7784); (7786, 7786);
   (7788, 7788); (7790, 7790); (7792, 7792); (7794, 7794); (7796, 7796);
   (7798, 7798); (7800, 7800); (7802, 7802); (7804, 7804); (7806, 7806);
   (7808, 7808); (7810, 7810); (7812, 7812); (7814, 7814); (7816, 7816);
   (7818, 7818); (7820, 7820); (7822, 7822); (7824, 7824); (7826, 7826);
   (7828, 7828); (7838, 7838); (7840, 7840); (7842, 7842); (7844, 7844);
   (7846, 7846); (7848, 7848); (7850, 7850); (7852, 7852); (7854, 7854);
   (7856, 7856); (7858, 7858); (7860, 7860); (7862, 7862); (7864, 7864);
   (7866, 7866); (7868, 7868); (7870, 7870); (7872, 7872); (7874, 7874);
   (7876, 7876); (7878, 7878); (7880, 7880); (7882, 7882); (7884, 7884);
   (7886, 7886); (7888, 7888); (7890, 7890); (7892, 7892); (7894, 7894);
   (7896, 7896); (7898, 7898); (7900, 7900); (7902, 7902); (7904, 7904);
   (7906, 7906); (7908, 7908); (7910, 7910); (7912, 7912); (7914, 7914);
   (7916, 7916); (7918, 7918); (7920, 7920); (7922, 7922); (7924, 7924);
   (7926, 7926); (7928, 7928); (7930, 7930); (7932, 7932); (7934, 7934);
   (7944, 7951); (7960, 7965); (7976, 7983); (7992, 7999); (8008, 8013);
   (8025, 8025); (8027, 8027); (8029, 8029); (8031, 8031); (8040, 8047);
   (8120, 8123); (8136, 8139); (8152, 8155); (8168, 8172); (8184, 8187);
   (8450, 8450); (8455, 8455); (8459, 8461); (8464, 8466); (8469, 8469);
   (8473, 8477); (8484, 8484); (8486, 8486); (8488, 8488); (8490, 8493);
   (8496, 8499); (8510, 8511); (8517, 8517); (8544, 8559); (8579, 8579);
   (9398, 9423); (11264, 11311); (11360, 11360); (11362, 11364);
   (11367, 11367); (11369, 11369); (11371, 11371); (11373, 11376);
   (11378, 11378); (11381, 11381); (11390, 11392); (11394, 11394);
   (11396, 11396); (11398, 11398); (11400, 11400); (11402, 11402);
   (11404, 11404); (11406, 11406); (11408, 11408); (11410, 11410);
   (11412, 11412); (11414, 11414); (11416, 11416); (11418, 11418);
   (11420, 11420); (11422, 11422); (11424, 11424); (11426, 11426);
   (11428, 11428); (11430, 11430); (11432, 11432); (11434, 11434);
   (11436, 11436); (11438, 11438); (11440, 11440); (11442, 11442);
   (11444, 11444); (11446, 11446); (11448, 11448); (11450, 11450);
   (11452, 11452); (11454, 11454); (11456, 11456); (11458, 11458);
   (11460, 11460); (11462, 11462); (11464, 11464); (11466, 11466);
   (11468, 11468); (11470, 11470); (11472, 11472); (11474, 11474);
   (11476, 11476); (11478, 11478); (11480, 11480); (11482, 11482);
   (11484, 11484); (11486, 11486); (11488, 11488); (11490, 11490);
   (11499, 11499); (11501, 11501); (11506, 11506); (42560, 42560);
   (42562, 42562); (42564, 42564); (42566, 42566); (42568, 42568);
   (42570, 42570); (42572, 42572); (42574, 42574); (42576, 42576);
   (42578, 42578); (42580, 42580); (42582, 42582); (42584, 42584);
   (42586, 42586); (42588, 42588); (42590, 42590); (42592, 42592);
   (42594, 42594); (42596, 42596); (42598, 42598); (42600, 42600);
   (42602, 42602); (42604, 42604); (42624, 42624); (42626, 42626);
   (42628, 42628); (42630, 42630); (42632, 42632); (42634, 42634);
   (42636, 42636); (42638, 42638); (42640, 42640); (42642, 42642);
   (42644, 42644); (42646, 42646); (42648, 42648); (42650, 42650);
   (42786, 42786); (42788, 42788); (42790, 42790); (42792, 42792);
   (42794, 42794); (42796, 42796); (42798, 42798); (42802, 42802);
   (42804, 42804); (42806, 42806); (42808, 42808); (42810, 42810);
   (42812, 42812); (42814, 42814); (42816, 42816); (42818, 42818);
   (42820, 42820); (42822, 42822); (42824, 42824); (42826, 42826);
   (42828, 42828); (42830, 42830); (42832, 42832); (42834, 42834);
   (42836, 42836); (42838, 42838); (42840, 42840); (42842, 42842);
   (42844, 42844); (42846, 42846); (42848, 42848); (42850, 42850);
   (42852, 42852); (42854, 42854); (42856, 42856); (42858, 42858);
   (42860, 42860); (42862, 42862); (42873, 42873); (42875, 42875);
   (42877, 42878); (42880, 42880); (42882, 42882); (42884, 42884);
   (42886, 42886); (42891, 42891); (42893, 42893); (42896, 42896);
   (42898, 42898); (42902, 42902); (42904, 42904); (42906, 42906);
   (42908, 42908); (42910, 42910); (42912, 42912); (42914, 42914);
   (42916, 42916); (42918, 42918); (42920, 42920); (42922, 42926);
   (42928, 42932); (42934, 42934); (42936, 42936); (42938, 42938);
   (42940, 42940); (42942, 42942); (42944, 42944); (42946, 42946);
   (42948, 42951); (42953, 42953); (42960, 42960); (42966, 42966);
   (42968, 42968); (42997, 42997); (65313, 65338); (66560, 66599);
   (66736, 66771); (66928, 66938); (66940, 66954); (66956, 66962);
   (66964, 66965); (68736, 68786); (71840, 71871); (93760, 93791);
   (119808, 119833); (119860, 119885); (119912, 119937); (119964, 119964);
   (119966, 119967); (119970, 119970); (119973, 119974); (119977, 119980);
   (119982, 119989); (120016, 120041); (120068, 120069); (120071, 120074);
   (120077, 120084); (120086, 120092); (120120, 120121); (120123, 120126);
   (120128, 120132); (120134, 120134); (120138, 120144); (120172, 120197);
   (120224, 120249); (120276, 120301); (120328, 120353); (120380, 120405);
   (120432, 120457); (120488, 120512); (120546, 120570); (120604, 120628);
   (120662, 120686); (120720, 120744); (120778, 120778); (125184, 125217);
   (127280, 127305); (127312, 127337); (127344, 127369)].

(** [str.islower] of one character: the property Lowercase. *)
Definition lower_table : list (N * N) :=
  [(97, 122); (170, 170); (181, 181); (186, 186); (223, 246); (248, 255);
   (257, 257); (259, 259); (261, 261); (263, 263); (265, 265); (267, 267);
   (269, 269); (271, 271); (273, 273); (275, 275); (277, 277); (279, 279);
   (281, 281); (283, 283); (285, 285); (287, 287); (289, 289); (291, 291);
   (293, 293); (295, 295); (297, 297); (299, 299); (301, 301); (303, 303);
   (305, 305); (307, 307); (309, 309); (311, 312); (314, 314); (316, 316);
   (318, 318); (320, 320); (322, 322); (324, 324); (326, 326); (328, 329);
   (331, 331); (333, 333); (335, 335); (337, 337); (339, 339); (341, 341);
   (343, 343); (345, 345); (347, 347); (349, 349); (351, 351); (353, 353);
   (355, 355); (357, 357); (359, 359); (361, 361); (363, 363); (365, 365);
   (367, 367); (369, 369); (371, 371); (373, 373); (375, 375); (378, 378);
   (380, 380); (382, 384); (387, 387); (389, 389); (392, 392); (396, 397);
   (402, 402); (405, 405); (409, 411); (414, 414); (417, 417); (419, 419);
   (421, 421); (424, 424); (426, 427); (429, 429); (432, 432); (436, 436);
   (438, 438); (441, 442); (445, 447); (454, 454); (457, 457); (460, 460);
   (462, 462); (464, 464); (466, 466); (468, 468); (470, 470); (472, 472);
   (474, 474); (476, 477); (479, 479); (481, 481); (483, 483); (485, 485);
   (487, 487); (489, 489); (491, 491); (493, 493); (495, 496); (499, 499);
   (501, 501); (505, 505); (507, 507); (509, 509); (511, 511); (513, 513);
   (515, 515); (517, 517); (519, 519); (521, 521); (523, 523); (525, 525);
   (527, 527); (529, 529); (531, 531); (533, 533); (535, 535); (537, 537);
   (539, 539); (541, 541); (543, 543); (545, 545); (547, 547); (549, 549);
   (551, 551); (553, 553); (555, 555); (557, 557); (559, 559); (561, 561);
   (563, 569); (572, 572); (575, 576); (578, 578); (583, 583); (585, 585);
   (587, 587); (589, 589); (591, 659); (661, 696); (704, 705); (736, 740);
   (837, 837); (881, 881); (883, 883); (887, 887); (890, 893); (912, 912);
   (940, 974); (976, 977); (981, 983); (985, 985); (987, 987); (989, 989);
   (991, 991); (993, 993); (995, 995); (997, 997); (999, 999); (1001, 1001);
   (1003, 1003); (1005, 1005); (1007, 1011); (1013, 1013); (1016, 1016);
   (1019, 1020); (1072, 1119); (1121, 1121); (1123, 1123); (1125, 1125);
   (1127, 1127); (1129, 1129); (1131, 1131); (1133, 1133); (1135, 1135);
   (1137, 1137); (1139, 1139); (1141, 1141); (1143, 1143); (1145, 1145);
   (1147, 1147); (1149, 1149); (1151, 1151); (1153, 1153); (1163, 1163);
   (1165, 1165); (1167, 1167); (1169, 1169); (1171, 1171); (1173, 1173);
   (1175, 1175); (1177, 1177); (1179, 1179); (1181, 1181); (1183, 1183);
   (1185, 1185); (1187, 1187); (1189, 1189); (1191, 1191); (1193, 1193);
   (1195, 1195); (1197, 1197); (1199, 1199); (1201, 1201); (1203, 1203);
   (1205, 1205); (1207, 1207); (1209, 1209); (1211, 1211); (1213, 1213);
   (1215, 1215); (1218, 1218); (1220, 1220); (1222, 1222); (1224, 1224);
   (1226, 1226); (1228, 1228); (1230, 1231); (1233, 1233); (1235, 1235);
   (1237, 1237); (1239, 1239); (1241, 1241); (1243, 1243); (1245, 1245);
   (1247, 1247); (1249, 1249); (1251, 1251); (1253, 1253); (1255, 1255);
   (1257, 1257); (1259, 1259); (1261, 1261); (1263, 1263); (1265, 1265);
   (1267, 1267); (1269, 1269); (1271, 1271); (1273, 1273); (1275, 1275);
   (1277, 1277); (1279, 1279); (1281, 1281); (1283, 1283); (1285, 1285);
   (1287, 1287); (1289, 1289); (1291, 1291); (1293, 1293); (1295, 1295);
   (1297, 1297); (1299, 1299); (1301, 1301); (1303, 1303); (1305, 1305);
   (1307, 1307); (1309, 1309); (1311, 1311); (1313, 1313); (1315, 1315);
   (1317, 1317); (1319, 1319); (1321, 1321); (1323, 1323); (1325, 1325);
   (1327, 1327); (1376, 1416); (4304, 4346); (4349, 4351); (5112, 5117);
   (7296, 7304); (7424, 7615); (7681, 7681); (7683, 7683); (7685, 7685);
   (7687, 7687); (7689, 7689); (7691, 7691); (7693, 7693); (7695, 7695);
   (7697, 7697); (7699, 7699); (7701, 7701); (7703, 7703); (7705, 7705);
   (7707, 7707); (7709, 7709); (7711, 7711); (7713, 7713); (7715, 7715);
   (7717, 7717); (7719, 7719); (7721, 7721); (7723, 7723); (7725, 7725);
   (7727, 7727); (7729, 7729); (7731, 7731); (7733, 7733); (7735, 7735);
   (7737, 7737); (7739, 7739); (7741, 7741); (7743, 7743); (7745, 7745);
   (7747, 7747); (7749, 7749); (7751, 7751); (7753, 7753); (7755, 7755);
   (7757, 7757); (7759, 7759); (7761, 7761); (7763, 7763); (7765, 7765);
   (7767, 7767); (7769, 7769); (7771, 7771); (7773, 7773); (7775, 7775);
   (7777, 7777); (7779, 7779); (7781, 7781); (7783, 7783); (7785, 7785);
   (7787, 7787); (7789, 7789); (7791, 7791); (7793, 7793); (7795, 7795);
   (7797, 7797); (7799, 7799); (7801, 7801); (7803, 7803); (7805, 7805);
   (7807, 7807); (7809, 7809); (7811, 7811); (7813, 7813); (7815, 7815);
   (7817, 7817); (7819, 7819); (7821, 7821); (7823, 7823); (7825, 7825);
   (7827, 7827); (7829, 7837); (7839, 7839); (7841, 7841); (7843, 7843);
   (7845, 7845); (7847, 7847); (7849, 7849); (7851, 7851); (7853, 7853);
   (7855, 7855); (7857, 7857); (7859, 7859); (7861, 7861); (7863, 7863);
   (7865, 7865); (7867, 7867); (7869, 7869); (7871, 7871); (7873, 7873);
   (7875, 7875); (7877, 7877); (7879, 7879); (7881, 7881); (7883, 7883);
   (7885, 7885); (7887, 7887); (7889, 7889); (7891, 7891); (7893, 7893);
   (7895, 7895); (7897, 7897); (7899, 7899); (7901, 7901); (7903, 7903);
   (7905, 7905); (7907, 7907); (7909, 7909); (7911, 7911); (7913, 7913);
   (7915, 7915); (7917, 7917); (7919, 7919); (7921, 7921); (7923, 7923);
   (7925, 7925); (7927, 7927); (7929, 7929); (7931, 7931); (7933, 7933);
   (7935, 7943); (7952, 7957); (7968, 7975); (7984, 7991); (8000, 8005);
   (8016, 8023); (8032, 8039); (8048, 8061); (8064, 8071); (8080, 8087);
   (8096, 8103); (8112, 8116); (8118, 8119); (8126, 8126); (8130, 8132);
   (8134, 8135); (8144, 8147); (8150, 8151); (8160, 8167); (8178, 8180);
   (8182, 8183); (8305, 8305); (8319, 8319); (8336, 8348); (8458, 8458);
   (8462, 8463); (8467, 8467); (8495, 8495); (8500, 8500); (8505, 8505);
   (8508, 8509); (8518, 8521); (8526, 8526); (8560, 8575); (8580, 8580);
   (9424, 9449); (11312, 11359); (11361, 11361); (11365, 11366);
   (11368, 11368); (11370, 11370); (11372, 11372); (11377, 11377);
   (11379, 11380); (11382, 11389); (11393, 11393); (11395, 11395);
   (11397, 11397); (11399, 11399); (11401, 11401); (11403, 11403);
   (11405, 11405); (11407, 11407); (11409, 11409); (11411, 11411);
   (11413, 11413); (11415, 11415); (11417, 11417); (11419, 11419);
   (11421, 11421); (11423, 11423); (11425, 11425); (11427, 11427);
   (11429, 11429); (11431, 11431); (11433, 11433); (11435, 11435);
   (11437, 11437); (11439, 11439); (11441, 11441); (11443, 11443);
   (11445, 11445); (11447, 11447); (11449, 11449); (11451, 11451);
   (11453, 11453); (11455, 11455); (11457, 11457); (11459, 11459);
   (11461, 11461); (11463, 11463); (11465, 11465); (11467, 11467);
   (11469, 11469); (11471, 11471); (11473, 11473); (11475, 11475);
   (11477, 11477); (11479, 11479); (11481, 11481); (11483, 11483);
   (11485, 11485); (11487, 11487); (11489, 11489); (11491, 11492);
   (11500, 11500); (11502, 11502); (11507, 11507); (11520, 11557);
   (11559, 11559); (11565, 11565); (42561, 42561); (42563, 42563);
   (42565, 42565); (42567, 42567); (42569, 42569); (42571, 42571);
   (42573, 42573); (42575, 42575); (42577, 42577); (42579, 42579);
   (42581, 42581); (42583, 42583); (42585, 42585); (42587, 42587);
   (42589, 42589); (42591, 42591); (42593, 42593); (42595, 42595);
   (42597, 42597); (42599, 42599); (42601, 42601); (42603, 42603);
   (42605, 42605); (42625, 42625); (42627, 42627); (42629, 42629);
   (42631, 42631); (42633, 42633); (42635, 42635); (42637, 42637);
   (42639, 42639); (42641, 42641); (42643, 42643); (42645, 42645);
   (42647, 42647); (42649, 42649); (42651, 42653); (42787, 42787);
   (42789, 42789); (42791, 42791); (42793, 42793); (42795, 42795);
   (42797, 42797); (42799, 42801); (42803, 42803); (42805, 42805);
   (42807, 42807); (42809, 42809); (42811, 42811); (42813, 42813);
   (42815, 42815); (42817, 42817); (42819, 42819); (42821, 42821);
   (42823, 42823); (42825, 42825); (42827, 42827); (42829, 42829);
   (42831, 42831); (42833, 42833); (42835, 42835); (42837, 42837);
   (42839, 42839); (42841, 42841); (42843, 42843); (42845, 42845);
   (42847, 42847); (42849, 42849); (42851, 42851); (42853, 42853);
   (42855, 42855); (42857, 42857); (42859, 42859); (42861, 42861);
   (42863, 42872); (42874, 42874); (42876, 42876); (42879, 42879);
   (42881, 42881); (42883, 42883); (42885, 42885); (42887, 42887);
   (42892, 42892); (42894, 42894); (42897, 42897); (42899, 42901);
   (42903, 42903); (42905, 42905); (42907, 42907); (42909, 42909);
   (42911, 42911); (42913, 42913); (42915, 42915); (42917, 42917);
   (42919, 42919); (42921, 42921); (42927, 42927); (42933, 42933);
   (42935, 42935); (42937, 42937); (42939, 42939); (42941, 42941);
   (42943, 42943); (42945, 42945); (42947, 42947); (42952, 42952);
   (42954, 42954); (42961, 42961); (42963, 42963); (42965, 42965);
   (42967, 42967); (42969, 42969); (42998, 42998); (43000, 43002);
   (43824, 43866); (43868, 43880); (43888, 43967); (64256, 64262);
   (64275, 64279); (65345, 65370); (66600, 66639); (66776, 66811);
   (66967, 66977); (66979, 66993); (66995, 67001); (67003, 67004);
   (67456, 67456); (67459, 67461); (67463, 67504); (67506, 67514);
   (68800, 68850); (71872, 71903); (93792, 93823); (119834, 119859);
   (119886, 119892); (119894, 119911); (119938, 119963); (119990, 119993);
   (119995, 119995); (119997, 120003); (120005, 120015); (120042, 120067);
   (120094, 120119); (120146, 120171); (120198, 120223); (120250, 120275);
   (120302, 120327); (120354, 120379); (120406, 120431); (120458, 120485);
   (120514, 120538); (120540, 120545); (120572, 120596); (120598, 120603);
   (120630, 120654); (120656, 120661); (120688, 120712); (120714, 120719);
   (120746, 120770); (120772, 120777); (120779, 120779); (122624, 122633);
   (122635, 122654); (125218, 125251)].

(** Titlecase letters: general category Lt. *)
Definition title_table : list (N * N) :=
  [(453, 453); (456, 456); (459, 459); (498, 498); (8072, 8079);
   (8088, 8095); (8104, 8111); (8124, 8124); (8140, 8140); (8188, 8188)].

(** [str.isdigit]: Numeric_Type Digit or Decimal. *)
Definition digit_table : list (N * N) :=
  [(48, 57); (178, 179); (185, 185); (1632, 1641); (1776, 1785);
   (1984, 1993); (2406, 2415); (2534, 2543); (2662, 2671); (2790, 2799);
   (2918, 2927); (3046, 3055); (3174, 3183); (3302, 3311); (3430, 3439);
   (3558, 3567); (3664, 3673); (3792, 3801); (3872, 3881); (4160, 4169);
   (4240, 4249); (4969, 4977); (6112, 6121); (6160, 6169); (6470, 6479);
   (6608, 6618); (6784, 6793); (6800, 6809); (6992, 7001); (7088, 7097);
   (7232, 7241); (7248, 7257); (8304, 8304); (8308, 8313); (8320, 8329);
   (9312, 9320); (9332, 9340); (9352, 9360); (9450, 9450); (9461, 9469);
   (9471, 9471); (10102, 10110); (10112, 10120); (10122, 10130);
   (42528, 42537); (43216, 43225); (43264, 43273); (43472, 43481);
   (43504, 43513); (43600, 43609); (44016, 44025); (65296, 65305);
   (66720, 66729); (68160, 68163); (68912, 68921); (69216, 69224);
   (69714, 69722); (69734, 69743); (69872, 69881); (69942, 69951);
   (70096, 70105); (70384, 70393); (70736, 70745); (70864, 70873);
   (71248, 71257); (71360, 71369); (71472, 71481); (71904, 71913);
   (72016, 72025); (72784, 72793); (73040, 73049); (73120, 73129);
   (92768, 92777); (92864, 92873); (93008, 93017); (120782, 120831);
   (123200, 123209); (123632, 123641); (125264, 125273); (127232, 127242);
   (130032, 130041)].

(** [str.isdecimal]: Numeric_Type Decimal; each range is made of
    runs of the ten digits in order, starting with a zero. *)
Definition decimal_table : list (N * N) :=
  [(48, 57); (1632, 1641); (1776, 1785); (1984, 1993); (2406, 2415);
   (2534, 2543); (2662, 2671); (2790, 2799); (2918, 2927); (3046, 3055);
   (3174, 3183); (3302, 3311); (3430, 3439); (3558, 3567); (3664, 3673);
   (3792, 3801); (3872, 3881); (4160, 4169); (4240, 4249); (6112, 6121);
   (6160, 6169); (6470, 6479); (6608, 6617); (6784, 6793); (6800, 6809);
   (6992, 7001); (7088, 7097); (7232, 7241); (7248, 7257); (42528, 42537);
   (43216, 43225); (43264, 43273); (43472, 43481); (43504, 43513);
   (43600, 43609); (44016, 44025); (65296, 65305); (66720, 66729);
   (68912, 68921); (69734, 69743); (69872, 69881); (69942, 69951);
   (70096, 70105); (70384, 70393); (70736, 70745); (70864, 70873);
   (71248, 71257); (71360, 71369); (71472, 71481); (71904, 71913);
   (72016, 72025); (72784, 72793); (73040, 73049); (73120, 73129);
   (92768, 92777); (92864, 92873); (93008, 93017); (120782, 120831);
   (123200, 123209); (123632, 123641); (125264, 125273); (130032, 130041)].

(** The characters [int] skips around a literal: the white space of the C
    locale below 128, the characters of [str.isspace] above. *)
Definition int_space_table : list (N * N) :=
  [(9, 13); (32, 32); (133, 133); (160, 160); (5760, 5760); (8192, 8202);
   (8232, 8233); (8239, 8239); (8287, 8287); (12288, 12288)].

Definition is_alpha (c : char) : bool := in_table alpha_table c.

Definition is_upper (c : char) : bool := in_table upper_table c.

Definition is_lower (c : char) : bool := in_table lower_table c.

Definition is_title (c : char) : bool := in_table title_table c.

Definition is_digit (c : char) : bool := in_table digit_table c.

Definition is_decimal (c : char) : bool := in_table decimal_table c.

(** The value of a decimal digit: its place in its run of ten. *)
Definition decimal_value (c : char) : Z :=
  match find (λ r, in_range r c) decimal_table with
  | Some r => Z.of_N ((c - r.1) mod 10)
  | None => 0%Z
  end.

Definition is_int_space (c : char) : bool := in_table int_space_table c.

End Char.

Module Str.

Fixpoint append (a b : str) : str :=
  match a with
  | EmptyStr => b
  | StrCons c a' => StrCons c (append a' b)
  end.
Arguments append : simpl never.

Fixpoint length (s : str) : nat :=
  match s with
  | EmptyStr => 0
  | StrCons _ s' => S (length s')
  end.

(** The characters of a string, in order. *)
Fixpoint chars (s : str) : list char :=
  match s with
  | EmptyStr => []
  | StrCons c s' => c :: chars s'
  end.

(** [a == b] *)
Fixpoint eqb (a b : str) : bool :=
  match a, b with
  | EmptyStr, EmptyStr => true
  | StrCons x a', StrCons y b' => (x =? y)%N && eqb a' b'
  | _, _ => false
  end.

(** The string of the characters of a string of the Standard Library. *)
Fixpoint of_ascii (s : String.string) : str :=
  match s with
  | String.EmptyString => EmptyStr
  | String.String c s' => StrCons (N_of_ascii c) (of_ascii s')
  end.

Fixpoint all (p : char → bool) (s : str) : bool :=
  match s with
  | EmptyStr => true
  | StrCons c s' => p c && all p s'
  end.

Fixpoint any (p : char → bool) (s : str) : bool :=
  match s with
  | EmptyStr => false
  | StrCons c s' => p c || any p s'
  end.

Definition nonempty (s : str) : bool :=
  match s with EmptyStr => false | _ => true end.

(** [s.isalpha()] *)
Definition isalpha (s : str) : bool := nonempty s && all Char.is_alpha s.

(** [s.isdigit()] *)
Definition isdigit (s : str) : bool := nonempty s && all Char.is_digit s.

(** [s.isupper()]: no lowercase or titlecase character, and at least one
    uppercase one. *)
Definition isupper (s : str) : bool :=
  all (λ c, negb (Char.is_lower c || Char.is_title c)) s
  && any Char.is_upper s.

(** [s[:n]] for [n >= 0] *)
Fixpoint slice_to (n : nat) (s : str) : str :=
  match n, s with
  | S n', StrCons c s' => StrCons c (slice_to n' s')
  | _, _ => EmptyStr
  end.

(** [s[n:]] for [n >= 0] *)
Fixpoint slice_from (n : nat) (s : str) : str :=
  match n, s with
  | S n', StrCons c s' => slice_from n' s'
  | _, _ => s
  end.

(** [s[-1]]; [None] stands for the IndexError on the empty string. *)
Fixpoint last (s : str) : option char :=
  match s with
  | EmptyStr => None
  | StrCons c EmptyStr => Some c
  | StrCons _ s' => last s'
  end.

(** [s[:-1]] *)
Fixpoint but_last (s : str) : str :=
  match s with
  | EmptyStr => EmptyStr
  | StrCons _ EmptyStr => EmptyStr
  | StrCons c s' => StrCons c (but_last s')
  end.

(** [c in s] for a one-character [c]. *)
Fixpoint contains (c : char) (s : str) : bool :=
  match s with
  | EmptyStr => false
  | StrCons d s' => (c =? d)%N || contains c s'
  end.

(** [str(z)], as ["{}".format(z)] prints an [int]. *)
Definition of_int (z : Z) : str :=
  of_ascii (NilZero.string_of_int (Z.to_int z)).

(** Left and right stripping of the characters [int] skips. *)
Fixpoint lstrip (s : str) : str :=
  match s with
  | StrCons c s' => if Char.is_int_space c then lstrip s' else s
  | EmptyStr => EmptyStr
  end.

Fixpoint rstrip (s : str) : str :=
  match s with
  | EmptyStr => EmptyStr
  | StrCons c s' =>
      match rstrip s' with
      | EmptyStr => if Char.is_int_space c then EmptyStr
                    else StrCons c EmptyStr
      | t => StrCons c t
      end
  end.

(** The digits of a base-ten literal, most significant first: a decimal
    digit, then decimal digits each optionally preceded by one
    underscore. [acc] is the value read so far; [after_digit] tells
    whether the previous character was a digit. *)
Fixpoint digits (acc : Z) (after_digit : bool) (s : str) : option Z :=
  match s with
  | EmptyStr => if after_digit then Some acc else None
  | StrCons c s' =>
      if Char.is_decimal c
      then digits (10 * acc + Char.decimal_value c) true s'
      else if (c =? ord "_")%N && after_digit
      then digits acc false s'
      else None
  end.

(** [int(s)]; [None] stands for the ValueError of an invalid literal. *)
Definition int (s : str) : option Z :=
  match rstrip (lstrip s) with
  | StrCons c t =>
      if (c =? ord "+")%N then digits 0 false t
      else if (c =? ord "-")%N then Z.opp <$> digits 0 false t
      else digits 0 false (StrCons c t)
  | EmptyStr => digits 0 false EmptyStr
  end.

End Str.

Infix "+:+" := Str.append (at level 60, right associativity) : str_scope.

(** ** Exceptions and results *)

Inductive exception : Type :=
| ValueError (msg : str)
| IndexError
| KeyError
| TypeError.

Inductive outcome (A : Type) : Type :=
| Return (a : A)
| Raise (e : exception).
Arguments Return {A} a.
Arguments Raise {A} e.

#[export] Instance outcome_ret : MRet outcome := @Return.
#[export] Instance outcome_bind : MBind outcome := λ A B f m,
  match m with
  | Return a => f a
  | Raise e => Raise e
  end.

(** [l[i]] on a list, with Python's negative indices. *)
Definition norm_index (len : nat) (i : Z) : option nat :=
  if (0 <=? i) && (i <? Z.of_nat len) then Some (Z.to_nat i)
  else if (- Z.of_nat len <=? i) && (i <? 0) then Some (Z.to_nat (Z.of_nat len + i))
  else None.

Definition list_index {A} (l : list A) (i : Z) : outcome A :=
  match norm_index (length l) i with
  | Some n => match l !! n with
              | Some x => Return x
              | None => Raise IndexError
              end
  | None => Raise IndexError
  end.

(** ** Aircraft *)

(** [range(start, stop)] *)
Record range : Type := Range { start : Z; stop : Z }.

Definition range_contains (r : range) (x : Z) : bool :=
  (start r <=? x) && (x <? stop r).

Definition range_len (r : range) : nat := Z.to_nat (stop r - start r).

Definition range_list (r : range) : list Z :=
  (λ i : nat, start r + Z.of_nat i) <$> seq 0 (range_len r).

Inductive Aircraft : Type :=
| Boeing777 (_registration : str)
| AirbusA319 (_registration : str).

Definition registration (self : Aircraft) : str :=
  match self with
  | Boeing777 r => r
  | AirbusA319 r => r
  end.

Definition model (self : Aircraft) : str :=
  match self with
  | Boeing777 _ => "Boeing 777"
  | AirbusA319 _ => "Airbus A319"
  end.

Definition seating_plan (self : Aircraft) : range * str :=
  match self with
  | Boeing777 _ => (Range 1 56, "ABCDEFGHJK")
  | AirbusA319 _ => (Range 1 23, "ABCDEF")
  end.

Definition num_seats (self : Aircraft) : nat :=
  let '(row, row_seats) := seating_plan self in
  (range_len row * Str.length row_seats)%nat.

(** ** Flight *)

(** A row of the seating: the dict from seat letter to occupant. *)
Abbreviation row_dict := (gmap char (option str)).

Record Flight : Type := MkFlight {
  _number : str;
  _aircraft : Aircraft;
  _seating : list (option row_dict)
}.

(** [{letter: None for letter in seats}] *)
Definition empty_row (seats : str) : row_dict :=
  foldl (λ d letter, <[letter := None]> d) ∅ (Str.chars seats).

(** [[None] + [{letter: None for letter in seats} for _ in rows]] *)
Definition initial_seating (aircraft : Aircraft) : list (option row_dict) :=
  let '(rows, seats) := seating_plan aircraft in
  [None] ++ ((λ _, Some (empty_row seats)) <$> range_list rows).

Definition __init__ (number : str) (aircraft : Aircraft) : outcome Flight :=
  if negb (Str.isalpha (Str.slice_to 2 number)) then
    Raise (ValueError ("No airline code in '" +:+ number +:+ "'"))
  else if negb (Str.isupper (Str.slice_to 2 number)) then
    Raise (ValueError ("Invalid airline code '" +:+ number +:+ "'"))
  else if Str.isdigit (Str.slice_from 2 number) then
    match Str.int (Str.slice_from 2 number) with
    | None =>
        (* [int] itself raises; its argument consists of digit characters,
           which [repr] prints as they are *)
        Raise (ValueError ("invalid literal for int() with base 10: '"
                           +:+ Str.slice_from 2 number +:+ "'"))
    | Some route =>
        if route <=? 9999 then
          Return {| _number := number;
                    _aircraft := aircraft;
                    _seating := initial_seating aircraft |}
        else Raise (ValueError ("Invalid route number '" +:+ number +:+ "'"))
    end
  else Raise (ValueError ("Invalid route number '" +:+ number +:+ "'")).

Definition number (self : Flight) : str := _number self.

Definition airline (self : Flight) : str := Str.slice_to 2 (_number self).

Definition aircraft_model (self : Flight) : str := model (_aircraft self).

Definition _parse_seat (self : Flight) (seat : str) : outcome (Z * char) :=
  let '(rows, seat_letters) := seating_plan (_aircraft self) in
  match Str.last seat with
  | None => Raise IndexError
  | Some letter =>
      if negb (Str.contains letter seat_letters) then
        Raise (ValueError ("Invalid seat letter '" +:+ StrCons letter "" +:+ "'"))
      else
        let row_text := Str.but_last seat in
        match Str.int row_text with
        | None => Raise (ValueError ("Invalid seat row '" +:+ row_text +:+ "'"))
        | Some row =>
            if negb (range_contains rows row) then
              Raise (ValueError ("Invalid row number '" +:+ Str.of_int row +:+ "'"))
            else Return (row, letter)
        end
  end.

(** [seating[row][letter]], read. *)
Definition seat_at (seating : list (option row_dict)) (row : Z) (letter : char)
  : outcome (option str) :=
  r ← list_index seating row;
  match r with
  | None => Raise TypeError
  | Some d => match d !! letter with
              | Some occupant => Return occupant
              | None => Raise KeyError
              end
  end.

(** [seating[row][letter] = value]: the row dict is updated in place, the
    list keeps its length. *)
Definition seat_assign (seating : list (option row_dict)) (row : Z) (letter : char)
    (value : option str) : outcome (list (option row_dict)) :=
  match norm_index (length seating) row with
  | None => Raise IndexError
  | Some n =>
      match seating !! n with
      | None => Raise IndexError
      | Some None => Raise TypeError
      | Some (Some d) => Return (<[n := Some (<[letter := value]> d)]> seating)
      end
  end.

(** Methods that may mutate [self]: from the state before to the result
    and the state after. *)
Definition M (A : Type) : Type := Flight → outcome A * Flight.

#[export] Instance M_ret : MRet M := λ A a self, (Return a, self).
#[export] Instance M_bind : MBind M := λ A B f m self,
  match m self with
  | (Return a, self') => f a self'
  | (Raise e, self') => (Raise e, self')
  end.

Definition raise {A} (e : exception) : M A := λ self, (Raise e, self).

(** A computation that only reads [self]. *)
Definition reading {A} (f : Flight → outcome A) : M A := λ self, (f self, self).

Definition get_seat (row : Z) (letter : char) : M (option str) :=
  reading (λ self, seat_at (_seating self) row letter).

(** [self] with its seating replaced; number and aircraft are never
    assigned after construction. *)
Definition with_seating (self : Flight) (seating : list (option row_dict)) : Flight :=
  {| _number := _number self; _aircraft := _aircraft self; _seating := seating |}.

Definition set_seat (row : Z) (letter : char) (value : option str) : M unit :=
  λ self,
    match seat_assign (_seating self) row letter value with
    | Return seating' => (Return (), with_seating self seating')
    | Raise e => (Raise e, self)
    end.

Definition allocate_seat (seat passenger : str) : M unit :=
  '(row, letter) ← reading (λ self, _parse_seat self seat);
  occupant ← get_seat row letter;
  if occupant is Some _ then
    raise (ValueError ("Seat already occupied '" +:+ seat +:+ "'"))
  else set_seat row letter (Some passenger).

Definition relocate_passenger (from_seat to_seat : str) : M unit :=
  '(from_row, from_letter) ← reading (λ self, _parse_seat self from_seat);
  from_occupant ← get_seat from_row from_letter;
  if from_occupant is None then
    raise (ValueError ("No passenger to relocate from '" +:+ from_seat +:+ "'"))
  else
    '(to_row, to_letter) ← reading (λ self, _parse_seat self to_seat);
    to_occupant ← get_seat to_row to_letter;
    if to_occupant is Some _ then
      raise (ValueError ("Seat '" +:+ to_seat +:+ "' already occupied"))
    else
      moved ← get_seat from_row from_letter;
      _ ← set_seat to_row to_letter moved;
      set_seat from_row from_letter None.

(** [sum(1 for n in row.values() if n is None)] *)
Definition row_available (row : row_dict) : nat :=
  length (filter (λ n : option str, n = None) (map_to_list row).*2).

Definition num_seats_available (self : Flight) : nat :=
  sum_list (row_available <$> omap id (_seating self)).

(** The pairs a generator yields, in order, for a loop body that yields a
    list of them at each iteration; an exception in the body ends it. *)
Fixpoint yield_from {A B} (body : A → outcome (list B)) (l : list A)
  : outcome (list B) :=
  match l with
  | [] => Return []
  | x :: l' => ys ← body x; zs ← yield_from body l'; Return (ys ++ zs)
  end.

Definition _passenger_seats (self : Flight) : outcome (list (str * str)) :=
  let '(row_numbers, seat_letters) := seating_plan (_aircraft self) in
  yield_from (λ row,
    yield_from (λ letter,
      passenger ← seat_at (_seating self) row letter;
      if passenger is Some p
      then Return [(p, Str.of_int row +:+ StrCons letter "")]
      else Return [])
    (Str.chars seat_letters))
  (range_list row_numbers).

(** [a < b] on strings: the first differing code point decides, a proper
    prefix is smaller. *)
Fixpoint str_lt (a b : str) : bool :=
  match a, b with
  | EmptyStr, EmptyStr => false
  | EmptyStr, StrCons _ _ => true
  | StrCons _ _, EmptyStr => false
  | StrCons x a', StrCons y b' =>
      if N.eqb x y then str_lt a' b' else (Char.code x <? Char.code y)%N
  end.

(** [a < b] on pairs of strings: the first component that differs decides. *)
Definition pair_lt (a b : str * str) : bool :=
  if Str.eqb a.1 b.1 then str_lt a.2 b.2 else str_lt a.1 b.1.

(** [sorted(l)]: the stable ascending arrangement of [l], computed here by
    insertion. *)
Fixpoint insert_sorted (x : str * str) (l : list (str * str))
  : list (str * str) :=
  match l with
  | [] => [x]
  | y :: l' => if pair_lt y x then y :: insert_sorted x l' else x :: y :: l'
  end.

Definition sorted (l : list (str * str)) : list (str * str) :=
  foldr insert_sorted [] l.

(** [card_printer] acts on the world outside the flight, of type [W]; the
    method returns the world after its calls. *)
Definition make_boarding_cards {W : Type}
    (card_printer : str → str → str → str → W → W)
    (self : Flight) (world : W) : outcome W :=
  seats ← _passenger_seats self;
  Return (foldl (λ w '(passenger, seat),
                   card_printer passenger seat (number self) (aircraft_model self) w)
                world (sorted seats)).

(** A printer that only records the arguments of each call, in call order. *)
Definition recording_printer (passenger seat flight_number aircraft : str)
    (calls : list (str * str * str * str))
  : list (str * str * str * str) :=
  calls ++ [(passenger, seat, flight_number, aircraft)].

(** A flight as [__init__] leaves it. *)
Definition new_flight (number : str) (aircraft : Aircraft) : Flight :=
  {| _number := number;
     _aircraft := aircraft;
     _seating := initial_seating aircraft |}.

(** [m] then the state it leaves, whether it returned or raised. *)
Definition after {A} (m : M A) (self : Flight) : Flight := (m self).2.

(** ** The error taxonomy of the specification

    The program raises [ValueError] throughout and tells the cases apart by
    the message only; the classes below name the messages. *)

Inductive InvalidFormat : exception → Prop :=
| no_airline_code n :
    InvalidFormat (ValueError ("No airline code in '" +:+ n +:+ "'"))
| invalid_airline_code n :
    InvalidFormat (ValueError ("Invalid airline code '" +:+ n +:+ "'"))
| invalid_route_number n :
    InvalidFormat (ValueError ("Invalid route number '" +:+ n +:+ "'"))
| invalid_route_literal t :
    InvalidFormat (ValueError ("invalid literal for int() with base 10: '"
                               +:+ t +:+ "'")).

Inductive InvalidSeatLetter : exception → Prop :=
| invalid_seat_letter letter :
    InvalidSeatLetter (ValueError ("Invalid seat letter '" +:+ letter +:+ "'")).

Inductive InvalidSeatRow : exception → Prop :=
| invalid_seat_row row_text :
    InvalidSeatRow (ValueError ("Invalid seat row '" +:+ row_text +:+ "'"))
| invalid_row_number row :
    InvalidSeatRow (ValueError ("Invalid row number '" +:+ Str.of_int row +:+ "'")).

Inductive SeatTaken : exception → Prop :=
| seat_taken_allocate seat :
    SeatTaken (ValueError ("Seat already occupied '" +:+ seat +:+ "'"))
| seat_taken_relocate seat :
    SeatTaken (ValueError ("Seat '" +:+ seat +:+ "' already occupied")).

Inductive EmptySeat : exception → Prop :=
| empty_seat seat :
    EmptySeat (ValueError ("No passenger to relocate from '" +:+ seat +:+ "'")).

Create HintDb errors.
#[local] Hint Constructors InvalidFormat InvalidSeatLetter InvalidSeatRow
  SeatTaken EmptySeat : errors.

(** ** Checks on tables of ranges *)

(** No range of [t1] meets a range of [t2]. *)
Definition disjoint_tables (t1 t2 : list (N * N)) : bool :=
  forallb (λ r1, forallb (λ r2, (r1.2 <? r2.1)%N || (r2.2 <? r1.1)%N) t2) t1.

(** Every range of [t1] lies within a range of [t2]. *)
Definition covered_table (t1 t2 : list (N * N)) : bool :=
  forallb (λ r1, existsb (λ r2, (r2.1 <=? r1.1)%N && (r1.2 <=? r2.2)%N) t2) t1.

(** ** Flight numbers, as the specification words them *)

Definition uppercase_letter (c : char) : Prop :=
  Char.is_alpha c = true ∧ Char.is_upper c = true.

(** The value of a string of decimal digits. *)
Definition decimal_number (s : str) : Z :=
  foldl (λ acc c, 10 * acc + Char.decimal_value c) 0 (Str.chars s).

(** Two uppercase letters, then one or more decimal digits whose value is
    at most 9999. *)
Definition valid_flight_number (n : str) : Prop :=
  ∃ c1 c2 route,
    n = StrCons c1 (StrCons c2 route)
    ∧ uppercase_letter c1 ∧ uppercase_letter c2
    ∧ route ≠ ""
    ∧ Str.all Char.is_decimal route = true
    ∧ decimal_number route ≤ 9999.

(** ** Flight numbers, as [__init__] accepts them *)

(** The two characters of an airline code: both alphabetic, neither
    lowercase or titlecase, at least one uppercase. *)
Definition airline_code (c1 c2 : char) : Prop :=
  Char.is_alpha c1 = true ∧ Char.is_alpha c2 = true
  ∧ Char.is_lower c1 || Char.is_title c1 = false
  ∧ Char.is_lower c2 || Char.is_title c2 = false
  ∧ (Char.is_upper c1 = true ∨ Char.is_upper c2 = true).

(** An airline code, then one or more decimal digits whose value is at most
    9999. *)
Definition accepted_flight_number (n : str) : Prop :=
  ∃ c1 c2 route,
    n = StrCons c1 (StrCons c2 route)
    ∧ airline_code c1 c2
    ∧ route ≠ "" ∧ Str.all Char.is_decimal route = true
    ∧ decimal_number route ≤ 9999.

(** The value of a string of decimal digits read after digits of value
    [acc]. *)
Definition decimal_from (acc : Z) (s : str) : Z :=
  foldl (λ acc c, 10 * acc + Char.decimal_value c) acc (Str.chars s).

(** ** Seatings: entries and updates *)

(** The entry of row [n] and letter [l], when the seating has one. *)
Definition entry (s : list (option row_dict)) (n : nat) (l : char) : option (option str) :=
  match s !! n with
  | Some (Some d) => d !! l
  | _ => None
  end.

(** The seating with letter [l] of row [n] set to [v]. *)
Definition update (n : nat) (l : char) (v : option str)
    (s : list (option row_dict)) : list (option row_dict) :=
  alter (fmap (M := option) (<[l := v]>)) n s.


(** ** Seating plans and well-formed flights *)

Definition plan_rows (aircraft : Aircraft) : range := (seating_plan aircraft).1.

Definition plan_letters (aircraft : Aircraft) : str := (seating_plan aircraft).2.

(** The seat of row [row] and letter [letter] is in the aircraft's plan. *)
Definition in_plan (aircraft : Aircraft) (row : Z) (letter : char) : Prop :=
  range_contains (plan_rows aircraft) row = true
  ∧ Str.contains letter (plan_letters aircraft) = true.

(** The cross product of the plan's rows and letters, row by row. *)
Definition plan_seats (aircraft : Aircraft) : list (Z * char) :=
  row ← range_list (plan_rows aircraft);
  letter ← Str.chars (plan_letters aircraft);
  [(row, letter)].

(** The shape [__init__] gives a seating: [None] at index 0, then one dict
    per row of the plan, whose keys are the plan's letters. *)
Definition wf_seating (aircraft : Aircraft) (s : list (option row_dict)) : Prop :=
  ∃ ds : list row_dict,
    s = None :: (Some <$> ds)
    ∧ length ds = range_len (plan_rows aircraft)
    ∧ Forall (λ d : row_dict,
                ∀ l, is_Some (d !! l) ↔ Str.contains l (plan_letters aircraft) = true)
             ds.

(** A well-formed flight; every flight a program can hold is one
    (lemma [reachable_wf] below). *)
Definition wf (self : Flight) : Prop := wf_seating (_aircraft self) (_seating self).

(** The flights a program can hold: constructed by [__init__], then any
    calls of the two mutating methods, whether they return or raise. *)
Inductive reachable (number : str) (aircraft : Aircraft) : Flight → Prop :=
| reach_init f :
    __init__ number aircraft = Return f → reachable number aircraft f
| reach_allocate f seat passenger :
    reachable number aircraft f →
    reachable number aircraft (after (allocate_seat seat passenger) f)
| reach_relocate f from_seat to_seat :
    reachable number aircraft f →
    reachable number aircraft (after (relocate_passenger from_seat to_seat) f).

(** ** The flights of the specification's scenarios *)

Definition fresh_A319 : Flight := new_flight "AB221" (AirbusA319 "G-BGT2").

(** 1C allocated to Tim, then 1D to John. *)
Definition tim_and_john : Flight :=
  after (allocate_seat "1D" "John")
    (after (allocate_seat "1C" "Tim") fresh_A319).

(** ** The key set of a seating *)

(** The (row, letter) keys of a seating: for each index that holds a dict,
    the index paired with each key of the dict. *)
Definition seating_keys (s : list (option row_dict)) : gset (Z * char) :=
  ⋃ (imap (λ (i : nat) (row : option row_dict),
             match row with
             | Some d => set_map (λ l : char, (Z.of_nat i, l)) (dom d)
             | None => ∅
             end) s).

#[export] Instance exception_eq_dec : EqDecision exception.
Proof. solve_decision. Defined.

#[export] Instance outcome_eq_dec {A} `{EqDecision A} : EqDecision (outcome A).
Proof. solve_decision. Defined.

(** The plan seats that hold nobody. *)
Definition free_seats (self : Flight) : list (Z * char) :=
  filter (λ k : Z * char, seat_at (_seating self) k.1 k.2 = Return None)
         (plan_seats (_aircraft self)).

(** 1 for an empty entry, 0 for an occupied one. *)
Definition vacancy (o : option str) : nat := if o is None then 1 else 0.

(** ** Boarding cards, as the specification words them *)

(** The designator of a seat: the row in decimal, then the letter. *)
Definition designator (row : Z) (letter : char) : str :=
  Str.of_int row +:+ StrCons letter "".

(** The (passenger, designator) pairs of the occupied seats of the plan,
    one per seat, rows ascending and letters in plan order. *)
Definition occupied_seats (self : Flight) : list (str * str) :=
  omap (λ k : Z * char,
          match seat_at (_seating self) k.1 k.2 with
          | Return (Some passenger) => Some (passenger, designator k.1 k.2)
          | _ => None
          end)
       (plan_seats (_aircraft self)).

(** The lexicographic order on (passenger, designator) pairs: the passenger
    names decide, the designators break ties. *)
Definition name_first (x y : str * str) : Prop :=
  str_lt x.1 y.1 = true
  ∨ (x.1 = y.1 ∧ (str_lt x.2 y.2 = true ∨ x.2 = y.2)).

(** Bob allocated to 2A, then Alice to 1A. *)
Definition bob_then_alice : Flight :=
  after (allocate_seat "1A" "Alice")
    (after (allocate_seat "2A" "Bob") fresh_A319).

(** The same passengers with the seats exchanged. *)
Definition alice_behind_bob : Flight :=
  after (allocate_seat "1A" "Bob")
    (after (allocate_seat "2A" "Alice") fresh_A319).

(** ** The rest of the module: sample flights and the console printer *)

(** A call of a method inside a function that does not catch exceptions:
    the flight after the call, or the exception. *)
Definition call {A} (m : M A) (self : Flight) : outcome Flight :=
  match m self with
  | (Return _, self') => Return self'
  | (Raise e, _) => Raise e
  end.

Definition make_flights : outcome (Flight * Flight) :=
  f ← __init__ "AB221" (AirbusA319 "G-BGT2");
  f ← call (allocate_seat "12A" "Rahul") f;
  f ← call (allocate_seat "15F" "Dinesh Mathur") f;
  f ← call (allocate_seat "15E" "Christopher Philips") f;
  f ← call (allocate_seat "1C" "Tim Cathy") f;
  f ← call (allocate_seat "1D" "John Bushman") f;
  g ← __init__ "AF72" (Boeing777 "F-GBPS");
  g ← call (allocate_seat "55K" "Lisa Rosamund") g;
  g ← call (allocate_seat "33G" "Hilary Burt") g;
  g ← call (allocate_seat "4B" "Nikhil") g;
  g ← call (allocate_seat "4A" "Madhav") g;
  Return (f, g).

(** [c * n] for a one-character string [c]: empty when [n] is not positive. *)
Definition repeat_char (c : char) (n : Z) : str :=
  Nat.iter (Z.to_nat n) (StrCons c) "".

(** [len(s)] *)
Definition len (s : str) : Z := Z.of_nat (Str.length s).

(** [sep.join(lines)] *)
Fixpoint join (sep : str) (lines : list str) : str :=
  match lines with
  | [] => ""
  | [line] => line
  | line :: rest => line +:+ sep +:+ join sep rest
  end.

Definition newline : str := StrCons 10 "".

(** [print(text)]: the text and a newline are appended to standard output,
    which is the world the printer acts on. *)
Definition print (text : str) (stdout : str) : str :=
  stdout +:+ text +:+ newline.

(** The text line of a card. *)
Definition card_output (passenger seat flight_number aircraft : str) : str :=
  "| Name: " +:+ passenger +:+ "  Flight: " +:+ flight_number
  +:+ "  Seat: " +:+ seat +:+ "  Aircraft: " +:+ aircraft +:+ " |".

(** The lines of a card, top to bottom. *)
Definition card_lines (passenger seat flight_number aircraft : str)
  : list str :=
  let output := card_output passenger seat flight_number aircraft in
  let banner := "+" +:+ repeat_char (ord "-") (len output - 2) +:+ "+" in
  let border := "|" +:+ repeat_char (ord " ") (len output - 2) +:+ "|" in
  [banner; border; output; border; banner].

Definition console_card_printer (passenger seat flight_number aircraft : str)
    (stdout : str) : str :=
  let lines := card_lines passenger seat flight_number aircraft in
  let card := join newline lines in
  print "" (print card stdout).

(** The passenger names of a flight, in the order of [_passenger_seats]. *)
Definition passengers (self : Flight) : list str := (occupied_seats self).*1.

(** What [console_card_printer] writes for one card: the five lines joined
    by newlines, the newline [print] adds, and the empty line of the second
    [print]. *)
Definition card_text (passenger seat flight_number aircraft : str) : str :=
  join newline (card_lines passenger seat flight_number aircraft)
  +:+ newline +:+ newline.

(** The concatenation of a list of strings. *)
Definition concat_strings (texts : list str) : str :=
  foldr Str.append "" texts.

(** The two flights of [make_flights], call by call. *)
Definition flight_AB221 : Flight :=
  after (allocate_seat "1D" "John Bushman")
    (after (allocate_seat "1C" "Tim Cathy")
      (after (allocate_seat "15E" "Christopher Philips")
        (after (allocate_seat "15F" "Dinesh Mathur")
          (after (allocate_seat "12A" "Rahul")
            (new_flight "AB221" (AirbusA319 "G-BGT2")))))).

Definition flight_AF72 : Flight :=
  after (allocate_seat "4A" "Madhav")
    (after (allocate_seat "4B" "Nikhil")
      (after (allocate_seat "33G" "Hilary Burt")
        (after (allocate_seat "55K" "Lisa Rosamund")
          (new_flight "AF72" (Boeing777 "F-GBPS"))))).
(** * Properties *)

(** ** The model of [int] on examples *)

Example int_plain : Str.int "12" = Some 12.
Proof. reflexivity. Qed.

Example int_blanks_sign_underscore : Str.int "  -1_0 " = Some (-10).
Proof. reflexivity. Qed.

Example int_leading_zeros : Str.int "00001" = Some 1.
Proof. reflexivity. Qed.

Example int_rejects :
  Str.int "" = None ∧ Str.int "+" = None ∧ Str.int "_1" = None
  ∧ Str.int "1_" = None ∧ Str.int "1__0" = None ∧ Str.int "+ 5" = None
  ∧ Str.int "1 2" = None ∧ Str.int "x" = None.
Proof. repeat split. Qed.

Example of_int_examples :
  Str.of_int 12 = "12" ∧ Str.of_int 0 = "0" ∧ Str.of_int (-7) = "-7".
Proof. repeat split. Qed.

(** ** Facts on characters and strings *)

Lemma in_table_disjoint t1 t2 c :
  disjoint_tables t1 t2 = true →
  Char.in_table t1 c = true → Char.in_table t2 c = false.
Proof.
  unfold disjoint_tables, Char.in_table. rewrite forallb_forall. intros Hd.
  rewrite existsb_exists. intros (r1 & Hr1 & Hin1).
  apply not_true_is_false. rewrite existsb_exists. intros (r2 & Hr2 & Hin2).
  specialize (Hd r1 Hr1). rewrite forallb_forall in Hd. specialize (Hd r2 Hr2).
  unfold Char.in_range in *.
  apply andb_prop in Hin1 as [?%N.leb_le ?%N.leb_le].
  apply andb_prop in Hin2 as [?%N.leb_le ?%N.leb_le].
  apply orb_prop in Hd as [?%N.ltb_lt|?%N.ltb_lt]; lia.
Qed.

Lemma in_table_covered t1 t2 c :
  covered_table t1 t2 = true →
  Char.in_table t1 c = true → Char.in_table t2 c = true.
Proof.
  unfold covered_table, Char.in_table. rewrite forallb_forall. intros Hc.
  rewrite !existsb_exists. intros (r1 & Hr1 & Hin1).
  specialize (Hc r1 Hr1). apply existsb_exists in Hc as (r2 & Hr2 & Hin2).
  exists r2. split; [done|]. unfold Char.in_range in *.
  apply andb_prop in Hin1 as [?%N.leb_le ?%N.leb_le].
  apply andb_prop in Hin2 as [?%N.leb_le ?%N.leb_le].
  apply andb_true_intro. split; apply N.leb_le; lia.
Qed.

Lemma upper_not_lower c :
  Char.is_upper c = true → Char.is_lower c || Char.is_title c = false.
Proof.
  intros Hu. apply orb_false_intro.
  - by apply (in_table_disjoint Char.upper_table Char.lower_table).
  - by apply (in_table_disjoint Char.upper_table Char.title_table).
Qed.

Lemma digit_no_space c : Char.is_digit c = true → Char.is_int_space c = false.
Proof. by apply (in_table_disjoint Char.digit_table Char.int_space_table). Qed.

Lemma decimal_is_digit c : Char.is_decimal c = true → Char.is_digit c = true.
Proof. by apply (in_table_covered Char.decimal_table Char.digit_table). Qed.

Lemma digit_no_sign c :
  Char.is_digit c = true →
  c ≠ ord "+" ∧ c ≠ ord "-" ∧ (c =? ord "_")%N = false.
Proof.
  intros Hd. split_and!; [| |apply N.eqb_neq]; by intros ->.
Qed.

Lemma str_eqb_spec a b : reflect (a = b) (Str.eqb a b).
Proof.
  revert b. induction a as [|x a IH]; intros [|y b]; simpl; try by constructor.
  destruct (N.eqb_spec x y) as [->|Hne]; simpl.
  - destruct (IH b) as [->|Hne]; constructor; congruence.
  - constructor. congruence.
Qed.

Lemma lstrip_digit_string s :
  Str.all Char.is_digit s = true → Str.lstrip s = s.
Proof.
  destruct s as [|c s]; [done|]. simpl. intros [Hc _]%andb_prop.
  by rewrite (digit_no_space c Hc).
Qed.

Lemma rstrip_digit_string s :
  Str.all Char.is_digit s = true → Str.rstrip s = s.
Proof.
  induction s as [|c s IH]; [done|]. simpl. intros [Hc Hs]%andb_prop.
  rewrite (IH Hs), (digit_no_space c Hc). by destruct s.
Qed.

Lemma int_unsigned c s :
  c ≠ (ord "+") → c ≠ (ord "-") →
  Str.rstrip (Str.lstrip (StrCons c s)) = StrCons c s →
  Str.int (StrCons c s) = Str.digits 0 false (StrCons c s).
Proof.
  intros Hplus Hminus Hstrip. unfold Str.int. rewrite Hstrip.
  by destruct (N.eqb_spec c (ord "+")), (N.eqb_spec c (ord "-")).
Qed.

Lemma int_digit_string s :
  Str.isdigit s = true → Str.int s = Str.digits 0 false s.
Proof.
  unfold Str.isdigit. destruct s as [|c s]; [done|].
  intros Hall; simpl in Hall.
  assert (Hc : Char.is_digit c = true) by (by apply andb_prop in Hall as [? _]).
  destruct (digit_no_sign c Hc) as (? & ? & _).
  apply int_unsigned; [done..|].
  rewrite lstrip_digit_string by done. by apply rstrip_digit_string.
Qed.

Lemma digits_of_digit_string s : ∀ acc after v,
  Str.all Char.is_digit s = true →
  Str.digits acc after s = Some v →
  Str.all Char.is_decimal s = true ∧ v = decimal_from acc s.
Proof.
  induction s as [|c s IH]; intros acc after v Hall Hv; simpl in *.
  - destruct after; [|done]. split; [done|]. by inversion Hv.
  - apply andb_prop in Hall as [Hc Hs].
    destruct (Char.is_decimal c) eqn:Hdec.
    + destruct (IH _ _ _ Hs Hv) as [-> ->]. done.
    + destruct (digit_no_sign c Hc) as (_ & _ & Hu).
      change (ord "_") with 95%N in Hu. by rewrite Hu in Hv.
Qed.

Lemma digits_of_decimal_string s : ∀ acc after,
  (s = "" → after = true) →
  Str.all Char.is_decimal s = true →
  Str.digits acc after s = Some (decimal_from acc s).
Proof.
  induction s as [|c s IH]; intros acc after Hne Hall; simpl in *.
  - by rewrite Hne.
  - apply andb_prop in Hall as [Hc Hs]. rewrite Hc. by apply IH.
Qed.

Lemma all_decimal_digit s :
  Str.all Char.is_decimal s = true → Str.all Char.is_digit s = true.
Proof.
  induction s as [|c s IH]; [done|]. simpl. intros [Hc Hs]%andb_prop.
  by rewrite (decimal_is_digit c Hc), IH.
Qed.

(** [int] on a non-empty string of decimal digits is its decimal value. *)
Lemma int_decimal_string s :
  s ≠ "" → Str.all Char.is_decimal s = true →
  Str.int s = Some (decimal_number s).
Proof.
  intros Hne Hall. rewrite int_digit_string.
  - by apply digits_of_decimal_string.
  - unfold Str.isdigit. rewrite all_decimal_digit by done. by destruct s.
Qed.

(** ** Flight construction *)

Lemma valid_accepted n : valid_flight_number n → accepted_flight_number n.
Proof.
  intros (c1 & c2 & route & -> & [Ha1 Hu1] & [Ha2 Hu2] & Hrest).
  exists c1, c2, route. split; [done|]. split; [|done].
  unfold airline_code. split_and!; auto using upper_not_lower.
Qed.

Lemma init_accepts n aircraft :
  accepted_flight_number n →
  ∃ f, __init__ n aircraft = Return f ∧ number f = n ∧ _aircraft f = aircraft.
Proof.
  intros (c1 & c2 & route & -> & (Ha1 & Ha2 & Hl1 & Hl2 & Hu) & Hne & Hdec & Hle).
  unfold __init__, Str.isalpha, Str.isupper. simpl.
  rewrite Ha1, Ha2, Hl1, Hl2. simpl.
  assert (Char.is_upper c1 || (Char.is_upper c2 || false) = true) as ->.
  { destruct Hu as [-> | ->]; [done|]. by rewrite !orb_true_r. }
  simpl.
  assert (Hd : Str.isdigit route = true).
  { unfold Str.isdigit. rewrite all_decimal_digit by done. by destruct route. }
  rewrite Hd, int_decimal_string by done.
  destruct (Z.leb_spec (decimal_number route) 9999); [|lia]. eauto.
Qed.

Lemma init_returns n aircraft f :
  __init__ n aircraft = Return f → accepted_flight_number n.
Proof.
  unfold __init__.
  destruct (Str.isalpha (Str.slice_to 2 n)) eqn:Halpha; [|done].
  destruct (Str.isupper (Str.slice_to 2 n)) eqn:Hupper; [|done].
  destruct (Str.isdigit (Str.slice_from 2 n)) eqn:Hdigit; [|done]. cbn [negb].
  destruct (Str.int (Str.slice_from 2 n)) as [route|] eqn:Hint; [|done].
  destruct (Z.leb_spec route 9999) as [Hle|]; [|done]. intros _.
  destruct n as [|c1 [|c2 rest]]; [done..|]. simpl in *.
  unfold Str.isalpha in Halpha. unfold Str.isupper in Hupper. simpl in *.
  destruct (Char.is_alpha c1) eqn:Ha1; [|done].
  destruct (Char.is_alpha c2) eqn:Ha2; [|done].
  apply andb_prop in Hupper as [Hlow Hup].
  apply andb_prop in Hlow as [Hl1 Hl2]. rewrite andb_true_r in Hl2.
  apply negb_true_iff in Hl1, Hl2.
  rewrite orb_false_r in Hup. apply orb_prop in Hup.
  rewrite int_digit_string in Hint by done.
  unfold Str.isdigit in Hdigit. apply andb_prop in Hdigit as [Hne Hall].
  destruct (digits_of_digit_string _ _ _ _ Hall Hint) as [Hdec ->].
  exists c1, c2, rest. unfold airline_code. split_and!; try done.
  by destruct rest.
Qed.

Lemma init_raises n aircraft e :
  __init__ n aircraft = Raise e → InvalidFormat e.
Proof.
  unfold __init__.
  repeat (case_match; simpl); intros [= <-]; auto with errors.
Qed.

(** C2, as amended. Constructing a flight with number [n] succeeds exactly
    when the first two characters of [n] are alphabetic, neither of them is
    a lowercase or titlecase character and at least one of them is an
    uppercase one, and the remaining characters are one or more decimal
    digits whose value is at most 9999; otherwise it fails with an
    InvalidFormat error. Two uppercase letters followed by such digits are
    accepted. The number of digits is not bounded, so AB00001 is accepted,
    ab123 and AB12345 are refused and AB1234 is accepted; the airline code of
    a constructed flight is the first two characters of its number. *)
Theorem flight_number_contract (n : str) (aircraft : Aircraft) :
  ((accepted_flight_number n
    ∧ ∃ f c1 c2 route,
        __init__ n aircraft = Return f
        ∧ number f = n ∧ _aircraft f = aircraft
        ∧ n = StrCons c1 (StrCons c2 route)
        ∧ airline f = StrCons c1 (StrCons c2 ""))
   ∨ (¬ accepted_flight_number n
      ∧ ∃ e, __init__ n aircraft = Raise e ∧ InvalidFormat e))
  ∧ (valid_flight_number n → accepted_flight_number n)
  ∧ (∃ f, __init__ "AB00001" aircraft = Return f ∧ airline f = "AB")
  ∧ (∃ e, __init__ "ab123" aircraft = Raise e ∧ InvalidFormat e)
  ∧ (∃ e, __init__ "AB12345" aircraft = Raise e ∧ InvalidFormat e)
  ∧ (∃ f, __init__ "AB1234" aircraft = Return f ∧ airline f = "AB").
Proof.
  split.
  - destruct (__init__ n aircraft) as [f|e] eqn:Hinit.
    + left. pose proof (init_returns _ _ _ Hinit) as Hvalid. split; [done|].
      destruct (init_accepts n aircraft Hvalid) as (f' & Hf' & Hn & Ha).
      assert (f' = f) as -> by congruence.
      destruct Hvalid as (c1 & c2 & route & Heq & _).
      exists f, c1, c2, route. repeat split; try done.
      unfold airline. unfold number in Hn. by rewrite Hn, Heq.
    + right. split; [|eauto using init_raises].
      intros Hvalid. destruct (init_accepts n aircraft Hvalid) as (f & ? & _).
      congruence.
  - split; [apply valid_accepted|]. repeat split.
    + destruct aircraft; eexists; (split; [reflexivity|reflexivity]).
    + eexists; split; [reflexivity|]. apply (invalid_airline_code "ab123").
    + eexists; split; [reflexivity|]. apply (invalid_route_number "AB12345").
    + destruct aircraft; eexists; (split; [reflexivity|reflexivity]).
Qed.

(** C2, as stated, fails: the number A中12 has a second character that is a
    letter but not an uppercase one, so it is not two uppercase letters
    followed by digits, and yet constructing a flight with it succeeds and
    raises no error. *)
Lemma uncased_letter_in_airline_code :
  ¬ valid_flight_number "A中12"
  ∧ (∃ f, __init__ "A中12" (AirbusA319 "G-BGT2") = Return f
          ∧ number f = "A中12" ∧ airline f = "A中")
  ∧ ¬ ∃ e, __init__ "A中12" (AirbusA319 "G-BGT2") = Raise e ∧ InvalidFormat e.
Proof.
  split_and!.
  - intros (c1 & c2 & route & [= <- <- <-] & _ & [_ Hu] & _). discriminate Hu.
  - eexists. split; [reflexivity|]. split; reflexivity.
  - intros (e & He & _). discriminate He.
Qed.

(** ** The error classes are told apart by their messages *)

Lemma error_classes_disjoint e :
  (EmptySeat e → ¬ SeatTaken e)
  ∧ (InvalidSeatLetter e → ¬ InvalidSeatRow e)
  ∧ (InvalidSeatLetter e ∨ InvalidSeatRow e → ¬ SeatTaken e ∧ ¬ EmptySeat e).
Proof.
  split_and!.
  - intros [seat] H. inversion H.
  - intros [letter] H. inversion H.
  - intros [[letter]|[row_text|row]]; split; intros H; inversion H.
Qed.

(** ** Seat designators *)

Lemma last_but_last seat letter :
  Str.last seat = Some letter → seat = Str.but_last seat +:+ StrCons letter "".
Proof.
  induction seat as [|c s IH]; [done|].
  destruct s as [|d s]; [by intros [= ->]|].
  intros H. specialize (IH H).
  transitivity (StrCons c (Str.but_last (StrCons d s) +:+ StrCons letter ""));
    [by rewrite <- IH | reflexivity].
Qed.

Lemma last_None seat : Str.last seat = None ↔ seat = "".
Proof.
  split; [|by intros ->].
  induction seat as [|c s IH]; [done|]. simpl. destruct s; [done|].
  intros H. by apply IH in H.
Qed.

(** C3. For a seat designator with last character [letter]: parsing fails
    with InvalidSeatLetter when the letter is not one of the aircraft's; with
    a valid letter it fails with InvalidSeatRow when the text before the
    letter is not an integer literal or the integer is not one of the
    aircraft's rows; otherwise (the seat is in the plan) it returns the row
    and the letter, leaves the flight as it is, and parsing again returns the
    same pair. *)
Theorem parse_seat_contract (self : Flight) (seat : str) (letter : char)
    (Hlast : Str.last seat = Some letter) :
  let rows := (seating_plan (_aircraft self)).1 in
  let letters := (seating_plan (_aircraft self)).2 in
  let row_text := Str.but_last seat in
  seat = row_text +:+ StrCons letter ""
  ∧ ((Str.contains letter letters = false
      ∧ ∃ e, _parse_seat self seat = Raise e ∧ InvalidSeatLetter e)
     ∨ (Str.contains letter letters = true
        ∧ (Str.int row_text = None
           ∨ ∃ row, Str.int row_text = Some row ∧ range_contains rows row = false)
        ∧ ∃ e, _parse_seat self seat = Raise e ∧ InvalidSeatRow e)
     ∨ (∃ row, Str.contains letter letters = true
        ∧ Str.int row_text = Some row ∧ range_contains rows row = true
        ∧ _parse_seat self seat = Return (row, letter)
        ∧ (first ← reading (λ self, _parse_seat self seat);
           second ← reading (λ self, _parse_seat self seat);
           mret (first, second)) self
          = (Return ((row, letter), (row, letter)), self))).
Proof.
  intros rows letters row_text. split; [by apply last_but_last|].
  subst rows letters row_text.
  unfold mbind, M_bind, mret, M_ret, reading, _parse_seat. rewrite Hlast.
  destruct (seating_plan (_aircraft self)) as [rows letters]. simpl.
  destruct (Str.contains letter letters); simpl.
  - right. destruct (Str.int (Str.but_last seat)) as [row|].
    + destruct (range_contains rows row) eqn:Hrow; simpl.
      * right. exists row. by rewrite Hrow.
      * left. repeat split; eauto with errors.
    + left. repeat split; eauto with errors.
  - left. split; [done|]. eexists. split; [done|].
    apply (invalid_seat_letter (StrCons letter "")).
Qed.

Lemma parse_seat_contract_witness :
  _parse_seat (new_flight "AB221" (AirbusA319 "G-BGT2")) "12C" = Return (12, (ord "C")).
Proof.
  destruct (parse_seat_contract (new_flight "AB221" (AirbusA319 "G-BGT2"))
              "12C" (ord "C") eq_refl) as [_ [(Hno & _)|[(_ & Hrow & _)|(row & _ & Hint & _ & Hret & _)]]].
  - discriminate Hno.
  - destruct Hrow as [Hint|(row & Hint & Hrange)].
    + discriminate Hint.
    + injection Hint as <-. discriminate Hrange.
  - injection Hint as <-. exact Hret.
Defined.

(** ** Entries and updates of a seating *)

Section seating.
Implicit Types (s : list (option row_dict)) (d : row_dict).
Implicit Types (n i : nat) (l : char) (v o : option str).

Lemma norm_index_nonneg (len : nat) (r : Z) :
  0 ≤ r < Z.of_nat len → norm_index len r = Some (Z.to_nat r).
Proof.
  intros [H0 Hlen]. unfold norm_index.
  destruct (Z.leb_spec 0 r); [|lia]. destruct (Z.ltb_spec r (Z.of_nat len)); [done|lia].
Qed.

Lemma entry_lt s n l o : entry s n l = Some o → (n < length s)%nat.
Proof.
  unfold entry. destruct (s !! n) eqn:Hn; [|done]. intros _.
  by apply lookup_lt_Some in Hn.
Qed.

Lemma seat_at_entry s (r : Z) l o :
  0 ≤ r → entry s (Z.to_nat r) l = Some o → seat_at s r l = Return o.
Proof.
  intros Hr He. pose proof (entry_lt _ _ _ _ He) as Hlt.
  unfold seat_at, list_index. rewrite norm_index_nonneg by lia.
  unfold entry in He. destruct (s !! Z.to_nat r) as [[d|]|]; simpl; try done.
  by rewrite He.
Qed.

Lemma seat_assign_entry s (r : Z) l v o :
  0 ≤ r → entry s (Z.to_nat r) l = Some o →
  seat_assign s r l v = Return (update (Z.to_nat r) l v s).
Proof.
  intros Hr He. pose proof (entry_lt _ _ _ _ He) as Hlt.
  unfold seat_assign. rewrite norm_index_nonneg by lia.
  unfold entry in He. destruct (s !! Z.to_nat r) as [[d|]|] eqn:Hrow; try done.
  f_equal. unfold update. rewrite list_insert_alter.
  apply list_alter_ext; [|done]. intros x Hx. by simplify_eq.
Qed.

Lemma entry_update_eq s n l v o :
  entry s n l = Some o → entry (update n l v s) n l = Some v.
Proof.
  unfold entry, update. rewrite list_lookup_alter_eq.
  destruct (s !! n) as [[d|]|]; simpl; try done.
  intros _. by rewrite lookup_insert_eq.
Qed.

Lemma entry_update_ne s n l v n' l' :
  (n, l) ≠ (n', l') → entry (update n l v s) n' l' = entry s n' l'.
Proof.
  intros Hne. unfold entry, update.
  destruct (decide (n = n')) as [<-|Hn].
  - rewrite list_lookup_alter_eq.
    destruct (s !! n) as [[d|]|]; simpl; try done.
    rewrite lookup_insert_ne; [done|congruence].
  - by rewrite list_lookup_alter_ne.
Qed.

Lemma update_update s n l v v' :
  update n l v (update n l v' s) = update n l v s.
Proof.
  unfold update. rewrite list_alter_alter_eq.
  apply list_alter_ext; [|done]. intros [d|] _; simpl; [|done].
  by rewrite insert_insert_eq.
Qed.

Lemma update_commute s n l v n' l' v' :
  (n, l) ≠ (n', l') →
  update n l v (update n' l' v' s) = update n' l' v' (update n l v s).
Proof.
  intros Hne. unfold update.
  destruct (decide (n = n')) as [<-|Hn].
  - rewrite !list_alter_alter_eq.
    apply list_alter_ext; [|done]. intros [d|] _; simpl; [|done].
    rewrite insert_insert_ne; [done|congruence].
  - by rewrite list_alter_alter_ne.
Qed.

Lemma update_id s n l v : entry s n l = Some v → update n l v s = s.
Proof.
  unfold entry, update. intros He.
  apply list_eq. intros i. destruct (decide (n = i)) as [<-|Hi].
  - rewrite list_lookup_alter_eq.
    destruct (s !! n) as [[d|]|]; simpl; try done.
    by rewrite insert_id.
  - by rewrite list_lookup_alter_ne.
Qed.

End seating.

(** ** Seating plans *)

Lemma plan_start aircraft : start (plan_rows aircraft) = 1.
Proof. by destruct aircraft. Qed.

Lemma plan_len aircraft :
  Z.of_nat (range_len (plan_rows aircraft)) = stop (plan_rows aircraft) - 1.
Proof. by destruct aircraft. Qed.

Lemma plan_letters_NoDup aircraft :
  NoDup (Str.chars (plan_letters aircraft)).
Proof.
  destruct aircraft;
    apply (@bool_decide_unpack _ (NoDup_dec _)); vm_compute; exact I.
Qed.

Lemma contains_elem_of l s :
  Str.contains l s = true ↔ l ∈ Str.chars s.
Proof.
  induction s as [|c s IH]; simpl.
  - split; [done|]. by intros ?%elem_of_nil.
  - rewrite elem_of_cons, orb_true_iff, IH, N.eqb_eq. done.
Qed.

Lemma in_plan_bounds aircraft r l :
  in_plan aircraft r l → 1 ≤ r ≤ Z.of_nat (range_len (plan_rows aircraft)).
Proof.
  intros [Hr _]. unfold range_contains in Hr.
  apply andb_prop in Hr as [H1 H2].
  apply Z.leb_le in H1. apply Z.ltb_lt in H2.
  rewrite plan_start in H1. rewrite plan_len. lia.
Qed.

Lemma range_list_plan aircraft :
  range_list (plan_rows aircraft)
  = (λ i : nat, Z.of_nat (S i)) <$> seq 0 (range_len (plan_rows aircraft)).
Proof.
  unfold range_list. rewrite plan_start.
  apply list_fmap_ext. intros _ i _. lia.
Qed.

Lemma parse_seat_in_plan self seat r l :
  _parse_seat self seat = Return (r, l) → in_plan (_aircraft self) r l.
Proof.
  unfold _parse_seat, in_plan, plan_rows, plan_letters.
  destruct (seating_plan (_aircraft self)) as [rows letters]. simpl.
  destruct (Str.last seat) as [letter|]; [|done].
  destruct (Str.contains letter letters) eqn:Hl; [|done]. simpl.
  destruct (Str.int (Str.but_last seat)) as [row|]; [|done].
  destruct (range_contains rows row) eqn:Hr; [|done]. simpl.
  by intros [= <- <-].
Qed.

(** ** Well-formed seatings *)

Lemma empty_row_lookup letters l :
  empty_row letters !! l
  = if Str.contains l letters then Some None else None.
Proof.
  unfold empty_row.
  assert (∀ d : row_dict,
    foldl (λ d letter, <[letter := None]> d) d (Str.chars letters) !! l
    = if Str.contains l letters then Some None else d !! l) as H.
  { induction letters as [|c s IH]; intros d; simpl; [done|].
    rewrite IH. destruct (Str.contains l s); [by rewrite orb_true_r|].
    rewrite orb_false_r. destruct (N.eqb_spec l c) as [->|Hne].
    - by rewrite lookup_insert_eq.
    - by rewrite lookup_insert_ne. }
  rewrite H. by destruct (Str.contains l letters).
Qed.

Lemma wf_new number aircraft : wf (new_flight number aircraft).
Proof.
  unfold wf, wf_seating, new_flight, initial_seating, plan_rows, plan_letters.
  simpl. destruct (seating_plan aircraft) as [rows letters]. simpl.
  exists ((λ _, empty_row letters) <$> range_list rows). split_and!.
  - by rewrite <- list_fmap_compose.
  - unfold range_list. by rewrite !length_fmap, length_seq.
  - apply Forall_fmap, Forall_forall. intros _ _ l. simpl.
    rewrite empty_row_lookup. destruct (Str.contains l letters); [by eauto|].
    split; [by intros []|done].
Qed.

Lemma wf_entry aircraft s r l :
  wf_seating aircraft s → in_plan aircraft r l →
  ∃ o, entry s (Z.to_nat r) l = Some o.
Proof.
  intros (ds & -> & Hlen & Hkeys) Hplan.
  pose proof (in_plan_bounds _ _ _ Hplan) as Hr. destruct Hplan as [_ Hl].
  destruct (Z.to_nat r) as [|i] eqn:Hi; [lia|].
  destruct (lookup_lt_is_Some_2 ds i) as [d Hd]; [lia|].
  unfold entry. simpl. rewrite list_lookup_fmap, Hd. simpl.
  rewrite Forall_forall in Hkeys.
  apply (Hkeys d); [by eapply list_elem_of_lookup_2|done].
Qed.

Lemma wf_entry_in_plan aircraft s n l o :
  wf_seating aircraft s → entry s n l = Some o → in_plan aircraft (Z.of_nat n) l.
Proof.
  intros (ds & -> & Hlen & Hkeys). unfold entry.
  destruct n as [|i]; [done|]. simpl. rewrite list_lookup_fmap.
  destruct (ds !! i) as [d|] eqn:Hd; [|done]. simpl. intros Ho.
  pose proof (lookup_lt_Some _ _ _ Hd) as Hlt.
  rewrite Forall_forall in Hkeys. split.
  - unfold range_contains. rewrite plan_start.
    apply andb_true_intro. split; [apply Z.leb_le; lia|].
    apply Z.ltb_lt. pose proof (plan_len aircraft). lia.
  - apply (Hkeys d); [by eapply list_elem_of_lookup_2|by eauto].
Qed.

Lemma wf_update aircraft s n l v o :
  wf_seating aircraft s → entry s n l = Some o →
  wf_seating aircraft (update n l v s).
Proof.
  intros (ds & -> & Hlen & Hkeys). unfold entry, update.
  destruct n as [|i]; [done|]. simpl. rewrite list_lookup_fmap.
  destruct (ds !! i) as [d|] eqn:Hd; [|done]. simpl. intros Ho.
  exists (alter (<[l := v]>) i ds). split_and!.
  - f_equal. symmetry. apply (list_fmap_alter Some). by apply Forall_true.
  - by rewrite length_alter.
  - rewrite Forall_forall in Hkeys. apply Forall_forall. intros d' Hd'.
    apply list_elem_of_lookup in Hd' as [j Hj].
    destruct (decide (i = j)) as [<-|Hij].
    + rewrite list_lookup_alter_eq, Hd in Hj. injection Hj as <-.
      intros l'. rewrite lookup_insert_is_Some'.
      rewrite <- (Hkeys d) by (by eapply list_elem_of_lookup_2).
      split; [|by auto]. intros [<-|?]; [by eauto|done].
    + rewrite list_lookup_alter_ne in Hj by done.
      apply Hkeys. by eapply list_elem_of_lookup_2.
Qed.

(** ** Reading and writing seats of a well-formed flight *)

Lemma seat_at_update_eq s (r : Z) l v o :
  0 ≤ r → entry s (Z.to_nat r) l = Some o →
  seat_at (update (Z.to_nat r) l v s) r l = Return v.
Proof.
  intros Hr He. apply seat_at_entry; [done|]. by eapply entry_update_eq.
Qed.

Lemma seat_at_update_ne s (r : Z) l v (r' : Z) l' :
  0 ≤ r → 0 ≤ r' → (r, l) ≠ (r', l') →
  seat_at (update (Z.to_nat r) l v s) r' l' = seat_at s r' l'.
Proof.
  intros Hr Hr' Hne. unfold seat_at, list_index, update.
  rewrite length_alter.
  destruct (norm_index (length s) r') as [n|] eqn:Hn; [|done].
  assert (n = Z.to_nat r') as ->.
  { unfold norm_index in Hn. repeat case_match; simplify_eq; try done; lia. }
  destruct (decide (Z.to_nat r = Z.to_nat r')) as [Heq|Hrr].
  - assert (r = r') as <- by lia. rewrite list_lookup_alter_eq.
    destruct (s !! Z.to_nat r) as [[d|]|]; simpl; try done.
    rewrite lookup_insert_ne; [done|congruence].
  - by rewrite list_lookup_alter_ne.
Qed.

Lemma seat_at_wf self r l :
  wf self → in_plan (_aircraft self) r l →
  ∃ o, entry (_seating self) (Z.to_nat r) l = Some o
       ∧ seat_at (_seating self) r l = Return o.
Proof.
  intros Hwf Hplan. destruct (wf_entry _ _ _ _ Hwf Hplan) as [o Ho].
  exists o. split; [done|]. apply seat_at_entry; [|done].
  apply in_plan_bounds in Hplan. lia.
Qed.

Lemma set_seat_entry self (r : Z) l v o :
  0 ≤ r → entry (_seating self) (Z.to_nat r) l = Some o →
  set_seat r l v self
  = (Return (), with_seating self (update (Z.to_nat r) l v (_seating self))).
Proof.
  intros Hr He. unfold set_seat. by rewrite (seat_assign_entry _ _ _ _ o).
Qed.

Lemma with_seating_id self : with_seating self (_seating self) = self.
Proof. by destruct self. Qed.

Lemma with_seating_twice self s s' :
  with_seating (with_seating self s) s' = with_seating self s'.
Proof. done. Qed.

(** ** The two mutating methods, statement by statement *)

Lemma allocate_seat_unfold seat passenger self :
  allocate_seat seat passenger self
  = match _parse_seat self seat with
    | Raise e => (Raise e, self)
    | Return (row, letter) =>
        match seat_at (_seating self) row letter with
        | Raise e => (Raise e, self)
        | Return (Some _) =>
            (Raise (ValueError ("Seat already occupied '" +:+ seat +:+ "'")), self)
        | Return None => set_seat row letter (Some passenger) self
        end
    end.
Proof.
  unfold allocate_seat, get_seat. cbv [mbind M_bind reading raise].
  destruct (_parse_seat self seat) as [[row letter]|e]; [|done].
  by destruct (seat_at (_seating self) row letter) as [[p|]|e].
Qed.

Lemma relocate_passenger_unfold from_seat to_seat self :
  relocate_passenger from_seat to_seat self
  = match _parse_seat self from_seat with
    | Raise e => (Raise e, self)
    | Return (from_row, from_letter) =>
        match seat_at (_seating self) from_row from_letter with
        | Raise e => (Raise e, self)
        | Return None =>
            (Raise (ValueError ("No passenger to relocate from '"
                                +:+ from_seat +:+ "'")), self)
        | Return (Some p) =>
            match _parse_seat self to_seat with
            | Raise e => (Raise e, self)
            | Return (to_row, to_letter) =>
                match seat_at (_seating self) to_row to_letter with
                | Raise e => (Raise e, self)
                | Return (Some _) =>
                    (Raise (ValueError ("Seat '" +:+ to_seat
                                        +:+ "' already occupied")), self)
                | Return None =>
                    (_ ← set_seat to_row to_letter (Some p);
                     set_seat from_row from_letter None) self
                end
            end
        end
    end.
Proof.
  unfold relocate_passenger, get_seat. cbv [mbind M_bind reading raise].
  destruct (_parse_seat self from_seat) as [[from_row from_letter]|e]; [|done].
  destruct (seat_at (_seating self) from_row from_letter) as [[p|]|e] eqn:Hfrom;
    [|done..].
  destruct (_parse_seat self to_seat) as [[to_row to_letter]|e]; [|done].
  destruct (seat_at (_seating self) to_row to_letter) as [[q|]|e]; [done| |done].
  by rewrite Hfrom.
Qed.

Lemma parse_seat_Raise self seat e :
  _parse_seat self seat = Raise e →
  (seat = "" ∧ e = IndexError) ∨ InvalidSeatLetter e ∨ InvalidSeatRow e.
Proof.
  unfold _parse_seat.
  destruct (seating_plan (_aircraft self)) as [rows letters].
  destruct (Str.last seat) as [letter|] eqn:Hlast.
  - repeat (case_match; simpl); intros [= <-]; auto with errors.
  - apply last_None in Hlast. intros [= <-]. by left.
Qed.

(** ** The two mutating methods on a well-formed flight *)

Lemma allocate_seat_wf_eval self seat passenger r l :
  wf self → _parse_seat self seat = Return (r, l) →
  ∃ o, seat_at (_seating self) r l = Return o
       ∧ entry (_seating self) (Z.to_nat r) l = Some o
       ∧ allocate_seat seat passenger self
         = if o is Some _
           then (Raise (ValueError ("Seat already occupied '" +:+ seat +:+ "'")),
                 self)
           else (Return (),
                 with_seating self
                   (update (Z.to_nat r) l (Some passenger) (_seating self))).
Proof.
  intros Hwf Hparse. pose proof (parse_seat_in_plan _ _ _ _ Hparse) as Hplan.
  destruct (seat_at_wf _ _ _ Hwf Hplan) as (o & He & Hs).
  exists o. split_and!; [done..|].
  rewrite allocate_seat_unfold, Hparse, Hs. destruct o; [done|].
  apply in_plan_bounds in Hplan. apply (set_seat_entry _ _ _ _ None); [lia|done].
Qed.

Lemma relocate_passenger_wf_eval self from_seat to_seat r l r' l' p :
  wf self →
  _parse_seat self from_seat = Return (r, l) →
  seat_at (_seating self) r l = Return (Some p) →
  _parse_seat self to_seat = Return (r', l') →
  seat_at (_seating self) r' l' = Return None →
  (r', l') ≠ (r, l)
  ∧ entry (_seating self) (Z.to_nat r) l = Some (Some p)
  ∧ entry (_seating self) (Z.to_nat r') l' = Some None
  ∧ relocate_passenger from_seat to_seat self
    = (Return (),
       with_seating self
         (update (Z.to_nat r) l None
            (update (Z.to_nat r') l' (Some p) (_seating self)))).
Proof.
  intros Hwf Hfrom Hp Hto Hq.
  pose proof (parse_seat_in_plan _ _ _ _ Hfrom) as Hplan.
  pose proof (parse_seat_in_plan _ _ _ _ Hto) as Hplan'.
  destruct (seat_at_wf _ _ _ Hwf Hplan) as (o & He & Hs).
  destruct (seat_at_wf _ _ _ Hwf Hplan') as (o' & He' & Hs').
  assert (o = Some p) as -> by congruence.
  assert (o' = None) as -> by congruence.
  apply in_plan_bounds in Hplan, Hplan'.
  assert ((r', l') ≠ (r, l)) as Hne by congruence.
  split_and!; [done..|].
  rewrite relocate_passenger_unfold, Hfrom, Hp, Hto, Hq.
  cbv [mbind M_bind].
  rewrite (set_seat_entry _ _ _ _ None) by (done || lia).
  rewrite (set_seat_entry _ _ _ _ (Some p)); [done|lia|]. simpl.
  rewrite entry_update_ne; [done|]. intros [= Hr ->]. apply Hne. f_equal. lia.
Qed.

Lemma allocate_seat_after self seat passenger :
  wf self →
  ∃ s', after (allocate_seat seat passenger) self = with_seating self s'
        ∧ wf_seating (_aircraft self) s'.
Proof.
  intros Hwf. unfold after.
  destruct (_parse_seat self seat) as [[r l]|e] eqn:Hparse.
  - destruct (allocate_seat_wf_eval _ _ passenger _ _ Hwf Hparse)
      as (o & _ & He & ->).
    destruct o; simpl.
    + exists (_seating self). by rewrite with_seating_id.
    + eexists. split; [done|]. by eapply wf_update.
  - rewrite allocate_seat_unfold, Hparse. simpl.
    exists (_seating self). by rewrite with_seating_id.
Qed.

Lemma relocate_passenger_after self from_seat to_seat :
  wf self →
  ∃ s', after (relocate_passenger from_seat to_seat) self = with_seating self s'
        ∧ wf_seating (_aircraft self) s'.
Proof.
  intros Hwf. unfold after.
  assert (∃ s', self = with_seating self s' ∧ wf_seating (_aircraft self) s')
    as Hsame by (exists (_seating self); by rewrite with_seating_id).
  destruct (_parse_seat self from_seat) as [[r l]|e] eqn:Hfrom;
    [|by rewrite relocate_passenger_unfold, Hfrom].
  destruct (seat_at (_seating self) r l) as [[p|]|e] eqn:Hp;
    [| by rewrite relocate_passenger_unfold, Hfrom, Hp..].
  destruct (_parse_seat self to_seat) as [[r' l']|e] eqn:Hto;
    [|by rewrite relocate_passenger_unfold, Hfrom, Hp, Hto].
  destruct (seat_at (_seating self) r' l') as [[q|]|e] eqn:Hq;
    [by rewrite relocate_passenger_unfold, Hfrom, Hp, Hto, Hq |
     | by rewrite relocate_passenger_unfold, Hfrom, Hp, Hto, Hq].
  destruct (relocate_passenger_wf_eval _ _ _ _ _ _ _ _ Hwf Hfrom Hp Hto Hq)
    as (Hne & He & He' & ->). simpl.
  eexists. split; [done|].
  eapply wf_update; [by eapply wf_update|].
  rewrite entry_update_ne; [done|].
  pose proof (in_plan_bounds _ _ _ (parse_seat_in_plan _ _ _ _ Hfrom)).
  pose proof (in_plan_bounds _ _ _ (parse_seat_in_plan _ _ _ _ Hto)).
  intros [= Hr ->]. apply Hne. f_equal. lia.
Qed.

Lemma init_new number aircraft f :
  __init__ number aircraft = Return f → f = new_flight number aircraft.
Proof.
  unfold __init__. repeat (case_match; simpl); try done. by intros [= <-].
Qed.

(** Every reachable flight is well formed and keeps the number and the
    aircraft it was constructed with. *)
Lemma reachable_wf number aircraft f :
  reachable number aircraft f →
  _number f = number ∧ _aircraft f = aircraft ∧ wf f.
Proof.
  induction 1 as [f Hinit|f seat passenger _ (Hn & Ha & Hwf)
                 |f from_seat to_seat _ (Hn & Ha & Hwf)].
  - apply init_new in Hinit as ->. split_and!; [done..|apply wf_new].
  - destruct (allocate_seat_after _ seat passenger Hwf) as (s' & -> & Hs').
    split_and!; done.
  - destruct (relocate_passenger_after _ from_seat to_seat Hwf) as (s' & -> & Hs').
    split_and!; done.
Qed.

Lemma fresh_A319_wf : wf fresh_A319.
Proof. apply wf_new. Qed.

Lemma after_allocate_wf self seat passenger :
  wf self → wf (after (allocate_seat seat passenger) self).
Proof.
  intros Hwf. by destruct (allocate_seat_after _ seat passenger Hwf) as (s' & -> & ?).
Qed.

Lemma tim_and_john_wf : wf tim_and_john.
Proof. do 2 apply after_allocate_wf. apply wf_new. Qed.

(** ** Allocation *)

(** C4. For a well-formed flight and a seat designator that parses to a
    seat of the plan: the seat holds either nobody or one passenger; if it
    holds a passenger, [allocate_seat] raises SeatTaken and leaves the
    flight as it was; if it holds nobody, [allocate_seat] returns and the
    seat then holds the new passenger, every other seat, the number and the
    aircraft being as before, and a further allocation of the same seat
    raises SeatTaken and leaves the flight, with the first passenger in the
    seat, as it was. *)
Theorem allocate_seat_contract (self : Flight) (seat passenger : str)
    (r : Z) (l : char)
    (Hwf : wf self) (Hparse : _parse_seat self seat = Return (r, l)) :
  (seat_at (_seating self) r l = Return None
   ∨ ∃ q, seat_at (_seating self) r l = Return (Some q))
  ∧ (∀ q, seat_at (_seating self) r l = Return (Some q) →
       ∃ e, allocate_seat seat passenger self = (Raise e, self) ∧ SeatTaken e)
  ∧ (seat_at (_seating self) r l = Return None →
       ∃ self',
         allocate_seat seat passenger self = (Return (), self')
         ∧ seat_at (_seating self') r l = Return (Some passenger)
         ∧ (∀ r' l', 0 ≤ r' → (r, l) ≠ (r', l') →
              seat_at (_seating self') r' l' = seat_at (_seating self) r' l')
         ∧ _number self' = _number self ∧ _aircraft self' = _aircraft self
         ∧ ∀ other,
             ∃ e, allocate_seat seat other self' = (Raise e, self')
                  ∧ SeatTaken e
                  ∧ seat_at (_seating (after (allocate_seat seat other) self')) r l
                    = Return (Some passenger)).
Proof.
  destruct (allocate_seat_wf_eval _ _ passenger _ _ Hwf Hparse)
    as (o & Hs & He & Halloc).
  pose proof (in_plan_bounds _ _ _ (parse_seat_in_plan _ _ _ _ Hparse)) as Hr.
  split_and!.
  - destruct o; eauto.
  - intros q Hq. rewrite Hs in Hq. injection Hq as ->.
    eexists. split; [done|]. auto with errors.
  - intros Hfree. rewrite Hs in Hfree. injection Hfree as ->.
    eexists. split; [done|]. simpl.
    assert (Hnew : seat_at (update (Z.to_nat r) l (Some passenger) (_seating self)) r l
                   = Return (Some passenger))
      by (eapply seat_at_update_eq; [lia|done]).
    split_and!; [done| |done..|].
    + intros r' l' Hr' Hne. apply seat_at_update_ne; [lia|done..].
    + intros other.
      assert (Hagain :
        allocate_seat seat other
          (with_seating self (update (Z.to_nat r) l (Some passenger) (_seating self)))
        = (Raise (ValueError ("Seat already occupied '" +:+ seat +:+ "'")),
           with_seating self (update (Z.to_nat r) l (Some passenger) (_seating self)))).
      { rewrite allocate_seat_unfold.
        change (_parse_seat (with_seating self ?s) seat) with (_parse_seat self seat).
        rewrite Hparse. simpl. by rewrite Hnew. }
      eexists. split_and!; [done|auto with errors|].
      unfold after. by rewrite Hagain.
Qed.

Lemma allocate_seat_contract_witness :
  ∃ self', allocate_seat "1C" "Tim" fresh_A319 = (Return (), self')
           ∧ seat_at (_seating self') 1 (ord "C") = Return (Some "Tim").
Proof.
  destruct (allocate_seat_contract fresh_A319 "1C" "Tim" 1 (ord "C")
              fresh_A319_wf eq_refl) as (_ & _ & Hfree).
  destruct (Hfree eq_refl) as (self' & Halloc & Hseat & _).
  exists self'. by split.
Defined.

(** ** Relocation *)

(** C9. When a seat designator parses to a seat that holds a passenger,
    relocating from that seat to itself raises SeatTaken, by the test on the
    destination, and leaves the flight as it was. *)
Theorem self_relocation_rejected (self : Flight) (seat : str)
    (r : Z) (l : char) (p : str)
    (Hparse : _parse_seat self seat = Return (r, l))
    (Hocc : seat_at (_seating self) r l = Return (Some p)) :
  relocate_passenger seat seat self
  = (Raise (ValueError ("Seat '" +:+ seat +:+ "' already occupied")), self)
  ∧ SeatTaken (ValueError ("Seat '" +:+ seat +:+ "' already occupied"))
  ∧ after (relocate_passenger seat seat) self = self.
Proof.
  assert (relocate_passenger seat seat self
          = (Raise (ValueError ("Seat '" +:+ seat +:+ "' already occupied")), self))
    as Heq by (by rewrite relocate_passenger_unfold, Hparse, Hocc).
  split_and!; [done|auto with errors|]. unfold after. by rewrite Heq.
Qed.

Lemma self_relocation_rejected_witness :
  relocate_passenger "1C" "1C" tim_and_john
  = (Raise (ValueError "Seat '1C' already occupied"), tim_and_john).
Proof.
  exact (proj1 (self_relocation_rejected tim_and_john "1C" 1 (ord "C") "Tim"
                  eq_refl eq_refl)).
Defined.

(** C10. With the empty string as seat designator, seat parsing,
    [allocate_seat] and [relocate_passenger] (for either seat, once the
    source seat has passed its own tests) raise IndexError, which is none of
    the seat errors, and leave the flight as it was; the empty string is the
    only designator on which parsing does so: on any other it returns a seat
    or raises InvalidSeatLetter or InvalidSeatRow. *)
Theorem empty_seat_designator (self : Flight) (passenger other : str) :
  _parse_seat self "" = Raise IndexError
  ∧ allocate_seat "" passenger self = (Raise IndexError, self)
  ∧ relocate_passenger "" other self = (Raise IndexError, self)
  ∧ relocate_passenger other "" self
    = match _parse_seat self other with
      | Raise e => (Raise e, self)
      | Return (r, l) =>
          match seat_at (_seating self) r l with
          | Raise e => (Raise e, self)
          | Return None =>
              (Raise (ValueError ("No passenger to relocate from '"
                                  +:+ other +:+ "'")), self)
          | Return (Some _) => (Raise IndexError, self)
          end
      end
  ∧ ¬ InvalidSeatLetter IndexError ∧ ¬ InvalidSeatRow IndexError
  ∧ (∀ seat, _parse_seat self seat = Raise IndexError ↔ seat = "")
  ∧ (∀ seat,
       seat = ""
       ∨ (∃ r l, _parse_seat self seat = Return (r, l))
       ∨ (∃ e, _parse_seat self seat = Raise e
               ∧ (InvalidSeatLetter e ∨ InvalidSeatRow e))).
Proof.
  assert (Hempty : _parse_seat self "" = Raise IndexError).
  { unfold _parse_seat. by destruct (seating_plan (_aircraft self)). }
  split_and!.
  - done.
  - by rewrite allocate_seat_unfold, Hempty.
  - by rewrite relocate_passenger_unfold, Hempty.
  - rewrite relocate_passenger_unfold, Hempty.
    destruct (_parse_seat self other) as [[r l]|e]; [|done].
    by destruct (seat_at (_seating self) r l) as [[p|]|e].
  - by inversion 1.
  - by inversion 1.
  - intros seat. split; [|by intros ->].
    intros [[? _]|[H|H]]%parse_seat_Raise; [done|inversion H..].
  - intros seat. destruct (_parse_seat self seat) as [[r l]|e] eqn:Hparse.
    + right; left. eauto.
    + apply parse_seat_Raise in Hparse as [[-> _]|H]; [by left|].
      right; right. eauto.
Qed.

Lemma relocate_passenger_Raise self from_seat to_seat e self' :
  relocate_passenger from_seat to_seat self = (Raise e, self') →
  wf self → self' = self.
Proof.
  intros Hrel Hwf. revert Hrel.
  destruct (_parse_seat self from_seat) as [[r l]|e1] eqn:Hfrom;
    [|rewrite relocate_passenger_unfold, Hfrom; congruence].
  destruct (seat_at (_seating self) r l) as [[p|]|e1] eqn:Hp;
    [| rewrite relocate_passenger_unfold, Hfrom, Hp; congruence..].
  destruct (_parse_seat self to_seat) as [[r' l']|e1] eqn:Hto;
    [|rewrite relocate_passenger_unfold, Hfrom, Hp, Hto; congruence].
  destruct (seat_at (_seating self) r' l') as [[q|]|e1] eqn:Hq;
    [rewrite relocate_passenger_unfold, Hfrom, Hp, Hto, Hq; congruence |
     | rewrite relocate_passenger_unfold, Hfrom, Hp, Hto, Hq; congruence].
  destruct (relocate_passenger_wf_eval _ _ _ _ _ _ _ _ Hwf Hfrom Hp Hto Hq)
    as (_ & _ & _ & ->). done.
Qed.

(** C1. On a well-formed flight, [relocate_passenger] parses the source
    designator, tests that the source seat is occupied, parses the
    destination designator and tests that the destination seat is free, in
    this order: an error of parsing either designator is raised as it is;
    an empty source seat raises EmptySeat; an occupied destination raises
    SeatTaken; otherwise the occupant of the source is stored in the
    destination and the source is cleared, the other seats, the number and
    the aircraft staying as they were.  Whenever it raises, the flight is
    left exactly as it was. *)
Theorem relocate_passenger_contract (self : Flight) (from_seat to_seat : str)
    (Hwf : wf self) :
  (∀ e, _parse_seat self from_seat = Raise e →
     relocate_passenger from_seat to_seat self = (Raise e, self)
     ∧ (e = IndexError ∨ InvalidSeatLetter e ∨ InvalidSeatRow e))
  ∧ (∀ r l, _parse_seat self from_seat = Return (r, l) →
       (seat_at (_seating self) r l = Return None →
          ∃ e, relocate_passenger from_seat to_seat self = (Raise e, self)
               ∧ EmptySeat e)
       ∧ ∀ p, seat_at (_seating self) r l = Return (Some p) →
           (∀ e, _parse_seat self to_seat = Raise e →
              relocate_passenger from_seat to_seat self = (Raise e, self)
              ∧ (e = IndexError ∨ InvalidSeatLetter e ∨ InvalidSeatRow e))
           ∧ (∀ r' l', _parse_seat self to_seat = Return (r', l') →
                (∀ q, seat_at (_seating self) r' l' = Return (Some q) →
                   ∃ e, relocate_passenger from_seat to_seat self = (Raise e, self)
                        ∧ SeatTaken e)
                ∧ (seat_at (_seating self) r' l' = Return None →
                     ∃ self',
                       relocate_passenger from_seat to_seat self = (Return (), self')
                       ∧ seat_at (_seating self') r' l' = Return (Some p)
                       ∧ seat_at (_seating self') r l = Return None
                       ∧ (∀ r'' l'', 0 ≤ r'' →
                            (r'', l'') ≠ (r, l) → (r'', l'') ≠ (r', l') →
                            seat_at (_seating self') r'' l''
                            = seat_at (_seating self) r'' l'')
                       ∧ _number self' = _number self
                       ∧ _aircraft self' = _aircraft self)))
  ∧ (∀ e self', relocate_passenger from_seat to_seat self = (Raise e, self') →
       self' = self).
Proof.
  split_and!.
  - intros e Hfrom. split; [by rewrite relocate_passenger_unfold, Hfrom|].
    apply parse_seat_Raise in Hfrom as [[_ ->]|[?|?]]; auto.
  - intros r l Hfrom. split.
    { intros Hp. eexists.
      split; [by rewrite relocate_passenger_unfold, Hfrom, Hp|auto with errors]. }
    intros p Hp. split.
    { intros e Hto. split; [by rewrite relocate_passenger_unfold, Hfrom, Hp, Hto|].
      apply parse_seat_Raise in Hto as [[_ ->]|[?|?]]; auto. }
    intros r' l' Hto. split.
    { intros q Hq. eexists.
      split; [by rewrite relocate_passenger_unfold, Hfrom, Hp, Hto, Hq|].
      auto with errors. }
    intros Hq.
    destruct (relocate_passenger_wf_eval _ _ _ _ _ _ _ _ Hwf Hfrom Hp Hto Hq)
      as (Hne & He & He' & Hrel).
    pose proof (in_plan_bounds _ _ _ (parse_seat_in_plan _ _ _ _ Hfrom)) as Hr.
    pose proof (in_plan_bounds _ _ _ (parse_seat_in_plan _ _ _ _ Hto)) as Hr'.
    eexists. split; [exact Hrel|]. simpl. split_and!; [| |  |done..].
    + rewrite seat_at_update_ne by (done || lia).
      eapply seat_at_update_eq; [lia|done].
    + eapply seat_at_update_eq; [lia|].
      rewrite entry_update_ne; [done|].
      intros [= Hn ->]. apply Hne. f_equal. lia.
    + intros r'' l'' Hr'' Hne1 Hne2.
      rewrite !seat_at_update_ne by (done || lia). done.
  - intros e self' Hrel. by eapply relocate_passenger_Raise.
Qed.

Lemma relocate_passenger_contract_witness :
  ∃ self', relocate_passenger "1C" "2C" tim_and_john = (Return (), self')
           ∧ seat_at (_seating self') 2 (ord "C") = Return (Some "Tim")
           ∧ seat_at (_seating self') 1 (ord "C") = Return None.
Proof.
  destruct (relocate_passenger_contract tim_and_john "1C" "2C" tim_and_john_wf)
    as (_ & Hfrom & _).
  destruct (Hfrom 1 (ord "C") eq_refl) as [_ Hocc].
  destruct (Hocc "Tim" eq_refl) as [_ Hto].
  destruct (Hto 2 (ord "C") eq_refl) as [_ Hfree].
  destruct (Hfree eq_refl) as (self' & Hrel & Hnew & Hold & _).
  exists self'. by split_and!.
Defined.

(** C6. On a well-formed flight, for designators [a] and [b] of plan seats
    of which the first holds a passenger and the second nobody, relocating
    from [a] to [b] returns, relocating back from [b] to [a] returns too,
    and the flight is then exactly the one before the two calls. *)
Theorem relocate_round_trip (self : Flight) (a b : str)
    (r : Z) (l : char) (r' : Z) (l' : char) (p : str)
    (Hwf : wf self)
    (Ha : _parse_seat self a = Return (r, l))
    (Hb : _parse_seat self b = Return (r', l'))
    (Hocc : seat_at (_seating self) r l = Return (Some p))
    (Hfree : seat_at (_seating self) r' l' = Return None) :
  ∃ self1,
    relocate_passenger a b self = (Return (), self1)
    ∧ seat_at (_seating self1) r l = Return None
    ∧ seat_at (_seating self1) r' l' = Return (Some p)
    ∧ relocate_passenger b a self1 = (Return (), self).
Proof.
  destruct (relocate_passenger_wf_eval _ _ _ _ _ _ _ _ Hwf Ha Hocc Hb Hfree)
    as (Hne & He & He' & Hrel).
  pose proof (in_plan_bounds _ _ _ (parse_seat_in_plan _ _ _ _ Ha)) as Hr.
  pose proof (in_plan_bounds _ _ _ (parse_seat_in_plan _ _ _ _ Hb)) as Hr'.
  assert (Hnat : (Z.to_nat r', l') ≠ (Z.to_nat r, l)).
  { intros [= Hn ->]. apply Hne. f_equal. lia. }
  set (s := _seating self) in *.
  set (s1 := update (Z.to_nat r) l None (update (Z.to_nat r') l' (Some p) s)) in *.
  assert (Hwf1 : wf (with_seating self s1)).
  { unfold wf. simpl. subst s1.
    eapply wf_update; [by eapply wf_update|]. by rewrite entry_update_ne. }
  assert (H1 : seat_at s1 r l = Return None).
  { subst s1. eapply seat_at_update_eq; [lia|]. by rewrite entry_update_ne. }
  assert (H2 : seat_at s1 r' l' = Return (Some p)).
  { subst s1. rewrite seat_at_update_ne by (done || lia).
    eapply seat_at_update_eq; [lia|done]. }
  exists (with_seating self s1). split_and!; [done..|].
  destruct (relocate_passenger_wf_eval (with_seating self s1) b a r' l' r l p
              Hwf1 Hb H2 Ha H1) as (_ & _ & _ & ->).
  f_equal. simpl. rewrite with_seating_twice.
  rewrite <- (with_seating_id self) at 2. f_equal. fold s. subst s1.
  rewrite update_update.
  rewrite (update_commute _ (Z.to_nat r)) by done.
  rewrite update_update.
  rewrite (update_id _ (Z.to_nat r)) by done.
  by apply update_id.
Qed.

Lemma relocate_round_trip_witness :
  ∃ self1, relocate_passenger "1C" "2C" tim_and_john = (Return (), self1)
           ∧ relocate_passenger "2C" "1C" self1 = (Return (), tim_and_john).
Proof.
  destruct (relocate_round_trip tim_and_john "1C" "2C" 1 (ord "C") 2 (ord "C") "Tim"
              tim_and_john_wf eq_refl eq_refl eq_refl eq_refl)
    as (self1 & Hgo & _ & _ & Hback).
  exists self1. by split.
Defined.

(** ** The seating map and the plan *)

Lemma elem_of_range_list rows (r : Z) :
  r ∈ range_list rows ↔ range_contains rows r = true.
Proof.
  unfold range_list, range_contains, range_len.
  rewrite list_elem_of_fmap, andb_true_iff, Z.leb_le, Z.ltb_lt. split.
  - intros (i & -> & Hi%elem_of_seq). lia.
  - intros [H1 H2]. exists (Z.to_nat (r - start rows)). split; [lia|].
    apply elem_of_seq. lia.
Qed.

Lemma elem_of_plan_seats aircraft r l :
  (r, l) ∈ plan_seats aircraft ↔ in_plan aircraft r l.
Proof.
  unfold plan_seats, in_plan. rewrite list_elem_of_bind. split.
  - intros (row & (letter & Heq & Hletter)%list_elem_of_bind & Hrow).
    apply list_elem_of_singleton in Heq as [= -> ->].
    by rewrite <- elem_of_range_list, contains_elem_of.
  - intros [Hr Hl]. exists r. rewrite elem_of_range_list. split; [|done].
    apply list_elem_of_bind. exists l.
    rewrite <- contains_elem_of. split; [|done]. by apply list_elem_of_singleton.
Qed.

Lemma plan_seats_NoDup aircraft : NoDup (plan_seats aircraft).
Proof.
  unfold plan_seats. apply NoDup_bind.
  - intros r r' x _ _ (l & Hx & _)%list_elem_of_bind (l' & Hx' & _)%list_elem_of_bind.
    apply list_elem_of_singleton in Hx, Hx'. congruence.
  - intros r _. apply NoDup_bind.
    + intros l l' x _ _ Hx%list_elem_of_singleton Hx'%list_elem_of_singleton.
      congruence.
    + intros. apply NoDup_singleton.
    + apply plan_letters_NoDup.
  - unfold range_list. apply NoDup_fmap_2; [|apply NoDup_seq].
    intros i j. lia.
Qed.

Lemma length_plan_seats aircraft : length (plan_seats aircraft) = num_seats aircraft.
Proof. by destruct aircraft. Qed.

Lemma elem_of_seating_keys s (r : Z) l :
  (r, l) ∈ seating_keys s ↔ ∃ n : nat, r = Z.of_nat n ∧ is_Some (entry s n l).
Proof.
  unfold seating_keys, entry. rewrite elem_of_union_list. split.
  - intros (X & (n & row & -> & Hrow)%elem_of_lookup_imap & Hin).
    exists n. rewrite Hrow. destruct row as [d|]; [|set_solver].
    apply elem_of_map in Hin as (l0 & [= -> ->] & Hdom).
    by apply elem_of_dom in Hdom.
  - intros (n & -> & He).
    destruct (s !! n) as [[d|]|] eqn:Hrow; try by destruct He.
    exists (set_map (λ l : char, (Z.of_nat n, l)) (dom d)).
    split; [by apply elem_of_lookup_imap; exists n, (Some d)|].
    apply elem_of_map. exists l. split; [done|]. by apply elem_of_dom.
Qed.

Lemma wf_seating_keys aircraft s :
  wf_seating aircraft s → seating_keys s = list_to_set (plan_seats aircraft).
Proof.
  intros Hwf. apply set_eq. intros [r l].
  rewrite elem_of_seating_keys, elem_of_list_to_set, elem_of_plan_seats. split.
  - intros (n & -> & [o Ho]). by eapply wf_entry_in_plan.
  - intros Hplan. destruct (wf_entry _ _ _ _ Hwf Hplan) as [o Ho].
    apply in_plan_bounds in Hplan. exists (Z.to_nat r). split; [lia|by eauto].
Qed.

Lemma wf_length aircraft s :
  wf_seating aircraft s → length s = S (range_len (plan_rows aircraft)).
Proof. intros (ds & -> & Hlen & _). simpl. by rewrite length_fmap, Hlen. Qed.

Lemma seat_at_new number aircraft r l :
  in_plan aircraft r l →
  seat_at (_seating (new_flight number aircraft)) r l = Return None.
Proof.
  intros Hplan.
  destruct (seat_at_wf (new_flight number aircraft) r l (wf_new _ _) Hplan)
    as (o & He & ->). f_equal.
  pose proof (in_plan_bounds _ _ _ Hplan) as Hr.
  revert He. unfold entry, new_flight, initial_seating, plan_rows in *. simpl.
  destruct (seating_plan aircraft) as [rows letters]. simpl in *.
  destruct (Z.to_nat r) as [|i]; [done|]. simpl.
  rewrite list_lookup_fmap. destruct (range_list rows !! i); [|done]. simpl.
  rewrite empty_row_lookup. case_match; congruence.
Qed.

(** C8. A flight reachable from its construction by calls of
    [allocate_seat] and [relocate_passenger] has the number and the aircraft
    it was constructed with; the keys of its seating map are exactly the
    cross product of the aircraft's rows and letters, and the list of rows
    keeps its length; every seat of the plan holds one entry, nobody or one
    passenger; and in the flight [__init__] returns every seat of the plan
    holds nobody. *)
Theorem seating_invariant (number : str) (aircraft : Aircraft) (f : Flight)
    (Hreach : reachable number aircraft f) :
  _number f = number ∧ _aircraft f = aircraft
  ∧ seating_keys (_seating f) = list_to_set (plan_seats aircraft)
  ∧ NoDup (plan_seats aircraft)
  ∧ length (plan_seats aircraft) = num_seats aircraft
  ∧ length (_seating f) = S (range_len (plan_rows aircraft))
  ∧ (∀ r l, (r, l) ∈ plan_seats aircraft →
       seat_at (_seating f) r l = Return None
       ∨ ∃ p, seat_at (_seating f) r l = Return (Some p))
  ∧ ∃ f0, __init__ number aircraft = Return f0
          ∧ seating_keys (_seating f0) = list_to_set (plan_seats aircraft)
          ∧ ∀ r l, (r, l) ∈ plan_seats aircraft →
                   seat_at (_seating f0) r l = Return None.
Proof.
  destruct (reachable_wf _ _ _ Hreach) as (Hn & Ha & Hwf).
  unfold wf in Hwf. rewrite Ha in Hwf.
  split_and!; [done..|by apply wf_seating_keys|apply plan_seats_NoDup
              |apply length_plan_seats|by eapply wf_length| |].
  - intros r l Hplan%elem_of_plan_seats. rewrite <- Ha in Hplan.
    destruct (seat_at_wf f r l) as ([p|] & _ & ->); eauto.
    unfold wf. by rewrite Ha.
  - assert (∃ f0, __init__ number aircraft = Return f0) as [f0 Hinit].
    { clear Hn Ha Hwf. induction Hreach; eauto. }
    exists f0. split; [done|]. apply init_new in Hinit as ->. split.
    + apply wf_seating_keys, (wf_new number aircraft).
    + intros r l Hplan%elem_of_plan_seats. by apply seat_at_new.
Qed.

Lemma seating_invariant_witness :
  seating_keys (_seating tim_and_john)
  = list_to_set (plan_seats (AirbusA319 "G-BGT2")).
Proof.
  refine (proj1 (proj2 (proj2
    (seating_invariant "AB221" (AirbusA319 "G-BGT2") tim_and_john _)))).
  apply reach_allocate, reach_allocate, reach_init. reflexivity.
Defined.

(** ** Counting the available seats *)

Lemma row_available_insert_fresh (d : row_dict) l o :
  d !! l = None → row_available (<[l := o]> d) = (vacancy o + row_available d)%nat.
Proof.
  intros Hl. unfold row_available. rewrite map_to_list_insert by done.
  rewrite fmap_cons, filter_cons. simpl. by destruct o.
Qed.

Lemma row_available_insert (d : row_dict) l o v :
  d !! l = Some o →
  (row_available (<[l := v]> d) + vacancy o = row_available d + vacancy v)%nat.
Proof.
  intros Hl. rewrite <- (insert_delete_id d l o) at 2 by done.
  rewrite <- (insert_delete_eq d l v).
  rewrite !row_available_insert_fresh by apply lookup_delete_eq. lia.
Qed.

Lemma available_update s n l v o :
  entry s n l = Some o →
  (sum_list (row_available <$> omap id (update n l v s)) + vacancy o
   = sum_list (row_available <$> omap id s) + vacancy v)%nat.
Proof.
  unfold entry, update. revert n.
  induction s as [|row s IH]; intros [|n]; simpl; try done.
  - destruct row as [d|]; [|done]. intros Hl. simpl.
    pose proof (row_available_insert d l o v Hl). lia.
  - intros Hl. specialize (IH n Hl). destruct row as [d|].
    + change ((row_available d
               + sum_list (row_available <$> omap id (update n l v s))
               + vacancy o
               = row_available d + sum_list (row_available <$> omap id s)
                 + vacancy v)%nat).
      unfold update. lia.
    + exact IH.
Qed.

Lemma num_seats_available_update self n l v o :
  entry (_seating self) n l = Some o →
  (num_seats_available (with_seating self (update n l v (_seating self)))
   + vacancy o
   = num_seats_available self + vacancy v)%nat.
Proof. apply available_update. Qed.

Lemma length_filter_fmap_ext {A B} (P : B → Prop) (Q : A → Prop)
    `{∀ y, Decision (P y)} `{∀ x, Decision (Q x)} (g : A → B) (l : list A) :
  (∀ x, x ∈ l → P (g x) ↔ Q x) →
  length (filter P (g <$> l)) = length (filter Q l).
Proof.
  induction l as [|x l IH]; [done|]. intros Hext.
  rewrite fmap_cons, !filter_cons.
  pose proof (Hext x (list_elem_of_here _ _)) as Hx.
  assert (IH' : length (filter P (g <$> l)) = length (filter Q l)).
  { apply IH. intros y Hy. apply Hext. by apply list_elem_of_further. }
  destruct (decide (P (g x))), (decide (Q x)); simpl; try (by rewrite IH'); tauto.
Qed.

Lemma length_filter_bind {A B} (P : B → Prop) `{∀ y, Decision (P y)}
    (f : A → list B) (l : list A) :
  length (filter P (l ≫= f))
  = sum_list ((λ x, length (filter P (f x))) <$> l).
Proof.
  induction l as [|x l IH]; [done|].
  rewrite bind_cons, filter_app, length_app, IH. done.
Qed.

(** A row dict whose keys are the letters of the plan has as many empty
    values as there are letters with an empty entry. *)
Lemma row_available_letters (d : row_dict) (letters : list char) :
  NoDup letters → (∀ l, is_Some (d !! l) ↔ l ∈ letters) →
  row_available d = length (filter (λ l, d !! l = Some None) letters).
Proof.
  intros Hnodup Hkeys. unfold row_available.
  assert (Hperm : (map_to_list d).*1 ≡ₚ letters).
  { apply NoDup_Permutation; [apply NoDup_fst_map_to_list|done|].
    intros l. rewrite <- Hkeys, list_elem_of_fmap. split.
    - intros ([l' o] & -> & Hin%elem_of_map_to_list). by eauto.
    - intros [o Ho]. exists (l, o). by rewrite elem_of_map_to_list. }
  assert (Hvalues : (map_to_list d).*2
                    = (λ l, default None (d !! l)) <$> (map_to_list d).*1).
  { rewrite <- list_fmap_compose. apply list_fmap_ext.
    intros i [l o] Hin. simpl.
    apply list_elem_of_lookup_2, elem_of_map_to_list in Hin. by rewrite Hin. }
  rewrite Hvalues, Hperm.
  apply length_filter_fmap_ext. intros l [o Ho]%Hkeys. rewrite Ho. simpl.
  split; congruence.
Qed.

Lemma omap_id_Some {A} (l : list A) : omap id (Some <$> l) = l.
Proof. induction l as [|x l IH]; [done|]. simpl. by f_equal. Qed.

Lemma length_filter_row (P : Z * char → Prop) `{∀ k, Decision (P k)}
    (r : Z) (ls : list char) :
  length (filter P (ls ≫= λ l, [(r, l)]))
  = length (filter (λ l, P (r, l)) ls).
Proof.
  induction ls as [|l ls IH]; [done|].
  rewrite bind_cons, filter_app, length_app, IH.
  rewrite (filter_cons (λ l, P (r, l))).
  simpl. rewrite filter_cons, filter_nil. by destruct (decide (P (r, l))).
Qed.

Lemma seat_at_row (ds : list row_dict) (i : nat) (d : row_dict) l :
  ds !! i = Some d →
  seat_at (None :: (Some <$> ds)) (Z.of_nat (S i)) l = Return None
  ↔ d !! l = Some None.
Proof.
  intros Hd. unfold seat_at, list_index.
  rewrite norm_index_nonneg;
    [|simpl; rewrite length_fmap; apply lookup_lt_Some in Hd; lia].
  rewrite Nat2Z.id. simpl. rewrite list_lookup_fmap, Hd. simpl.
  destruct (d !! l) as [[p|]|]; simpl; split; congruence.
Qed.

Lemma num_seats_available_free self :
  wf self → num_seats_available self = length (free_seats self).
Proof.
  intros (ds & Hs & Hlen & Hkeys).
  unfold num_seats_available, free_seats, plan_seats.
  rewrite length_filter_bind, range_list_plan, <- list_fmap_compose, <- Hlen.
  rewrite Hs. simpl. rewrite omap_id_Some. f_equal.
  apply list_eq. intros i. rewrite !list_lookup_fmap.
  destruct (ds !! i) as [d|] eqn:Hd; simpl.
  - rewrite lookup_seq_lt by (by eapply lookup_lt_Some). simpl. f_equal.
    rewrite Forall_forall in Hkeys.
    rewrite length_filter_row. simpl.
    rewrite (row_available_letters d
               (Str.chars (plan_letters (_aircraft self)))).
    + f_equal. apply list_filter_iff. intros l. symmetry. by apply seat_at_row.
    + apply plan_letters_NoDup.
    + intros l. rewrite <- contains_elem_of.
      apply (Hkeys d). by eapply list_elem_of_lookup_2.
  - by rewrite lookup_seq_ge by (by apply lookup_ge_None).
Qed.

Lemma allocate_seat_Return self seat passenger self' :
  allocate_seat seat passenger self = (Return (), self') → wf self →
  ∃ r l, _parse_seat self seat = Return (r, l)
         ∧ entry (_seating self) (Z.to_nat r) l = Some None
         ∧ self' = with_seating self
                     (update (Z.to_nat r) l (Some passenger) (_seating self)).
Proof.
  intros Halloc Hwf.
  destruct (_parse_seat self seat) as [[r l]|e] eqn:Hparse;
    [|rewrite allocate_seat_unfold, Hparse in Halloc; congruence].
  destruct (allocate_seat_wf_eval _ _ passenger _ _ Hwf Hparse)
    as ([q|] & _ & He & Heq); rewrite Heq in Halloc; [congruence|].
  exists r, l. split_and!; congruence.
Qed.

Lemma relocate_passenger_Return self from_seat to_seat self' :
  relocate_passenger from_seat to_seat self = (Return (), self') → wf self →
  ∃ r l r' l' p,
    _parse_seat self from_seat = Return (r, l)
    ∧ seat_at (_seating self) r l = Return (Some p)
    ∧ _parse_seat self to_seat = Return (r', l')
    ∧ seat_at (_seating self) r' l' = Return None.
Proof.
  intros Hrel Hwf. revert Hrel.
  destruct (_parse_seat self from_seat) as [[r l]|e1] eqn:Hfrom;
    [|rewrite relocate_passenger_unfold, Hfrom; congruence].
  destruct (seat_at (_seating self) r l) as [[p|]|e1] eqn:Hp;
    [| rewrite relocate_passenger_unfold, Hfrom, Hp; congruence..].
  destruct (_parse_seat self to_seat) as [[r' l']|e1] eqn:Hto;
    [|rewrite relocate_passenger_unfold, Hfrom, Hp, Hto; congruence].
  destruct (seat_at (_seating self) r' l') as [[q|]|e1] eqn:Hq;
    [rewrite relocate_passenger_unfold, Hfrom, Hp, Hto, Hq; congruence |
     | rewrite relocate_passenger_unfold, Hfrom, Hp, Hto, Hq; congruence].
  intros _. by exists r, l, r', l', p.
Qed.

(** C5. On a well-formed flight [num_seats_available] is the number of
    seats of the plan (all the keys of the seating map) that hold nobody;
    an allocation that returns lowers it by exactly one and a relocation
    that returns leaves it as it was.  An Airbus A319 has 132 seats, all
    available in a new flight, and 130 are available once 1C and 1D are
    allocated. *)
Theorem num_seats_available_contract (self : Flight) (Hwf : wf self) :
  num_seats_available self = length (free_seats self)
  ∧ (∀ seat passenger self',
       allocate_seat seat passenger self = (Return (), self') →
       S (num_seats_available self') = num_seats_available self)
  ∧ (∀ from_seat to_seat self',
       relocate_passenger from_seat to_seat self = (Return (), self') →
       num_seats_available self' = num_seats_available self)
  ∧ num_seats (_aircraft fresh_A319) = 132%nat
  ∧ num_seats_available fresh_A319 = 132%nat
  ∧ allocate_seat "1C" "Tim" fresh_A319
    = (Return (), after (allocate_seat "1C" "Tim") fresh_A319)
  ∧ allocate_seat "1D" "John" (after (allocate_seat "1C" "Tim") fresh_A319)
    = (Return (), tim_and_john)
  ∧ num_seats_available tim_and_john = 130%nat.
Proof.
  split_and!.
  - by apply num_seats_available_free.
  - intros seat passenger self' Halloc.
    destruct (allocate_seat_Return _ _ _ _ Halloc Hwf) as (r & l & _ & He & ->).
    pose proof (num_seats_available_update self _ _ (Some passenger) _ He) as Hnum.
    simpl in Hnum. lia.
  - intros from_seat to_seat self' Hrel.
    destruct (relocate_passenger_Return _ _ _ _ Hrel Hwf)
      as (r & l & r' & l' & p & Hfrom & Hp & Hto & Hq).
    destruct (relocate_passenger_wf_eval _ _ _ _ _ _ _ _ Hwf Hfrom Hp Hto Hq)
      as (Hne & He & He' & Heq).
    rewrite Heq in Hrel. injection Hrel as <-.
    pose proof (in_plan_bounds _ _ _ (parse_seat_in_plan _ _ _ _ Hfrom)) as Hr.
    pose proof (in_plan_bounds _ _ _ (parse_seat_in_plan _ _ _ _ Hto)) as Hr'.
    pose proof (num_seats_available_update self _ _ (Some p) _ He') as Hnum1.
    pose proof (num_seats_available_update
                  (with_seating self (update (Z.to_nat r') l' (Some p) (_seating self)))
                  (Z.to_nat r) l None (Some p)) as Hnum2.
    simpl in Hnum1, Hnum2. rewrite with_seating_twice in Hnum2.
    rewrite entry_update_ne in Hnum2
      by (intros [= Hn ->]; apply Hne; f_equal; lia).
    specialize (Hnum2 He). lia.
  - reflexivity.
  - vm_compute. reflexivity.
  - vm_compute. reflexivity.
  - vm_compute. reflexivity.
  - vm_compute. reflexivity.
Qed.

Lemma num_seats_available_contract_witness :
  S (num_seats_available tim_and_john)
  = num_seats_available (after (allocate_seat "1C" "Tim") fresh_A319).
Proof.
  destruct (num_seats_available_contract
              (after (allocate_seat "1C" "Tim") fresh_A319)
              (after_allocate_wf _ _ _ fresh_A319_wf))
    as (_ & Halloc & _ & _ & _ & _ & Hjohn & _).
  exact (Halloc "1D" "John" tim_and_john Hjohn).
Defined.

(** ** Ordering of strings and pairs *)

Lemma code_inj x y : Char.code x = Char.code y → x = y.
Proof. done. Qed.

Lemma str_lt_irrefl a : str_lt a a = false.
Proof. induction a as [|x a IH]; [done|]. simpl. by rewrite N.eqb_refl. Qed.

Lemma str_lt_trans a : ∀ b c,
  str_lt a b = true → str_lt b c = true → str_lt a c = true.
Proof.
  induction a as [|x a IH]; intros [|y b] [|z c]; simpl; try done.
  destruct (N.eqb_spec x y) as [<-|Hxy].
  - destruct (N.eqb_spec x z) as [<-|Hxz]; [by apply IH|done].
  - destruct (N.eqb_spec y z) as [<-|Hyz].
    + destruct (N.eqb_spec x y); [done|]. done.
    + intros Hlt1%N.ltb_lt Hlt2%N.ltb_lt.
      destruct (N.eqb_spec x z) as [<-|Hxz]; [lia|].
      apply N.ltb_lt. lia.
Qed.

Lemma str_lt_total a : ∀ b,
  str_lt a b = false → str_lt b a = false → a = b.
Proof.
  induction a as [|x a IH]; intros [|y b]; simpl; try done.
  destruct (N.eqb_spec x y) as [<-|Hxy].
  - rewrite N.eqb_refl. intros H1 H2. f_equal. by apply IH.
  - destruct (N.eqb_spec y x) as [->|_]; [done|].
    intros H1%N.ltb_ge H2%N.ltb_ge. destruct Hxy. apply code_inj. lia.
Qed.

Lemma pair_lt_name_first x y : pair_lt x y = true → name_first x y.
Proof.
  unfold pair_lt, name_first.
  destruct (str_eqb_spec x.1 y.1) as [Heq|Hne]; auto.
Qed.

Lemma not_pair_lt_name_first x y : pair_lt y x = false → name_first x y.
Proof.
  unfold pair_lt, name_first.
  destruct (str_eqb_spec y.1 x.1) as [Heq|Hne]; intros Hlt.
  - right. split; [done|].
    destruct (str_lt x.2 y.2) eqn:Hlt'; [by left|].
    right. by apply str_lt_total.
  - left. destruct (str_lt x.1 y.1) eqn:Hlt'; [done|].
    destruct Hne. by apply str_lt_total.
Qed.

Lemma name_first_trans x y z : name_first x y → name_first y z → name_first x z.
Proof.
  unfold name_first.
  intros [H1|[Heq1 H1]] [H2|[Heq2 H2]].
  - left. by eapply str_lt_trans.
  - left. by rewrite <- Heq2.
  - left. by rewrite Heq1.
  - right. split; [congruence|].
    destruct H1 as [H1|H1], H2 as [H2|H2].
    + left. by eapply str_lt_trans.
    + left. by rewrite <- H2.
    + left. by rewrite H1.
    + right. congruence.
Qed.

(** ** [sorted] *)

Lemma insert_sorted_Permutation x l : insert_sorted x l ≡ₚ x :: l.
Proof.
  induction l as [|y l IH]; [done|]. simpl.
  destruct (pair_lt y x); [|done]. rewrite IH. apply Permutation_swap.
Qed.

Lemma sorted_Permutation l : sorted l ≡ₚ l.
Proof.
  induction l as [|x l IH]; [done|]. unfold sorted in *. simpl.
  by rewrite insert_sorted_Permutation, IH.
Qed.

Lemma insert_sorted_StronglySorted x l :
  StronglySorted name_first l → StronglySorted name_first (insert_sorted x l).
Proof.
  induction 1 as [|y l Hsorted IH Hall]; simpl.
  - by repeat constructor.
  - destruct (pair_lt y x) eqn:Hlt.
    + constructor; [done|].
      rewrite insert_sorted_Permutation. constructor; [|done].
      by apply pair_lt_name_first.
    + pose proof (not_pair_lt_name_first _ _ Hlt) as Hxy.
      constructor; [by constructor|]. constructor; [done|].
      eapply Forall_impl; [exact Hall|]. intros z Hyz.
      by eapply name_first_trans.
Qed.

Lemma sorted_StronglySorted l : StronglySorted name_first (sorted l).
Proof.
  induction l as [|x l IH]; [constructor|].
  by apply insert_sorted_StronglySorted.
Qed.

(** ** Printed seat designators *)

Lemma of_ascii_inj a : ∀ b, Str.of_ascii a = Str.of_ascii b → a = b.
Proof.
  induction a as [|x a IH]; intros [|y b]; simpl; try done.
  intros [= Hxy Hab]. f_equal; [|by apply IH].
  by rewrite <- (ascii_N_embedding x), <- (ascii_N_embedding y), Hxy.
Qed.

Lemma of_int_inj z z' : Str.of_int z = Str.of_int z' → z = z'.
Proof.
  assert (∀ n, NilZero.int_of_string (NilZero.string_of_int (Z.to_int n))
               = Some (Z.to_int n)) as Hback.
  { intros n. apply NilZero.isi; destruct n; simpl; try done;
      intros [= H]; by apply DecimalPos.Unsigned.to_uint_nonnil in H. }
  intros Heq%of_ascii_inj. apply DecimalZ.to_int_inj.
  pose proof (Hback z) as H1. rewrite Heq, Hback in H1. congruence.
Qed.

Lemma append_last_inj s : ∀ s' c c',
  s +:+ StrCons c "" = s' +:+ StrCons c' "" → s = s' ∧ c = c'.
Proof.
  induction s as [|x s IH]; intros [|y s'] c c'; simpl.
  - by intros [= ->].
  - intros [= -> H]. by destruct s'.
  - intros [= -> H]. by destruct s.
  - intros [= -> H]. apply IH in H as [-> ->]. done.
Qed.

Lemma designator_inj r l r' l' :
  designator r l = designator r' l' → (r, l) = (r', l').
Proof.
  unfold designator. intros [H ->]%append_last_inj.
  by apply of_int_inj in H as ->.
Qed.

(** ** Enumerating passengers *)

Lemma yield_from_Return {A B} (body : A → outcome (list B)) (g : A → list B)
    (l : list A) :
  (∀ x, x ∈ l → body x = Return (g x)) →
  yield_from body l = Return (l ≫= g).
Proof.
  induction l as [|x l IH]; [done|]. intros Hbody. simpl.
  rewrite (Hbody x) by apply list_elem_of_here.
  rewrite IH by (intros y Hy; by apply Hbody, list_elem_of_further). done.
Qed.

Lemma omap_bind {A B C} (f : B → option C) (g : A → list B) (l : list A) :
  omap f (l ≫= g) = l ≫= (λ x, omap f (g x)).
Proof.
  induction l as [|x l IH]; [done|]. by rewrite !bind_cons, omap_app, IH.
Qed.

Lemma NoDup_omap {A B} (f : A → option B) (l : list A) :
  (∀ x y z, f x = Some z → f y = Some z → x = y) →
  NoDup l → NoDup (omap f l).
Proof.
  intros Hinj. induction 1 as [|x l Hx Hl IH]; [constructor|]. simpl.
  destruct (f x) as [z|] eqn:Hfx; [|done].
  constructor; [|done]. intros (y & Hy & Hfy)%list_elem_of_omap.
  by rewrite (Hinj x y z) in Hx.
Qed.

Lemma passenger_seats_wf self :
  wf self → _passenger_seats self = Return (occupied_seats self).
Proof.
  intros Hwf. unfold _passenger_seats, occupied_seats, plan_seats.
  unfold plan_rows, plan_letters.
  pose proof (λ r l, seat_at_wf self r l Hwf) as Hseat.
  unfold in_plan, plan_rows, plan_letters in Hseat.
  destruct (seating_plan (_aircraft self)) as [rows letters]. simpl in *.
  rewrite omap_bind. apply yield_from_Return. intros r Hr%elem_of_range_list.
  rewrite omap_bind. apply yield_from_Return. intros l Hl%contains_elem_of.
  destruct (Hseat r l (conj Hr Hl)) as (o & _ & Ho). simpl. rewrite Ho.
  by destruct o.
Qed.

Lemma elem_of_occupied_seats self passenger seat :
  (passenger, seat) ∈ occupied_seats self
  ↔ ∃ r l, in_plan (_aircraft self) r l
           ∧ seat = designator r l
           ∧ seat_at (_seating self) r l = Return (Some passenger).
Proof.
  unfold occupied_seats. rewrite list_elem_of_omap. split.
  - intros ([r l] & Hplan%elem_of_plan_seats & Hocc). simpl in Hocc.
    exists r, l. destruct (seat_at (_seating self) r l) as [[p|]|]; [|done..].
    by injection Hocc as -> ->.
  - intros (r & l & Hplan%elem_of_plan_seats & -> & Hocc).
    exists (r, l). split; [done|]. simpl. by rewrite Hocc.
Qed.

Lemma occupied_seats_NoDup self : NoDup (occupied_seats self).*2.
Proof.
  unfold occupied_seats. rewrite list_fmap_omap.
  apply NoDup_omap; [|apply plan_seats_NoDup].
  intros [r l] [r' l'] z. simpl.
  destruct (seat_at (_seating self) r l) as [[p|]|]; [|done..].
  destruct (seat_at (_seating self) r' l') as [[p'|]|]; [|done..].
  simpl. intros [= <-] [= H]. symmetry. by apply designator_inj.
Qed.

Lemma foldl_recording_printer (flight_number aircraft : str)
    (l : list (str * str)) calls :
  foldl (λ w '(passenger, seat),
           recording_printer passenger seat flight_number aircraft w) calls l
  = calls ++ ((λ '(passenger, seat), (passenger, seat, flight_number, aircraft)) <$> l).
Proof.
  revert calls. induction l as [|[p s] l IH]; intros calls; simpl.
  - by rewrite app_nil_r.
  - rewrite IH. unfold recording_printer. by rewrite <- app_assoc.
Qed.

(** ** Boarding cards *)

(** C7. On a well-formed flight, [make_boarding_cards] calls the printer
    with (passenger, seat designator, flight number, aircraft model) once
    for each pair of [sorted], applied to the pairs of the occupied seats of
    the plan, in the order of that list: a rearrangement of those pairs,
    one per occupied seat, that ascends in the lexicographic order with the
    passenger name first.  With Bob in 2A and Alice in 1A, Alice's card
    comes before Bob's, and so it does with the seats exchanged. *)
Theorem make_boarding_cards_contract (self : Flight) (Hwf : wf self)
    (W : Type) (card_printer : str → str → str → str → W → W)
    (world : W) :
  _passenger_seats self = Return (occupied_seats self)
  ∧ make_boarding_cards card_printer self world
    = Return (foldl (λ w '(passenger, seat),
                       card_printer passenger seat (number self)
                                    (aircraft_model self) w)
                    world (sorted (occupied_seats self)))
  ∧ make_boarding_cards recording_printer self []
    = Return ((λ '(passenger, seat),
                 (passenger, seat, number self, aircraft_model self))
              <$> sorted (occupied_seats self))
  ∧ sorted (occupied_seats self) ≡ₚ occupied_seats self
  ∧ StronglySorted name_first (sorted (occupied_seats self))
  ∧ NoDup (occupied_seats self).*2
  ∧ (∀ passenger seat,
       (passenger, seat) ∈ occupied_seats self
       ↔ ∃ r l, in_plan (_aircraft self) r l
                ∧ seat = designator r l
                ∧ seat_at (_seating self) r l = Return (Some passenger))
  ∧ make_boarding_cards recording_printer bob_then_alice []
    = Return [("Alice", "1A", "AB221", "Airbus A319");
              ("Bob", "2A", "AB221", "Airbus A319")]
  ∧ make_boarding_cards recording_printer alice_behind_bob []
    = Return [("Alice", "2A", "AB221", "Airbus A319");
              ("Bob", "1A", "AB221", "Airbus A319")].
Proof.
  pose proof (passenger_seats_wf self Hwf) as Hseats.
  split_and!.
  - done.
  - unfold make_boarding_cards. by rewrite Hseats.
  - unfold make_boarding_cards. rewrite Hseats. simpl.
    by rewrite foldl_recording_printer.
  - apply sorted_Permutation.
  - apply sorted_StronglySorted.
  - apply occupied_seats_NoDup.
  - apply elem_of_occupied_seats.
  - vm_compute. reflexivity.
  - vm_compute. reflexivity.
Qed.

Lemma make_boarding_cards_contract_witness :
  make_boarding_cards recording_printer tim_and_john []
  = Return ((λ '(passenger, seat),
               (passenger, seat, number tim_and_john, aircraft_model tim_and_john))
            <$> sorted (occupied_seats tim_and_john)).
Proof.
  destruct (make_boarding_cards_contract tim_and_john tim_and_john_wf
              (list (str * str * str * str)) recording_printer [])
    as (_ & _ & Hcalls & _).
  exact Hcalls.
Defined.

(** * Further properties of the module *)

(** ** [int] undoes [str] *)

Lemma string_of_uint_decimal d :
  Str.all Char.is_decimal (Str.of_ascii (NilEmpty.string_of_uint d)) = true.
Proof.
  induction d; [done|..];
    change (Str.all Char.is_decimal (Str.of_ascii (NilEmpty.string_of_uint d))
            = true); exact IHd.
Qed.

Lemma string_of_uint_nonempty d :
  d ≠ Decimal.Nil → Str.of_ascii (NilEmpty.string_of_uint d) ≠ "".
Proof. by destruct d. Qed.

Lemma decimal_from_cons acc c s :
  decimal_from acc (StrCons c s)
  = decimal_from (10 * acc + Char.decimal_value c) s.
Proof. done. Qed.

Lemma decimal_from_of_uint_acc d : ∀ acc : positive,
  decimal_from (Z.pos acc) (Str.of_ascii (NilEmpty.string_of_uint d))
  = Z.pos (Pos.of_uint_acc d acc).
Proof.
  induction d as [|d IH|d IH|d IH|d IH|d IH|d IH|d IH|d IH|d IH|d IH];
    intros acc; [done|..];
    cbn [NilEmpty.string_of_uint Str.of_ascii Pos.of_uint_acc];
    rewrite decimal_from_cons, <- IH; f_equal;
    match goal with
    | |- context [Char.decimal_value ?c] =>
        let v := eval vm_compute in (Char.decimal_value c) in
        change (Char.decimal_value c) with v
    end; lia.
Qed.

Lemma decimal_from_of_uint d :
  decimal_from 0 (Str.of_ascii (NilEmpty.string_of_uint d))
  = Z.of_N (Pos.of_uint d).
Proof.
  induction d as [|d IH|d IH|d IH|d IH|d IH|d IH|d IH|d IH|d IH|d IH];
    [done|exact IH|..];
    cbn [NilEmpty.string_of_uint Str.of_ascii Pos.of_uint];
    rewrite decimal_from_cons;
    apply (decimal_from_of_uint_acc d).
Qed.

Lemma int_negative s :
  s ≠ "" → Str.all Char.is_decimal s = true →
  Str.int (StrCons (ord "-") s) = Some (- decimal_number s).
Proof.
  intros Hne Hall.
  pose proof (all_decimal_digit s Hall) as Hdig.
  unfold Str.int.
  change (Str.lstrip (StrCons (ord "-") s)) with (StrCons (ord "-") s).
  assert (Str.rstrip (StrCons (ord "-") s) = StrCons (ord "-") s) as ->.
  { simpl. rewrite (rstrip_digit_string s Hdig). by destruct s. }
  change ((ord "-" =? ord "+")%N) with false.
  change ((ord "-" =? ord "-")%N) with true. cbv iota.
  by rewrite digits_of_decimal_string.
Qed.

(** [int(str(z)) == z] for every integer. *)
Lemma int_of_int z : Str.int (Str.of_int z) = Some z.
Proof.
  destruct z as [|p|p]; [done|..]; unfold Str.of_int;
    pose proof (DecimalPos.Unsigned.to_uint_nonnil p) as Hnil.
  - change (Str.int (Str.of_ascii (NilZero.string_of_uint (Pos.to_uint p)))
            = Some (Z.pos p)).
    assert (NilZero.string_of_uint (Pos.to_uint p)
            = NilEmpty.string_of_uint (Pos.to_uint p)) as ->
      by (by destruct (Pos.to_uint p)).
    rewrite int_decimal_string
      by (by apply string_of_uint_nonempty || apply string_of_uint_decimal).
    unfold decimal_number.
    fold (decimal_from 0 (Str.of_ascii (NilEmpty.string_of_uint (Pos.to_uint p)))).
    by rewrite decimal_from_of_uint, DecimalPos.Unsigned.of_to.
  - change (Str.int (StrCons (ord "-")
                       (Str.of_ascii (NilZero.string_of_uint (Pos.to_uint p))))
            = Some (Z.neg p)).
    assert (NilZero.string_of_uint (Pos.to_uint p)
            = NilEmpty.string_of_uint (Pos.to_uint p)) as ->
      by (by destruct (Pos.to_uint p)).
    rewrite int_negative
      by (by apply string_of_uint_nonempty || apply string_of_uint_decimal).
    unfold decimal_number.
    fold (decimal_from 0 (Str.of_ascii (NilEmpty.string_of_uint (Pos.to_uint p)))).
    by rewrite decimal_from_of_uint, DecimalPos.Unsigned.of_to.
Qed.

(** ** Designators printed by the flight parse back *)

Lemma last_append s c : Str.last (s +:+ StrCons c "") = Some c.
Proof.
  induction s as [|x s IH]; [done|].
  change (Str.last (StrCons x (s +:+ StrCons c "")) = Some c).
  simpl. rewrite IH. by destruct s.
Qed.

Lemma but_last_append s c : Str.but_last (s +:+ StrCons c "") = s.
Proof.
  induction s as [|x s IH]; [done|].
  change (Str.but_last (StrCons x (s +:+ StrCons c "")) = StrCons x s).
  simpl. rewrite IH. by destruct s.
Qed.

Lemma parse_designator self r l :
  in_plan (_aircraft self) r l → _parse_seat self (designator r l) = Return (r, l).
Proof.
  unfold in_plan, plan_rows, plan_letters, _parse_seat, designator.
  destruct (seating_plan (_aircraft self)) as [rows letters]. simpl.
  intros [Hr Hl]. by rewrite last_append, but_last_append, Hl, int_of_int, Hr.
Qed.

(** X1. On a well-formed flight every pair (passenger, seat) that
    [_passenger_seats] yields carries a designator that [_parse_seat]
    accepts, and the seat it parses to holds that passenger: the seats
    printed on boarding cards can be given back to [relocate_passenger]. *)
Theorem listed_seats_parse_back (self : Flight) (Hwf : wf self) :
  ∃ seats,
    _passenger_seats self = Return seats
    ∧ ∀ passenger seat, (passenger, seat) ∈ seats →
        ∃ r l, _parse_seat self seat = Return (r, l)
               ∧ seat = Str.of_int r +:+ StrCons l ""
               ∧ seat_at (_seating self) r l = Return (Some passenger).
Proof.
  exists (occupied_seats self). split; [by apply passenger_seats_wf|].
  intros passenger seat (r & l & Hplan & -> & Hocc)%elem_of_occupied_seats.
  exists r, l. split_and!; [by apply parse_designator|done..].
Qed.

Lemma listed_seats_parse_back_witness :
  ∃ seats, _passenger_seats tim_and_john = Return seats.
Proof.
  destruct (listed_seats_parse_back tim_and_john tim_and_john_wf)
    as (seats & Hseats & _).
  by exists seats.
Defined.

(** ** Available and occupied seats add up *)

Lemma length_filter_omap {A B} (P : A → Prop) `{∀ x, Decision (P x)}
    (f : A → option B) (l : list A) :
  (∀ x, x ∈ l → P x ↔ f x = None) →
  (length (filter P l) + length (omap f l) = length l)%nat.
Proof.
  induction l as [|x l IH]; [done|]. intros Hext.
  pose proof (Hext x (list_elem_of_here _ _)) as Hx.
  assert (IH' : (length (filter P l) + length (omap f l) = length l)%nat)
    by (apply IH; intros y Hy; by apply Hext, list_elem_of_further).
  change (x :: l) with ([x] ++ l) at 2.
  rewrite filter_cons, omap_app, length_app. simpl.
  destruct (decide (P x)) as [HP|HP], (f x) as [y|] eqn:Hfx; simpl.
  - apply Hx in HP. done.
  - lia.
  - lia.
  - destruct HP. by apply Hx.
Qed.

Lemma omap_None {A B} (f : A → option B) (l : list A) :
  (∀ x, x ∈ l → f x = None) → omap f l = [].
Proof.
  induction l as [|x l IH]; [done|]. intros Hnone.
  change (x :: l) with ([x] ++ l). rewrite omap_app, IH
    by (intros y Hy; by apply Hnone, list_elem_of_further).
  simpl. by rewrite (Hnone x) by apply list_elem_of_here.
Qed.

Lemma free_or_occupied self :
  wf self →
  (length (free_seats self) + length (occupied_seats self)
   = num_seats (_aircraft self))%nat.
Proof.
  intros Hwf. rewrite <- length_plan_seats. unfold free_seats, occupied_seats.
  apply length_filter_omap.
  intros [r l] Hplan%elem_of_plan_seats. simpl.
  destruct (seat_at_wf self r l Hwf Hplan) as ([p|] & _ & ->); split; congruence.
Qed.

(** X2. On a well-formed flight the seats [num_seats_available] counts and
    the pairs [_passenger_seats] yields add up to the aircraft's
    [num_seats]: every seat of the plan is either available or listed with
    its passenger, and never more seats are available than the aircraft
    has. *)
Theorem available_plus_occupied (self : Flight) (Hwf : wf self) :
  ∃ seats,
    _passenger_seats self = Return seats
    ∧ (num_seats_available self + length seats = num_seats (_aircraft self))%nat
    ∧ (num_seats_available self ≤ num_seats (_aircraft self))%nat.
Proof.
  exists (occupied_seats self).
  pose proof (free_or_occupied self Hwf) as Hsum.
  rewrite <- num_seats_available_free in Hsum by done.
  split_and!; [by apply passenger_seats_wf|done|lia].
Qed.

Lemma available_plus_occupied_witness :
  ∃ seats, _passenger_seats tim_and_john = Return seats
           ∧ (num_seats_available tim_and_john + length seats = 132)%nat.
Proof.
  destruct (available_plus_occupied tim_and_john tim_and_john_wf)
    as (seats & Hseats & Hsum & _).
  exists seats. by split.
Defined.

(** X3. A flight as [__init__] returns it, for either aircraft and any
    accepted number, has all the seats of its aircraft available and no
    passenger: [num_seats_available] equals the aircraft's [num_seats] and
    [_passenger_seats] yields nothing. *)
Theorem new_flight_all_available (number : str) (aircraft : Aircraft)
    (f : Flight) (Hinit : __init__ number aircraft = Return f) :
  num_seats_available f = num_seats aircraft
  ∧ _passenger_seats f = Return []
  ∧ num_seats aircraft
    = (range_len (seating_plan aircraft).1
       * Str.length (seating_plan aircraft).2)%nat.
Proof.
  apply init_new in Hinit as ->.
  pose proof (wf_new number aircraft) as Hwf.
  assert (Hnone : occupied_seats (new_flight number aircraft) = []).
  { unfold occupied_seats. apply omap_None.
    intros [r l] Hplan%elem_of_plan_seats.
    pose proof (seat_at_new number aircraft r l Hplan) as Hseat.
    simpl in *. by rewrite Hseat. }
  split_and!.
  - pose proof (free_or_occupied _ Hwf) as Hsum.
    rewrite <- num_seats_available_free, Hnone in Hsum by done.
    simpl in Hsum. lia.
  - by rewrite passenger_seats_wf, Hnone.
  - unfold num_seats. by destruct (seating_plan aircraft).
Qed.

Lemma new_flight_all_available_witness :
  num_seats_available fresh_A319 = num_seats (AirbusA319 "G-BGT2").
Proof.
  exact (proj1 (new_flight_all_available "AB221" (AirbusA319 "G-BGT2")
                  fresh_A319 eq_refl)).
Defined.

(** ** What the mutating methods raise *)

Lemma allocate_seat_Raise self seat passenger e self' :
  allocate_seat seat passenger self = (Raise e, self') → wf self →
  self' = self
  ∧ ((seat = "" ∧ e = IndexError)
     ∨ InvalidSeatLetter e ∨ InvalidSeatRow e ∨ SeatTaken e).
Proof.
  intros Halloc Hwf.
  destruct (_parse_seat self seat) as [[r l]|e1] eqn:Hparse.
  - destruct (allocate_seat_wf_eval _ _ passenger _ _ Hwf Hparse)
      as ([q|] & _ & _ & Heq); rewrite Heq in Halloc; [|done].
    injection Halloc as <- <-. split; [done|]. auto 6 with errors.
  - rewrite allocate_seat_unfold, Hparse in Halloc. injection Halloc as <- <-.
    split; [done|]. apply parse_seat_Raise in Hparse as [[-> ->]|[?|?]]; auto.
Qed.

Lemma relocate_passenger_Raise_class self from_seat to_seat e self' :
  relocate_passenger from_seat to_seat self = (Raise e, self') → wf self →
  ((from_seat = "" ∨ to_seat = "") ∧ e = IndexError)
  ∨ InvalidSeatLetter e ∨ InvalidSeatRow e ∨ EmptySeat e ∨ SeatTaken e.
Proof.
  intros Hrel Hwf. revert Hrel.
  destruct (_parse_seat self from_seat) as [[r l]|e1] eqn:Hfrom.
  2:{ rewrite relocate_passenger_unfold, Hfrom. intros [= <- <-].
      apply parse_seat_Raise in Hfrom as [[-> ->]|[?|?]]; auto. }
  pose proof (parse_seat_in_plan _ _ _ _ Hfrom) as Hplan.
  destruct (seat_at_wf _ _ _ Hwf Hplan) as ([p|] & _ & Hp).
  2:{ rewrite relocate_passenger_unfold, Hfrom, Hp. intros [= <- <-].
      auto 6 with errors. }
  destruct (_parse_seat self to_seat) as [[r' l']|e1] eqn:Hto.
  2:{ rewrite relocate_passenger_unfold, Hfrom, Hp, Hto. intros [= <- <-].
      apply parse_seat_Raise in Hto as [[-> ->]|[?|?]]; auto. }
  pose proof (parse_seat_in_plan _ _ _ _ Hto) as Hplan'.
  destruct (seat_at_wf _ _ _ Hwf Hplan') as ([q|] & _ & Hq).
  { rewrite relocate_passenger_unfold, Hfrom, Hp, Hto, Hq. intros [= <- <-].
    auto 6 with errors. }
  destruct (relocate_passenger_wf_eval _ _ _ _ _ _ _ _ Hwf Hfrom Hp Hto Hq)
    as (_ & _ & _ & ->). done.
Qed.

(** X4. On a well-formed flight [allocate_seat] and [relocate_passenger]
    never raise TypeError or KeyError: what they raise is one of the
    documented ValueErrors (InvalidSeatLetter, InvalidSeatRow, SeatTaken and,
    for relocation, EmptySeat) or the IndexError of an empty designator; and
    [allocate_seat], whatever the designator, leaves the flight as it was
    when it raises. *)
Theorem mutators_raise_cleanly (self : Flight) (Hwf : wf self) :
  (∀ seat passenger e self',
     allocate_seat seat passenger self = (Raise e, self') →
     self' = self
     ∧ ((seat = "" ∧ e = IndexError)
        ∨ InvalidSeatLetter e ∨ InvalidSeatRow e ∨ SeatTaken e))
  ∧ (∀ from_seat to_seat e self',
       relocate_passenger from_seat to_seat self = (Raise e, self') →
       self' = self
       ∧ (((from_seat = "" ∨ to_seat = "") ∧ e = IndexError)
          ∨ InvalidSeatLetter e ∨ InvalidSeatRow e ∨ EmptySeat e ∨ SeatTaken e)).
Proof.
  split.
  - intros seat passenger e self' Halloc. by eapply allocate_seat_Raise.
  - intros from_seat to_seat e self' Hrel. split.
    + by eapply relocate_passenger_Raise.
    + by eapply relocate_passenger_Raise_class.
Qed.

Lemma mutators_raise_cleanly_witness :
  InvalidSeatRow (ValueError "Invalid row number '23'").
Proof.
  destruct (mutators_raise_cleanly tim_and_john tim_and_john_wf) as [Halloc _].
  destruct (Halloc "23C" "Ann" (ValueError "Invalid row number '23'") tim_and_john
              eq_refl) as [_ [[Hempty _]|[Hletter|[Hrow|Htaken]]]].
  - discriminate Hempty.
  - inversion Hletter.
  - exact Hrow.
  - inversion Htaken.
Defined.

(** ** Allocation and the number of available seats *)

Lemma allocate_seat_free self seat passenger r l :
  wf self → _parse_seat self seat = Return (r, l) →
  seat_at (_seating self) r l = Return None →
  allocate_seat seat passenger self
  = (Return (),
     with_seating self (update (Z.to_nat r) l (Some passenger) (_seating self))).
Proof.
  intros Hwf Hparse Hfree.
  destruct (allocate_seat_wf_eval _ _ passenger _ _ Hwf Hparse)
    as (o & Hs & _ & ->).
  assert (o = None) as -> by congruence. done.
Qed.

(** X5. On a well-formed flight some call of [allocate_seat] returns
    exactly when [num_seats_available] is positive: a full flight refuses
    every designator, and while a seat is available the designator of a
    free seat is accepted. *)
Theorem allocation_possible_iff_available (self : Flight) (passenger : str)
    (Hwf : wf self) :
  (0 < num_seats_available self)%nat
  ↔ ∃ seat self', allocate_seat seat passenger self = (Return (), self').
Proof.
  split.
  - rewrite num_seats_available_free by done. unfold free_seats.
    destruct (filter _ (plan_seats (_aircraft self))) as [|[r l] rest] eqn:Hfree;
      [simpl; lia|]. intros _.
    assert (Hin : (r, l) ∈ filter
              (λ k : Z * char, seat_at (_seating self) k.1 k.2 = Return None)
              (plan_seats (_aircraft self)))
      by (rewrite Hfree; apply list_elem_of_here).
    apply list_elem_of_filter in Hin as [Hnone Hplan%elem_of_plan_seats].
    exists (designator r l). eexists.
    apply allocate_seat_free; [done|by apply parse_designator|done].
  - intros (seat & self' & Halloc).
    destruct (allocate_seat_Return _ _ _ _ Halloc Hwf) as (r & l & _ & He & ->).
    pose proof (num_seats_available_update self _ _ (Some passenger) _ He) as Hnum.
    simpl in Hnum. lia.
Qed.

Lemma allocation_possible_iff_available_witness :
  ∃ seat self', allocate_seat seat "Ann" tim_and_john = (Return (), self').
Proof.
  apply (allocation_possible_iff_available tim_and_john "Ann" tim_and_john_wf).
  assert (num_seats_available tim_and_john = 130%nat) as ->
    by (vm_compute; reflexivity).
  lia.
Defined.

(** ** How calls compose *)

Lemma parse_with_seating self s seat :
  _parse_seat (with_seating self s) seat = _parse_seat self seat.
Proof. done. Qed.

Lemma wf_with_update self r l v :
  wf self → in_plan (_aircraft self) r l →
  wf (with_seating self (update (Z.to_nat r) l v (_seating self)))
  ∧ seat_at (update (Z.to_nat r) l v (_seating self)) r l = Return v
  ∧ ∀ r' l', in_plan (_aircraft self) r' l' → (r, l) ≠ (r', l') →
      seat_at (update (Z.to_nat r) l v (_seating self)) r' l'
      = seat_at (_seating self) r' l'.
Proof.
  intros Hwf Hplan. destruct (wf_entry _ _ _ _ Hwf Hplan) as [o Ho].
  pose proof (in_plan_bounds _ _ _ Hplan) as Hr. split_and!.
  - unfold wf. simpl. by eapply wf_update.
  - eapply seat_at_update_eq; [lia|done].
  - intros r' l' Hplan' Hne. apply in_plan_bounds in Hplan'.
    apply seat_at_update_ne; [lia..|done].
Qed.

Lemma to_nat_pair_ne aircraft r l r' l' :
  in_plan aircraft r l → in_plan aircraft r' l' → (r, l) ≠ (r', l') →
  (Z.to_nat r, l) ≠ (Z.to_nat r', l').
Proof.
  intros Hr%in_plan_bounds Hr'%in_plan_bounds Hne [= Hn ->].
  apply Hne. f_equal. lia.
Qed.

(** X6. The flight a call leaves depends on the seats the designators
    parse to, not on how they are spelled: with two designators of the same
    seat, [allocate_seat] returns for one exactly when it returns for the
    other, with the same flight, and so does [relocate_passenger] with such
    designators as source or as destination. *)
Theorem spelling_irrelevant (self : Flight) (seat seat' : str)
    (r : Z) (l : char)
    (Hseat : _parse_seat self seat = Return (r, l))
    (Hseat' : _parse_seat self seat' = Return (r, l)) :
  (∀ passenger self',
     allocate_seat seat passenger self = (Return (), self')
     ↔ allocate_seat seat' passenger self = (Return (), self'))
  ∧ (∀ other self',
       relocate_passenger seat other self = (Return (), self')
       ↔ relocate_passenger seat' other self = (Return (), self'))
  ∧ (∀ other self',
       relocate_passenger other seat self = (Return (), self')
       ↔ relocate_passenger other seat' self = (Return (), self')).
Proof.
  split_and!.
  - intros passenger self'. rewrite !allocate_seat_unfold, Hseat, Hseat'.
    destruct (seat_at (_seating self) r l) as [[q|]|e]; split; congruence.
  - intros other self'. rewrite !relocate_passenger_unfold, Hseat, Hseat'.
    destruct (seat_at (_seating self) r l) as [[p|]|e]; [|split; congruence..].
    destruct (_parse_seat self other) as [[r' l']|e]; [|done].
    destruct (seat_at (_seating self) r' l') as [[q|]|e]; split; congruence.
  - intros other self'. rewrite !relocate_passenger_unfold.
    destruct (_parse_seat self other) as [[r' l']|e]; [|done].
    destruct (seat_at (_seating self) r' l') as [[p|]|e]; [|done..].
    rewrite Hseat, Hseat'.
    destruct (seat_at (_seating self) r l) as [[q|]|e]; split; congruence.
Qed.

Lemma spelling_irrelevant_witness :
  ∃ self', allocate_seat " +0_2C" "Ann" tim_and_john = (Return (), self')
           ∧ allocate_seat "2C" "Ann" tim_and_john = (Return (), self').
Proof.
  destruct (spelling_irrelevant tim_and_john "2C" " +0_2C" 2 (ord "C") eq_refl eq_refl)
    as (Halloc & _ & _).
  eexists. split; [|reflexivity].
  apply (Halloc "Ann"). reflexivity.
Defined.

(** X7. On a well-formed flight allocations of two different free seats
    commute: in either order both calls return, and the flight after them
    is the same. *)
Theorem allocations_commute (self : Flight) (a b p q : str)
    (r : Z) (l : char) (r' : Z) (l' : char)
    (Hwf : wf self)
    (Ha : _parse_seat self a = Return (r, l))
    (Hb : _parse_seat self b = Return (r', l'))
    (Hne : (r, l) ≠ (r', l'))
    (Hfree : seat_at (_seating self) r l = Return None)
    (Hfree' : seat_at (_seating self) r' l' = Return None) :
  ∃ self1 self2 self12,
    allocate_seat a p self = (Return (), self1)
    ∧ allocate_seat b q self1 = (Return (), self12)
    ∧ allocate_seat b q self = (Return (), self2)
    ∧ allocate_seat a p self2 = (Return (), self12).
Proof.
  pose proof (parse_seat_in_plan _ _ _ _ Ha) as Hplan.
  pose proof (parse_seat_in_plan _ _ _ _ Hb) as Hplan'.
  destruct (wf_with_update self r l (Some p) Hwf Hplan) as (Hwf1 & _ & Hother1).
  destruct (wf_with_update self r' l' (Some q) Hwf Hplan') as (Hwf2 & _ & Hother2).
  do 3 eexists. split_and!.
  - by apply allocate_seat_free.
  - apply allocate_seat_free; [done|done|]. simpl. by rewrite Hother1.
  - by apply allocate_seat_free.
  - rewrite (allocate_seat_free _ a p r l Hwf2);
      [|done|simpl; by rewrite Hother2]. simpl.
    rewrite !with_seating_twice. do 2 f_equal.
    apply update_commute. by eapply to_nat_pair_ne.
Qed.

Lemma allocations_commute_witness :
  ∃ self12,
    allocate_seat "3B" "Bea" (after (allocate_seat "2C" "Ann") tim_and_john)
    = (Return (), self12)
    ∧ allocate_seat "2C" "Ann" (after (allocate_seat "3B" "Bea") tim_and_john)
      = (Return (), self12).
Proof.
  destruct (allocations_commute tim_and_john "2C" "3B" "Ann" "Bea" 2 (ord "C") 3 (ord "B")
              tim_and_john_wf eq_refl eq_refl)
    as (self1 & self2 & self12 & H1 & H12 & H2 & H21); [done|reflexivity..|].
  exists self12. unfold after. rewrite H1, H2. by split.
Defined.

(** X8. On a well-formed flight, allocating a free seat and then
    relocating its passenger to another free seat leaves the same flight as
    allocating the second seat directly. *)
Theorem allocate_then_relocate (self : Flight) (a b p : str)
    (r : Z) (l : char) (r' : Z) (l' : char)
    (Hwf : wf self)
    (Ha : _parse_seat self a = Return (r, l))
    (Hb : _parse_seat self b = Return (r', l'))
    (Hne : (r, l) ≠ (r', l'))
    (Hfree : seat_at (_seating self) r l = Return None)
    (Hfree' : seat_at (_seating self) r' l' = Return None) :
  ∃ self1 self2,
    allocate_seat a p self = (Return (), self1)
    ∧ relocate_passenger a b self1 = (Return (), self2)
    ∧ allocate_seat b p self = (Return (), self2).
Proof.
  pose proof (parse_seat_in_plan _ _ _ _ Ha) as Hplan.
  pose proof (parse_seat_in_plan _ _ _ _ Hb) as Hplan'.
  destruct (wf_with_update self r l (Some p) Hwf Hplan) as (Hwf1 & Hnew & Hother).
  destruct (seat_at_wf _ _ _ Hwf Hplan) as (o & He & Hs).
  assert (o = None) as -> by congruence.
  pose proof (to_nat_pair_ne _ _ _ _ _ Hplan Hplan' Hne) as Hnat.
  do 2 eexists. split_and!.
  - by apply allocate_seat_free.
  - destruct (relocate_passenger_wf_eval _ a b r l r' l' p Hwf1) as (_ & _ & _ & ->);
      [done|done|done|simpl; by rewrite Hother|]. simpl. reflexivity.
  - rewrite (allocate_seat_free _ b p r' l' Hwf) by done.
    rewrite with_seating_twice. do 2 f_equal. simpl.
    rewrite (update_commute _ (Z.to_nat r') l' (Some p) (Z.to_nat r) l (Some p))
      by (intros H; by apply Hnat).
    rewrite update_update.
    rewrite (update_commute _ (Z.to_nat r) l None (Z.to_nat r') l' (Some p))
      by done.
    by rewrite (update_id _ (Z.to_nat r) l None).
Qed.

Lemma allocate_then_relocate_witness :
  ∃ self2,
    relocate_passenger "2C" "3B" (after (allocate_seat "2C" "Ann") tim_and_john)
    = (Return (), self2)
    ∧ allocate_seat "3B" "Ann" tim_and_john = (Return (), self2).
Proof.
  destruct (allocate_then_relocate tim_and_john "2C" "3B" "Ann" 2 (ord "C") 3 (ord "B")
              tim_and_john_wf eq_refl eq_refl)
    as (self1 & self2 & H1 & H2 & H3); [done|reflexivity..|].
  exists self2. unfold after. rewrite H1. by split.
Defined.

(** X9. On a well-formed flight two relocations in a row, from an occupied
    seat to a free one and on to another free one, leave the same flight as
    the single relocation from the first seat to the last. *)
Theorem relocations_compose (self : Flight) (a b c p : str)
    (r : Z) (l : char) (r' : Z) (l' : char) (r'' : Z) (l'' : char)
    (Hwf : wf self)
    (Ha : _parse_seat self a = Return (r, l))
    (Hb : _parse_seat self b = Return (r', l'))
    (Hc : _parse_seat self c = Return (r'', l''))
    (Hbc : (r', l') ≠ (r'', l''))
    (Hocc : seat_at (_seating self) r l = Return (Some p))
    (Hfree' : seat_at (_seating self) r' l' = Return None)
    (Hfree'' : seat_at (_seating self) r'' l'' = Return None) :
  ∃ self1 self2,
    relocate_passenger a b self = (Return (), self1)
    ∧ relocate_passenger b c self1 = (Return (), self2)
    ∧ relocate_passenger a c self = (Return (), self2).
Proof.
  pose proof (parse_seat_in_plan _ _ _ _ Ha) as Hplan.
  pose proof (parse_seat_in_plan _ _ _ _ Hb) as Hplan'.
  pose proof (parse_seat_in_plan _ _ _ _ Hc) as Hplan''.
  assert (Hab : (r, l) ≠ (r', l')) by congruence.
  assert (Hac : (r, l) ≠ (r'', l'')) by congruence.
  pose proof (to_nat_pair_ne _ _ _ _ _ Hplan Hplan' Hab) as Nab.
  pose proof (to_nat_pair_ne _ _ _ _ _ Hplan Hplan'' Hac) as Nac.
  pose proof (to_nat_pair_ne _ _ _ _ _ Hplan' Hplan'' Hbc) as Nbc.
  destruct (relocate_passenger_wf_eval _ a b _ _ _ _ _ Hwf Ha Hocc Hb Hfree')
    as (_ & He & He' & Hab_eval).
  destruct (relocate_passenger_wf_eval _ a c _ _ _ _ _ Hwf Ha Hocc Hc Hfree'')
    as (_ & _ & He'' & Hac_eval).
  set (s := _seating self) in *.
  set (s1 := update (Z.to_nat r) l None (update (Z.to_nat r') l' (Some p) s)) in *.
  assert (Hwf1 : wf (with_seating self s1)).
  { unfold wf. simpl. subst s1.
    eapply wf_update; [by eapply wf_update|]. by rewrite entry_update_ne. }
  assert (H1b : seat_at s1 r' l' = Return (Some p)).
  { subst s1. apply in_plan_bounds in Hplan, Hplan'.
    rewrite seat_at_update_ne by (done || lia).
    eapply seat_at_update_eq; [lia|done]. }
  assert (H1c : seat_at s1 r'' l'' = Return None).
  { subst s1. apply in_plan_bounds in Hplan, Hplan', Hplan''.
    rewrite !seat_at_update_ne by (done || lia). done. }
  do 2 eexists. split_and!; [exact Hab_eval| |].
  - destruct (relocate_passenger_wf_eval (with_seating self s1) b c r' l' r'' l'' p
                Hwf1 Hb H1b Hc H1c) as (_ & _ & _ & ->). reflexivity.
  - rewrite Hac_eval. simpl. rewrite with_seating_twice. do 2 f_equal.
    subst s1.
    rewrite (update_commute _ (Z.to_nat r'') l'' (Some p) (Z.to_nat r) l None)
      by (intros H; by apply Nac).
    rewrite (update_commute s (Z.to_nat r'') l'' (Some p) (Z.to_nat r') l' (Some p))
      by (intros H; by apply Nbc).
    rewrite (update_commute _ (Z.to_nat r) l None (Z.to_nat r') l' (Some p))
      by done.
    rewrite update_update. symmetry. apply update_id.
    rewrite !entry_update_ne by done. done.
Qed.

Lemma relocations_compose_witness :
  ∃ self2,
    relocate_passenger "2C" "3B"
      (after (relocate_passenger "1C" "2C") tim_and_john) = (Return (), self2)
    ∧ relocate_passenger "1C" "3B" tim_and_john = (Return (), self2).
Proof.
  destruct (relocations_compose tim_and_john "1C" "2C" "3B" "Tim"
              1 (ord "C") 2 (ord "C") 3 (ord "B") tim_and_john_wf eq_refl eq_refl eq_refl)
    as (self1 & self2 & H1 & H2 & H3); [done|reflexivity..|].
  exists self2. unfold after. rewrite H1. by split.
Defined.

(** ** The passengers of a flight *)

Lemma omap_change_at {A B} (g g' : A → option B) (l : list A) (k : A) :
  NoDup l → k ∈ l → (∀ x, x ∈ l → x ≠ k → g' x = g x) →
  ∃ rest, omap g l ≡ₚ option_list (g k) ++ rest
          ∧ omap g' l ≡ₚ option_list (g' k) ++ rest.
Proof.
  intros Hnodup [l' Hl']%elem_of_Permutation Hsame.
  rewrite Hl' in Hnodup. apply NoDup_cons in Hnodup as [Hk _].
  exists (omap g l'). rewrite !Hl'. split.
  - change (k :: l') with ([k] ++ l'). rewrite omap_app. simpl.
    by destruct (g k).
  - change (k :: l') with ([k] ++ l'). rewrite omap_app.
    assert (omap g' l' = omap g l') as ->.
    { apply list_omap_ext, Forall_Forall2_diag, Forall_forall.
      intros x Hx. apply Hsame; [rewrite Hl'; by apply list_elem_of_further|].
      by intros ->. }
    simpl. by destruct (g' k).
Qed.

Lemma occupied_update self r l v o :
  wf self → in_plan (_aircraft self) r l →
  seat_at (_seating self) r l = Return o →
  ∃ rest,
    occupied_seats self
    ≡ₚ option_list ((λ p, (p, designator r l)) <$> o) ++ rest
    ∧ occupied_seats (with_seating self (update (Z.to_nat r) l v (_seating self)))
      ≡ₚ option_list ((λ p, (p, designator r l)) <$> v) ++ rest.
Proof.
  intros Hwf Hplan Ho.
  destruct (wf_with_update self r l v Hwf Hplan) as (_ & Hnew & Hother).
  unfold occupied_seats. simpl.
  destruct (omap_change_at
    (λ k : Z * char,
       match seat_at (_seating self) k.1 k.2 with
       | Return (Some passenger) => Some (passenger, designator k.1 k.2)
       | _ => None
       end)
    (λ k : Z * char,
       match seat_at (update (Z.to_nat r) l v (_seating self)) k.1 k.2 with
       | Return (Some passenger) => Some (passenger, designator k.1 k.2)
       | _ => None
       end)
    (plan_seats (_aircraft self)) (r, l)) as (rest & H1 & H2).
  - apply plan_seats_NoDup.
  - by apply elem_of_plan_seats.
  - intros [r' l'] Hplan'%elem_of_plan_seats Hne. simpl.
    rewrite Hother; [done|done|congruence].
  - exists rest. simpl in H1, H2. rewrite Ho in H1. rewrite Hnew in H2.
    split; [by destruct o|by destruct v].
Qed.

(** X10. On a well-formed flight an allocation that returns adds exactly
    the new passenger to the passengers [_passenger_seats] yields, and a
    relocation that returns keeps them: no passenger is lost or duplicated. *)
Theorem passengers_kept (self : Flight) (Hwf : wf self) :
  ∃ seats,
    _passenger_seats self = Return seats
    ∧ (∀ seat passenger self',
         allocate_seat seat passenger self = (Return (), self') →
         ∃ seats', _passenger_seats self' = Return seats'
                   ∧ seats'.*1 ≡ₚ passenger :: seats.*1)
    ∧ (∀ from_seat to_seat self',
         relocate_passenger from_seat to_seat self = (Return (), self') →
         ∃ seats', _passenger_seats self' = Return seats'
                   ∧ seats'.*1 ≡ₚ seats.*1).
Proof.
  exists (occupied_seats self). split_and!; [by apply passenger_seats_wf| |].
  - intros seat passenger self' Halloc.
    destruct (allocate_seat_Return _ _ _ _ Halloc Hwf) as (r & l & Hparse & He & ->).
    pose proof (parse_seat_in_plan _ _ _ _ Hparse) as Hplan.
    destruct (wf_with_update self r l (Some passenger) Hwf Hplan) as (Hwf' & _).
    destruct (seat_at_wf _ _ _ Hwf Hplan) as (o & He' & Hs).
    assert (o = None) as -> by congruence.
    destruct (occupied_update self r l (Some passenger) None Hwf Hplan Hs)
      as (rest & H1 & H2).
    eexists. split; [by apply passenger_seats_wf|].
    rewrite H1, H2. done.
  - intros from_seat to_seat self' Hrel.
    destruct (relocate_passenger_Return _ _ _ _ Hrel Hwf)
      as (r & l & r' & l' & p & Hfrom & Hp & Hto & Hq).
    destruct (relocate_passenger_wf_eval _ _ _ _ _ _ _ _ Hwf Hfrom Hp Hto Hq)
      as (Hne & He & He' & Heq).
    rewrite Heq in Hrel. injection Hrel as <-.
    pose proof (parse_seat_in_plan _ _ _ _ Hfrom) as Hplan.
    pose proof (parse_seat_in_plan _ _ _ _ Hto) as Hplan'.
    destruct (wf_with_update self r' l' (Some p) Hwf Hplan') as (Hwf1 & _ & Hother).
    destruct (occupied_update self r' l' (Some p) None Hwf Hplan' Hq)
      as (rest1 & H1 & H2).
    destruct (occupied_update _ r l None (Some p) Hwf1 Hplan) as (rest2 & H3 & H4).
    { simpl. rewrite Hother by done. done. }
    destruct (wf_with_update _ r l None Hwf1 Hplan) as (Hwf2 & _).
    simpl in H4, Hwf2. rewrite with_seating_twice in H4, Hwf2.
    eexists. split; [by apply passenger_seats_wf|].
    rewrite H4, H1. simpl in *.
    rewrite H2 in H3. apply (fmap_Permutation fst) in H3. simpl in H3.
    symmetry. by apply Permutation_cons_inv in H3.
Qed.

Lemma passengers_kept_witness :
  ∃ seats seats',
    _passenger_seats tim_and_john = Return seats
    ∧ _passenger_seats (after (relocate_passenger "1C" "2C") tim_and_john)
      = Return seats'
    ∧ seats'.*1 ≡ₚ seats.*1.
Proof.
  destruct (passengers_kept tim_and_john tim_and_john_wf)
    as (seats & Hseats & _ & Hrel).
  destruct (Hrel "1C" "2C" (after (relocate_passenger "1C" "2C") tim_and_john)
              eq_refl) as (seats' & Hseats' & Hperm).
  exists seats, seats'. split; [exact Hseats|]. split; [exact Hseats'|exact Hperm].
Defined.

(** ** The accessors of a flight *)

Lemma reachable_init number aircraft f :
  reachable number aircraft f → ∃ f0, __init__ number aircraft = Return f0.
Proof. induction 1; eauto. Qed.

(** X11. Whatever allocations and relocations a flight has gone through,
    [number()] is the number it was constructed with, [aircraft_model()] the
    model of its aircraft, and [airline()] the first two characters of the
    number: two alphabetic characters, neither of them lowercase or
    titlecase and at least one of them uppercase, which the number continues
    with decimal digits of value at most 9999. *)
Theorem accessors_fixed (n : str) (aircraft : Aircraft) (f : Flight)
    (Hreach : reachable n aircraft f) :
  number f = n
  ∧ aircraft_model f = model aircraft
  ∧ airline f = Str.slice_to 2 n
  ∧ ∃ c1 c2 route,
      airline f = StrCons c1 (StrCons c2 "")
      ∧ airline_code c1 c2
      ∧ number f = airline f +:+ route
      ∧ Str.int route = Some (decimal_number route)
      ∧ decimal_number route ≤ 9999.
Proof.
  destruct (reachable_wf _ _ _ Hreach) as (Hn & Ha & _).
  destruct (reachable_init _ _ _ Hreach) as [f0 Hinit].
  apply init_returns in Hinit as (c1 & c2 & route & Heq & Hcode & Hne & Hdec & Hle).
  unfold number, aircraft_model, airline. rewrite Hn, Ha.
  split_and!; [done..|].
  exists c1, c2, route. rewrite Heq. split_and!; try done.
  by apply int_decimal_string.
Qed.

Lemma accessors_fixed_witness :
  number tim_and_john = "AB221" ∧ airline tim_and_john = "AB".
Proof.
  assert (Hreach : reachable "AB221" (AirbusA319 "G-BGT2") tim_and_john)
    by (apply reach_allocate, reach_allocate, reach_init; reflexivity).
  destruct (accessors_fixed "AB221" (AirbusA319 "G-BGT2") tim_and_john Hreach)
    as (Hn & _ & Hair & _).
  by split.
Defined.

(** ** The console printer *)

Lemma append_cons (x : char) (a b : str) :
  StrCons x a +:+ b = StrCons x (a +:+ b).
Proof. reflexivity. Qed.

Lemma length_append (a b : str) :
  Str.length (a +:+ b) = (Str.length a + Str.length b)%nat.
Proof.
  induction a as [|c a IH]; [done|]. rewrite append_cons. simpl. by rewrite IH.
Qed.

Lemma append_assoc (a b c : str) : (a +:+ b) +:+ c = a +:+ (b +:+ c).
Proof.
  induction a as [|x a IH]; [done|]. rewrite !append_cons. by rewrite IH.
Qed.

Lemma length_repeat_char c (n : Z) :
  Str.length (repeat_char c n) = Z.to_nat n.
Proof.
  unfold repeat_char. induction (Z.to_nat n) as [|k IH]; [done|].
  simpl. by rewrite IH.
Qed.

Lemma len_card_output passenger seat flight_number aircraft :
  len (card_output passenger seat flight_number aircraft)
  = 40 + len passenger + len flight_number + len seat + len aircraft.
Proof.
  unfold len, card_output. rewrite !length_append. simpl. lia.
Qed.

(** X12. A card of [console_card_printer] is a box: its five lines, the
    banner, a border, the text, a border and the banner, all have the
    length of the text line, 40 characters more than the four fields
    together; the printer appends them to what was printed before, one per
    line, followed by an empty line. *)
Theorem card_is_a_box (passenger seat flight_number aircraft stdout : str) :
  let lines := card_lines passenger seat flight_number aircraft in
  let width := 40 + len passenger + len flight_number + len seat + len aircraft in
  (∃ banner border,
     lines = [banner; border;
              card_output passenger seat flight_number aircraft;
              border; banner]
     ∧ banner = "+" +:+ repeat_char (ord "-") (width - 2) +:+ "+"
     ∧ border = "|" +:+ repeat_char (ord " ") (width - 2) +:+ "|")
  ∧ Forall (λ line, len line = width) lines
  ∧ console_card_printer passenger seat flight_number aircraft stdout
    = stdout +:+ join newline lines +:+ newline +:+ newline.
Proof.
  intros lines width. subst lines width.
  pose proof (len_card_output passenger seat flight_number aircraft) as Hlen.
  unfold card_lines. rewrite Hlen. split_and!.
  - by eexists _, _.
  - assert (∀ c d : char,
      len (StrCons c (repeat_char d
             (40 + len passenger + len flight_number + len seat + len aircraft - 2)
           +:+ StrCons c ""))
      = 40 + len passenger + len flight_number + len seat + len aircraft) as Hbox.
    { intros c d. unfold len in *. simpl.
      rewrite length_append, length_repeat_char. simpl. lia. }
    repeat constructor; try apply Hbox. exact Hlen.
  - unfold console_card_printer, print, card_lines. rewrite Hlen.
    by rewrite !append_assoc.
Qed.

Lemma append_empty_r (a : str) : a +:+ "" = a.
Proof.
  induction a as [|x a IH]; [done|]. rewrite append_cons. by rewrite IH.
Qed.

Lemma console_card_printer_text passenger seat flight_number aircraft stdout :
  console_card_printer passenger seat flight_number aircraft stdout
  = stdout +:+ card_text passenger seat flight_number aircraft.
Proof.
  unfold console_card_printer, print, card_text. by rewrite !append_assoc.
Qed.

Lemma foldl_console_card_printer (flight_number aircraft : str)
    (l : list (str * str)) stdout :
  foldl (λ w '(passenger, seat),
           console_card_printer passenger seat flight_number aircraft w) stdout l
  = stdout +:+ concat_strings
                 ((λ '(passenger, seat),
                     card_text passenger seat flight_number aircraft) <$> l).
Proof.
  revert stdout. induction l as [|[p s] l IH]; intros stdout; simpl.
  - by rewrite append_empty_r.
  - by rewrite IH, console_card_printer_text, append_assoc.
Qed.

(** X13. On a well-formed flight [make_boarding_cards] with
    [console_card_printer] keeps what was printed before and appends one
    card, with its empty line, for each pair of [_passenger_seats], in the
    order of [sorted]; as many cards as the aircraft has seats that are not
    available. *)
Theorem console_boarding_cards (self : Flight) (Hwf : wf self) (stdout : str) :
  ∃ seats,
    _passenger_seats self = Return seats
    ∧ make_boarding_cards console_card_printer self stdout
      = Return (stdout +:+ concat_strings
                  ((λ '(passenger, seat),
                      card_text passenger seat (number self) (aircraft_model self))
                   <$> sorted seats))
    ∧ (length (sorted seats) + num_seats_available self
       = num_seats (_aircraft self))%nat.
Proof.
  exists (occupied_seats self).
  pose proof (passenger_seats_wf self Hwf) as Hseats. split_and!.
  - done.
  - unfold make_boarding_cards. rewrite Hseats. simpl.
    by rewrite foldl_console_card_printer.
  - rewrite sorted_Permutation.
    pose proof (free_or_occupied self Hwf) as Hsum.
    rewrite <- num_seats_available_free in Hsum by done. lia.
Qed.

Lemma console_boarding_cards_witness :
  ∃ seats,
    _passenger_seats tim_and_john = Return seats
    ∧ (length (sorted seats) + num_seats_available tim_and_john = 132)%nat.
Proof.
  destruct (console_boarding_cards tim_and_john tim_and_john_wf "")
    as (seats & Hseats & _ & Hcount).
  exists seats. by split.
Defined.

(** ** The sample flights *)

Lemma call_after {A} (m : M A) (self : Flight) (a : A) :
  (m self).1 = Return a → call m self = Return (after m self).
Proof. unfold call, after. destruct (m self) as [[a'|e] self']; by intros [= ->]. Qed.

(** [make_flights] raises nothing: each seat it allocates is in the plan of
    its aircraft and free when allocated. *)
Lemma make_flights_returns :
  make_flights = Return (flight_AB221, flight_AF72)
  ∧ reachable "AB221" (AirbusA319 "G-BGT2") flight_AB221
  ∧ reachable "AF72" (Boeing777 "F-GBPS") flight_AF72
  ∧ num_seats_available flight_AB221 = 127%nat
  ∧ num_seats_available flight_AF72 = 546%nat.
Proof.
  split_and!.
  - unfold make_flights, flight_AB221, flight_AF72.
    change (__init__ "AB221" (AirbusA319 "G-BGT2"))
      with (Return (new_flight "AB221" (AirbusA319 "G-BGT2"))).
    change (__init__ "AF72" (Boeing777 "F-GBPS"))
      with (Return (new_flight "AF72" (Boeing777 "F-GBPS"))).
    cbv [mbind outcome_bind].
    repeat (erewrite call_after by (vm_compute; reflexivity)).
    reflexivity.
  - do 5 apply reach_allocate. by apply reach_init.
  - do 4 apply reach_allocate. by apply reach_init.
  - vm_compute. reflexivity.
  - vm_compute. reflexivity.
Qed.
